(** * darololomMIS: calendar conversion and term progression

    A shallow embedding of the date converters of [core/forms.py] and
    [core/views.py] and of the promotion logic of [core/views.py], with the
    properties of the Academic Term Resolution & Progression Engine stated and
    proved over it; then the code around them: the reference data, the forms
    that clean a learner and a subject, the entry of scores, the crossover and
    its certificate.

    Python integers are [Z]; [//] and [%] are [Z.div] and [Z.modulo] (both
    floor towards minus infinity for a positive divisor, as in Python).  A
    Python call either returns a value or raises: [pyresult].  Database tables
    are lists of rows, and the code that reads and writes them runs in a state
    monad over the tables. *)

From Stdlib Require Import String Ascii ZArith List Bool Lia Permutation.
From Stdlib Require DecimalZ.
Import ListNotations.
Open Scope Z_scope.

(** ** Python values *)

(** An exception is identified by the name of its class. *)
Definition exn := string.

Inductive pyresult (A : Type) : Type :=
| Return (a : A)
| Raise (e : exn).
Arguments Return {A} a.
Arguments Raise {A} e.

Definition raises {A : Type} (r : pyresult A) : bool :=
  match r with
  | Return _ => false
  | Raise _ => true
  end.

Definition pybind {A B : Type} (r : pyresult A) (k : A -> pyresult B) : pyresult B :=
  match r with
  | Return a => k a
  | Raise e => Raise e
  end.

(** [l[i]]: a negative index counts from the end, an index out of range raises
    [IndexError]. *)
Definition py_getitem {A : Type} (l : list A) (i : Z) : pyresult A :=
  let n := Z.of_nat (List.length l) in
  let k := if i <? 0 then i + n else i in
  if (0 <=? k) && (k <? n) then
    match nth_error l (Z.to_nat k) with
    | Some x => Return x
    | None => Raise "IndexError"%string
    end
  else Raise "IndexError"%string.

(** A [str] is the sequence of its code points. *)
Definition str := list Z.

Definition codes (s : string) : str :=
  map (fun a => Z.of_N (N_of_ascii a)) (list_ascii_of_string s).

(** [ch.isspace()] *)
Definition isspace (c : Z) : bool :=
  ((9 <=? c) && (c <=? 13)) || ((28 <=? c) && (c <=? 32)) || (c =? 133) || (c =? 160)
  || (c =? 5760) || ((8192 <=? c) && (c <=? 8202)) || (c =? 8232) || (c =? 8233)
  || (c =? 8239) || (c =? 8287) || (c =? 12288).

Fixpoint lstrip (s : str) : str :=
  match s with
  | [] => []
  | c :: rest => if isspace c then lstrip rest else s
  end.

(** [s.strip()] *)
Definition strip (s : str) : str := rev (lstrip (rev (lstrip s))).

(** [s.replace(a, b)] for one-character [a] and [b]. *)
Definition replace (a b : Z) (s : str) : str :=
  map (fun c => if c =? a then b else c) s.

(** [s.split(sep)] for a one-character separator: empty pieces are kept. *)
Fixpoint split (sep : Z) (s : str) : list str :=
  match s with
  | [] => [[]]
  | c :: rest =>
      if c =? sep then [] :: split sep rest
      else match split sep rest with
           | [] => [[c]]
           | p :: ps => (c :: p) :: ps
           end
  end.

Definition nonempty (s : str) : bool :=
  match s with
  | [] => false
  | _ :: _ => true
  end.

(** The decimal fragment of the builtin [int] used to run the parser on
    concrete texts: an optional sign, then one or more ASCII digits. *)
Fixpoint digits_value (acc : Z) (s : str) : option Z :=
  match s with
  | [] => Some acc
  | c :: rest =>
      if (48 <=? c) && (c <=? 57) then digits_value (10 * acc + (c - 48)) rest else None
  end.

Definition unsigned_int (s : str) : pyresult Z :=
  match s with
  | [] => Raise "ValueError"%string
  | _ :: _ =>
      match digits_value 0 s with
      | Some v => Return v
      | None => Raise "ValueError"%string
      end
  end.

Definition int_ascii (s : str) : pyresult Z :=
  match s with
  | [] => Raise "ValueError"%string
  | c :: rest =>
      if c =? 43 then unsigned_int rest
      else if c =? 45 then pybind (unsigned_int rest) (fun v => Return (- v))
      else unsigned_int s
  end.

(** ** datetime.date *)

Module datetime.

Record date_t := mk_date { year : Z; month : Z; day : Z }.

Definition _is_leap (year : Z) : bool :=
  (year mod 4 =? 0) && (negb (year mod 100 =? 0) || (year mod 400 =? 0)).

Definition _DAYS_IN_MONTH : list Z := [-1; 31; 28; 31; 30; 31; 30; 31; 31; 30; 31; 30; 31].

Definition _days_in_month (year month : Z) : Z :=
  if (month =? 2) && _is_leap year then 29
  else nth (Z.to_nat month) _DAYS_IN_MONTH 0.

Definition c_int (v : Z) : bool := (- 2147483648 <=? v) && (v <=? 2147483647).

(** [datetime.date(year, month, day)]: the arguments are C ints, the year is
    in 1..9999, the month in 1..12, the day in 1..days of that month. *)
Definition date (year month day : Z) : pyresult date_t :=
  if negb (c_int year && c_int month && c_int day) then Raise "OverflowError"%string
  else if negb ((1 <=? year) && (year <=? 9999)) then Raise "ValueError"%string
  else if negb ((1 <=? month) && (month <=? 12)) then Raise "ValueError"%string
  else if negb ((1 <=? day) && (day <=? _days_in_month year month)) then
    Raise "ValueError"%string
  else Return (mk_date year month day).

End datetime.

(** ** core/forms.py *)

(** The leap test written inside [sal_a]. *)
Definition is_leap (gy : Z) : bool :=
  ((gy mod 4 =? 0) && negb (gy mod 100 =? 0)) || (gy mod 400 =? 0).

Definition sal_a (gy : Z) : list Z :=
  [0; 31; if is_leap gy then 29 else 28; 31; 30; 31; 30; 31; 31; 30; 31; 30; 31].

(** [while gm <= 12 and gd > sal_a[gm]: gd -= sal_a[gm]; gm += 1], started at
    [gm = 1]: a walk along [sal_a[1:]], which ends with [gm = 13] when the
    list is used up. *)
Fixpoint month_walk (sal : list Z) (gm gd : Z) : Z * Z :=
  match sal with
  | [] => (gm, gd)
  | len :: rest => if gd >? len then month_walk rest (gm + 1) (gd - len) else (gm, gd)
  end.

Definition g_d_m : list Z := [0; 31; 59; 90; 120; 151; 181; 212; 243; 273; 304; 334].

Module forms.

Definition mapping : list (Z * Z) :=
  [(1776, 48); (1777, 49); (1778, 50); (1779, 51); (1780, 52);
   (1781, 53); (1782, 54); (1783, 55); (1784, 56); (1785, 57)].

Fixpoint mapping_get (m : list (Z * Z)) (ch : Z) (default : Z) : Z :=
  match m with
  | [] => default
  | (k, v) :: rest => if k =? ch then v else mapping_get rest ch default
  end.

Definition _persian_to_ascii (value : str) : str :=
  map (fun ch => mapping_get mapping ch ch) value.

Definition _jalali_to_gregorian (jy jm jd : Z) : Z * Z * Z :=
  let jy := jy + 1595 in
  let days := -355668 + (365 * jy) + (jy / 33) * 8 + ((jy mod 33) + 3) / 4 + jd in
  let days := if jm <? 7 then days + (jm - 1) * 31 else days + ((jm - 7) * 30) + 186 in
  let gy := 400 * (days / 146097) in
  let days := days mod 146097 in
  let '(gy, days) :=
    if days >? 36524 then
      let gy := gy + 100 * ((days - 1) / 36524) in
      let days := (days - 1) mod 36524 in
      (gy, if days >=? 365 then days + 1 else days)
    else (gy, days) in
  let gy := gy + 4 * (days / 1461) in
  let days := days mod 1461 in
  let '(gy, days) :=
    if days >? 365 then (gy + (days - 1) / 365, (days - 1) mod 365) else (gy, days) in
  let gd := days + 1 in
  let '(gm, gd) := month_walk (tl (sal_a gy)) 1 gd in
  (gy, gm, gd).

Definition _gregorian_to_jalali (gy gm gd : Z) : pyresult (Z * Z * Z) :=
  let gy2 := if gm >? 2 then gy + 1 else gy in
  pybind (py_getitem g_d_m (gm - 1)) (fun off =>
  let days :=
    355666 + (365 * gy) + ((gy2 + 3) / 4) - ((gy2 + 99) / 100) + ((gy2 + 399) / 400)
    + gd + off in
  let jy := -1595 + 33 * (days / 12053) in
  let days := days mod 12053 in
  let jy := jy + 4 * (days / 1461) in
  let days := days mod 1461 in
  let '(jy, days) :=
    if days >? 365 then (jy + (days - 1) / 365, (days - 1) mod 365) else (jy, days) in
  let jm := if days <? 186 then 1 + days / 31 else 7 + (days - 186) / 30 in
  let jd := if days <? 186 then 1 + days mod 31 else 1 + (days - 186) mod 30 in
  Return (jy, jm, jd)).

Section Parsing.

(** The builtin [int] applied to a text. *)
Variable int : str -> pyresult Z.

(** [[p for p in raw.split('/') if p]] after the separators are unified. *)
Definition components (raw : str) : list str :=
  filter nonempty (split 47 (replace 46 47 (replace 45 47 raw))).

Definition _parse_birth_date (value : str) : pyresult (option datetime.date_t) :=
  let raw := strip (_persian_to_ascii value) in
  if negb (nonempty raw) then Return None
  else
    match components raw with
    | [p1; p2; p3] =>
        pybind (int p1) (fun year =>
        pybind (int p2) (fun month =>
        pybind (int p3) (fun day =>
        if year >=? 1700 then
          pybind (datetime.date year month day) (fun d => Return (Some d))
        else
          let '(gy, gm, gd) := _jalali_to_gregorian year month day in
          pybind (datetime.date gy gm gd) (fun d => Return (Some d)))))
    | _ => Raise "ValueError"%string
    end.

End Parsing.

End forms.

(** ** core/models.py *)

(** Modelled from the spec: [core/models.py] is not among the sources.  The
    rows below carry the fields that [views.py] and [forms.py] read and write.
    A curriculum level is identified by its code, a semester and a period by
    their ordinal [number] (the spec's "identity code" and "ordinal"), so a
    foreign key is compared through those; a subject and a student have a
    primary key [id], and a score record points to both by key. *)

Module StudyLevel.
Record t := mk { code : string; name : string }.
Definition same (a b : t) : bool := String.eqb (code a) (code b).
End StudyLevel.

Module Semester.
Record t := mk { number : Z }.
Definition same (a b : t) : bool := number a =? number b.
End Semester.

Module CoursePeriod.
Record t := mk { number : Z }.
Definition same (a b : t) : bool := number a =? number b.
End CoursePeriod.

Module SchoolClass.
Record t := mk {
  level : option StudyLevel.t;
  semester : option Semester.t;
  period : option CoursePeriod.t
}.
End SchoolClass.

Module Subject.
Record t := mk {
  id : Z;
  level : option StudyLevel.t;
  semester : option Z;
  period : option CoursePeriod.t
}.
End Subject.

Module StudentScore.
Record t := mk { student : Z; subject : Z; score : option Z }.
End StudentScore.

Module Student.
Record t := mk {
  id : Z;
  level : option StudyLevel.t;
  school_class : option SchoolClass.t;
  is_graduated : bool;
  semesters : list Semester.t;
  periods : list CoursePeriod.t
}.

Definition set_level (v : option StudyLevel.t) (s : t) : t :=
  mk (id s) v (school_class s) (is_graduated s) (semesters s) (periods s).
Definition set_school_class (v : option SchoolClass.t) (s : t) : t :=
  mk (id s) (level s) v (is_graduated s) (semesters s) (periods s).
Definition set_is_graduated (v : bool) (s : t) : t :=
  mk (id s) (level s) (school_class s) v (semesters s) (periods s).
Definition set_semesters (v : list Semester.t) (s : t) : t :=
  mk (id s) (level s) (school_class s) (is_graduated s) v (periods s).
Definition set_periods (v : list CoursePeriod.t) (s : t) : t :=
  mk (id s) (level s) (school_class s) (is_graduated s) (semesters s) v.
End Student.

(** The tables the promotion code reads and writes. *)
Record DB := mkDB {
  StudyLevel_objects : list StudyLevel.t;
  Semester_objects : list Semester.t;
  CoursePeriod_objects : list CoursePeriod.t;
  Subject_objects : list Subject.t;
  StudentScore_objects : list StudentScore.t
}.

Definition with_levels (v : list StudyLevel.t) (db : DB) : DB :=
  mkDB v (Semester_objects db) (CoursePeriod_objects db) (Subject_objects db)
    (StudentScore_objects db).
Definition with_semesters (v : list Semester.t) (db : DB) : DB :=
  mkDB (StudyLevel_objects db) v (CoursePeriod_objects db) (Subject_objects db)
    (StudentScore_objects db).
Definition with_periods (v : list CoursePeriod.t) (db : DB) : DB :=
  mkDB (StudyLevel_objects db) (Semester_objects db) v (Subject_objects db)
    (StudentScore_objects db).

(** A view function: it may raise, and it may change the tables. *)
Definition M (A : Type) : Type := DB -> pyresult (A * DB).

Definition ret {A : Type} (a : A) : M A := fun db => Return (a, db).

Definition bind {A B : Type} (m : M A) (k : A -> M B) : M B :=
  fun db =>
    match m db with
    | Return (a, db') => k a db'
    | Raise e => Raise e
    end.

Notation "x <- m ;; k" := (bind m (fun x => k))
  (at level 61, m at next level, right associativity).
Notation "m ;;; k" := (bind m (fun _ => k))
  (at level 61, right associativity).

(** [qs.order_by('-number').first()] *)
Fixpoint first_by_number_desc {A : Type} (number : A -> Z) (qs : list A) : option A :=
  match qs with
  | [] => None
  | x :: rest =>
      match first_by_number_desc number rest with
      | None => Some x
      | Some y => if number x <? number y then Some y else Some x
      end
  end.

(** [qs.order_by('id')] on subjects. *)
Fixpoint insert_by_id (s : Subject.t) (qs : list Subject.t) : list Subject.t :=
  match qs with
  | [] => [s]
  | x :: rest =>
      if Subject.id s <=? Subject.id x then s :: x :: rest else x :: insert_by_id s rest
  end.

Fixpoint order_by_id (qs : list Subject.t) : list Subject.t :=
  match qs with
  | [] => []
  | x :: rest => insert_by_id x (order_by_id rest)
  end.

(** [Q(level=level_obj) | Q(level__isnull=True)] *)
Definition level_or_null (level_obj : StudyLevel.t) (s : Subject.t) : bool :=
  match Subject.level s with
  | None => true
  | Some l => StudyLevel.same l level_obj
  end.

Definition semester_is (n : Z) (s : Subject.t) : bool :=
  match Subject.semester s with
  | None => false
  | Some k => k =? n
  end.

Definition period_is (p : CoursePeriod.t) (s : Subject.t) : bool :=
  match Subject.period s with
  | None => false
  | Some q => CoursePeriod.same q p
  end.

Definition score_isnull (r : StudentScore.t) : bool :=
  match StudentScore.score r with
  | None => true
  | Some _ => false
  end.

Definition score_lt (bound : Z) (r : StudentScore.t) : bool :=
  match StudentScore.score r with
  | None => false
  | Some v => v <? bound
  end.

(** [StudentScore.objects.filter(student=student, subject__in=subjects)] *)
Definition scores_of (student : Student.t) (subjects : list Subject.t) (db : DB)
  : list StudentScore.t :=
  filter (fun r => (StudentScore.student r =? Student.id student)
                   && existsb (fun s => Subject.id s =? StudentScore.subject r) subjects)
    (StudentScore_objects db).

(** What [_auto_promote_student] returns besides [None]. *)
Inductive message : Type :=
| msg_graduated                      (* 'دانش‌آموز فارغ شد.' *)
| msg_semester (n : Z)               (* f'دانش‌آموز به سمستر {n} ارتقا یافت.' *)
| msg_period (n : Z).                (* f'دانش‌آموز به دوره {n} ارتقا یافت.' *)

(** How [student_promote_to_moteseta] answers. *)
Inductive flash : Type :=
| error_not_eligible                 (* 'شرایط ارتقا به متوسطه تکمیل نیست.' *)
| error_no_moteseta                  (* 'سطح متوسطه در سیستم تعریف نشده است.' *)
| success_promoted.                  (* 'دانش‌آموز به سطح متوسطه ارتقا یافت. ...' *)

(** ** core/views.py *)

Module views.

Definition _gregorian_to_jalali (gy gm gd : Z) : pyresult (Z * Z * Z) :=
  let '(jy, gy) := if gy >? 1600 then (979, gy - 1600) else (0, gy - 621) in
  let gy2 := if gm >? 2 then gy + 1 else gy in
  pybind (py_getitem g_d_m (gm - 1)) (fun off =>
  let days :=
    365 * gy + (gy2 + 3) / 4 - (gy2 + 99) / 100 + (gy2 + 399) / 400 - 80 + gd + off in
  let jy := jy + 33 * (days / 12053) in
  let days := days mod 12053 in
  let jy := jy + 4 * (days / 1461) in
  let days := days mod 1461 in
  let '(jy, days) :=
    if days >? 365 then (jy + (days - 1) / 365, (days - 1) mod 365) else (jy, days) in
  if days <? 186 then Return (jy, 1 + days / 31, 1 + days mod 31)
  else Return (jy, 7 + (days - 186) / 30, 1 + (days - 186) mod 30)).

Definition level_defs : list (string * string) :=
  [("aali", "عالی"); ("moteseta", "متوسطه"); ("ebtedai", "ابتداییه")]%string.

(** [level_map.get(code)] *)
Fixpoint level_map_get (level_map : list (string * StudyLevel.t)) (code : string)
  : option StudyLevel.t :=
  match level_map with
  | [] => None
  | (k, v) :: rest => if String.eqb k code then Some v else level_map_get rest code
  end.

(** [StudyLevel.objects.get_or_create(code=code, defaults={'name': name})]
    followed by the correction of the name. *)
Definition ensure_level (code name : string) : M StudyLevel.t := fun db =>
  match find (fun l => String.eqb (StudyLevel.code l) code) (StudyLevel_objects db) with
  | None =>
      let obj := StudyLevel.mk code name in
      Return (obj, with_levels (StudyLevel_objects db ++ [obj]) db)
  | Some obj =>
      if String.eqb (StudyLevel.name obj) name then Return (obj, db)
      else
        let obj' := StudyLevel.mk (StudyLevel.code obj) name in
        Return (obj', with_levels
                        (map (fun l => if StudyLevel.same l obj then obj' else l)
                           (StudyLevel_objects db)) db)
  end.

(** [Semester.objects.get_or_create(number=n)] *)
Definition ensure_semester (n : Z) : M Semester.t := fun db =>
  match find (fun s => Semester.number s =? n) (Semester_objects db) with
  | Some obj => Return (obj, db)
  | None =>
      let obj := Semester.mk n in
      Return (obj, with_semesters (Semester_objects db ++ [obj]) db)
  end.

(** [CoursePeriod.objects.get_or_create(number=n)] *)
Definition ensure_period (n : Z) : M CoursePeriod.t := fun db =>
  match find (fun p => CoursePeriod.number p =? n) (CoursePeriod_objects db) with
  | Some obj => Return (obj, db)
  | None =>
      let obj := CoursePeriod.mk n in
      Return (obj, with_periods (CoursePeriod_objects db ++ [obj]) db)
  end.

Fixpoint ensure_levels (defs : list (string * string)) : M (list (string * StudyLevel.t)) :=
  match defs with
  | [] => ret []
  | (code, name) :: rest =>
      obj <- ensure_level code name ;;
      level_map <- ensure_levels rest ;;
      ret ((code, obj) :: level_map)
  end.

Fixpoint for_each {A B : Type} (f : A -> M B) (l : list A) : M unit :=
  match l with
  | [] => ret tt
  | x :: rest => f x ;;; for_each f rest
  end.

Definition _ensure_reference_data : M (list (string * StudyLevel.t)) :=
  level_map <- ensure_levels level_defs ;;
  for_each ensure_semester [1; 2; 3; 4] ;;;
  for_each ensure_period [1; 2; 3; 4; 5; 6] ;;;
  ret level_map.

(** Reading the tables. *)
Definition query {A : Type} (f : DB -> A) : M A := fun db => Return (f db, db).

Definition raise {A : Type} (e : exn) : M A := fun _ => Raise e.

(** [Semester.objects.create(number=n)] *)
Definition create_semester (n : Z) : M Semester.t := fun db =>
  let obj := Semester.mk n in
  Return (obj, with_semesters (Semester_objects db ++ [obj]) db).

(** [CoursePeriod.objects.create(number=n)] *)
Definition create_period (n : Z) : M CoursePeriod.t := fun db =>
  let obj := CoursePeriod.mk n in
  Return (obj, with_periods (CoursePeriod_objects db ++ [obj]) db).

Definition _auto_promote_student (student : Student.t) : M (option message * Student.t) :=
  if Student.is_graduated student then ret (None, student)
  else
    let level_obj :=
      match Student.level student with
      | Some l => Some l
      | None =>
          match Student.school_class student with
          | Some c => SchoolClass.level c
          | None => None
          end
      end in
    level_map <- _ensure_reference_data ;;
    let latest_semester :=
      match first_by_number_desc Semester.number (Student.semesters student) with
      | Some s => Some s
      | None =>
          match Student.school_class student with
          | Some c => SchoolClass.semester c
          | None => None
          end
      end in
    let latest_period :=
      match first_by_number_desc CoursePeriod.number (Student.periods student) with
      | Some p => Some p
      | None =>
          match Student.school_class student with
          | Some c => SchoolClass.period c
          | None => None
          end
      end in
    let level_obj :=
      match level_obj with
      | Some l => Some l
      | None =>
          match latest_semester, latest_period with
          | Some _, None => level_map_get level_map "aali"
          | _, Some _ =>
              match level_map_get level_map "moteseta" with
              | Some l => Some l
              | None => level_map_get level_map "ebtedai"
              end
          | None, None => None
          end
      end in
    match level_obj with
    | None => ret (None, student)
    | Some level_obj =>
        let level_code := StudyLevel.code level_obj in
        if String.eqb level_code "" then ret (None, student)
        else
          (* the part after [subjects] is chosen *)
          let evaluate (subjects : list Subject.t) : M (option message * Student.t) :=
            let subjects := order_by_id subjects in
            if negb (0 <? Z.of_nat (List.length subjects)) then ret (None, student)
            else
              scores_qs <- query (scores_of student subjects) ;;
              if (List.length scores_qs <? List.length subjects)%nat
              then ret (None, student)
              else if existsb score_isnull scores_qs then ret (None, student)
              else if existsb (score_lt 50) scores_qs then ret (None, student)
              else if String.eqb level_code "aali" then
                match latest_semester with
                | None => raise "AttributeError"%string
                | Some sem =>
                    let current := Semester.number sem in
                    if current >=? 4 then
                      ret (Some msg_graduated, Student.set_is_graduated true student)
                    else
                      found <- query (fun db =>
                                 find (fun s => Semester.number s =? current + 1)
                                   (Semester_objects db)) ;;
                      next_sem <- match found with
                                  | Some s => ret s
                                  | None => create_semester (current + 1)
                                  end ;;
                      ret (Some (msg_semester (current + 1)),
                           Student.set_is_graduated false
                             (Student.set_semesters [next_sem] student))
                end
              else if String.eqb level_code "moteseta" || String.eqb level_code "ebtedai" then
                match latest_period with
                | None => raise "AttributeError"%string
                | Some per =>
                    let current := CoursePeriod.number per in
                    if current >=? 6 then
                      ret (Some msg_graduated, Student.set_is_graduated true student)
                    else
                      found <- query (fun db =>
                                 find (fun p => CoursePeriod.number p =? current + 1)
                                   (CoursePeriod_objects db)) ;;
                      next_period <- match found with
                                     | Some p => ret p
                                     | None => create_period (current + 1)
                                     end ;;
                      ret (Some (msg_period (current + 1)),
                           Student.set_is_graduated false
                             (Student.set_periods [next_period] student))
                end
              else ret (None, student) in
          if String.eqb level_code "aali" then
            match latest_semester with
            | None => ret (None, student)
            | Some sem =>
                subjects <- query (fun db =>
                  filter (level_or_null level_obj)
                    (filter (semester_is (Semester.number sem)) (Subject_objects db))) ;;
                evaluate subjects
            end
          else if String.eqb level_code "moteseta" || String.eqb level_code "ebtedai" then
            match latest_period with
            | None => ret (None, student)
            | Some per =>
                subjects <- query (fun db =>
                  filter (level_or_null level_obj)
                    (filter (period_is per) (Subject_objects db))) ;;
                evaluate subjects
            end
          else ret (None, student)
    end.

Definition _can_graduate_ebtedai (student : Student.t) : M (bool * option CoursePeriod.t) :=
  let level_obj :=
    match Student.level student with
    | Some l => Some l
    | None =>
        match Student.school_class student with
        | Some c => SchoolClass.level c
        | None => None
        end
    end in
  level_map <- _ensure_reference_data ;;
  let level_obj :=
    match level_obj with
    | Some l => Some l
    | None => level_map_get level_map "ebtedai"
    end in
  match level_obj with
  | None => ret (false, None)
  | Some level_obj =>
      if negb (String.eqb (StudyLevel.code level_obj) "ebtedai") then ret (false, None)
      else
        let latest_period :=
          match first_by_number_desc CoursePeriod.number (Student.periods student) with
          | Some p => Some p
          | None =>
              match Student.school_class student with
              | Some c => SchoolClass.period c
              | None => None
              end
          end in
        match latest_period with
        | None => ret (false, latest_period)
        | Some per =>
            if negb (CoursePeriod.number per =? 6) then ret (false, latest_period)
            else
              subjects <- query (fun db =>
                order_by_id
                  (filter (level_or_null level_obj)
                     (filter (period_is per) (Subject_objects db)))) ;;
              if negb (0 <? Z.of_nat (List.length subjects)) then ret (false, latest_period)
              else
                scores_qs <- query (scores_of student subjects) ;;
                if (List.length scores_qs <? List.length subjects)%nat
                then ret (false, latest_period)
                else if existsb score_isnull scores_qs then ret (false, latest_period)
                else if existsb (score_lt 50) scores_qs then ret (false, latest_period)
                else ret (true, latest_period)
        end
  end.

(** The view after [student = get_object_or_404(Student, pk=pk)]; the
    redirect that follows each message is left out. *)
Definition student_promote_to_moteseta (student : Student.t) : M (flash * Student.t) :=
  r <- _can_graduate_ebtedai student ;;
  let '(can_graduate, _) := r in
  if negb can_graduate then ret (error_not_eligible, student)
  else
    level_map <- _ensure_reference_data ;;
    match level_map_get level_map "moteseta" with
    | None => ret (error_no_moteseta, student)
    | Some moteseta =>
        found <- query (fun db =>
                   find (fun p => CoursePeriod.number p =? 1) (CoursePeriod_objects db)) ;;
        next_period <- match found with
                       | Some p => ret p
                       | None => create_period 1
                       end ;;
        let student := Student.set_level (Some moteseta) student in
        let student := Student.set_school_class None student in
        let student := Student.set_is_graduated false student in
        let student := Student.set_periods [next_period] student in
        let student := Student.set_semesters [] student in
        ret (success_promoted, student)
    end.

End views.

(** ** Vocabulary of the properties *)

(** *** Calendar *)

(** The day number [_jalali_to_gregorian] computes before it decodes it. *)
Definition jalali_days (jy jm jd : Z) : Z :=
  let jy := jy + 1595 in
  let days := -355668 + (365 * jy) + (jy / 33) * 8 + ((jy mod 33) + 3) / 4 + jd in
  if jm <? 7 then days + (jm - 1) * 31 else days + ((jm - 7) * 30) + 186.

(** The decoding of a day number by [_jalali_to_gregorian]. *)
Definition gregorian_of_days (days : Z) : Z * Z * Z :=
  let gy := 400 * (days / 146097) in
  let days := days mod 146097 in
  let '(gy, days) :=
    if days >? 36524 then
      let gy := gy + 100 * ((days - 1) / 36524) in
      let days := (days - 1) mod 36524 in
      (gy, if days >=? 365 then days + 1 else days)
    else (gy, days) in
  let gy := gy + 4 * (days / 1461) in
  let days := days mod 1461 in
  let '(gy, days) :=
    if days >? 365 then (gy + (days - 1) / 365, (days - 1) mod 365) else (gy, days) in
  let gd := days + 1 in
  let '(gm, gd) := month_walk (tl (sal_a gy)) 1 gd in
  (gy, gm, gd).

(** The day number [forms._gregorian_to_jalali] computes, [off] being
    [g_d_m[gm - 1]]. *)
Definition gregorian_days (gy gm gd off : Z) : Z :=
  let gy2 := if gm >? 2 then gy + 1 else gy in
  355666 + (365 * gy) + ((gy2 + 3) / 4) - ((gy2 + 99) / 100) + ((gy2 + 399) / 400) + gd + off.

(** The decoding of a day number by the two [_gregorian_to_jalali], from the
    year [base]. *)
Definition jalali_of_days (base days : Z) : Z * Z * Z :=
  let jy := base + 33 * (days / 12053) in
  let days := days mod 12053 in
  let jy := jy + 4 * (days / 1461) in
  let days := days mod 1461 in
  let '(jy, days) :=
    if days >? 365 then (jy + (days - 1) / 365, (days - 1) mod 365) else (jy, days) in
  if days <? 186 then (jy, 1 + days / 31, 1 + days mod 31)
  else (jy, 7 + (days - 186) / 30, 1 + (days - 186) mod 30).

Definition shift_year (k : Z) (t : Z * Z * Z) : Z * Z * Z :=
  let '(y, m, d) := t in (y + k, m, d).

Definition goff (gm : Z) : Z := nth (Z.to_nat (gm - 1)) g_d_m 0.

(** The leap years before a year, as [forms._gregorian_to_jalali] counts them,
    and the day of the year of a date. *)
Definition leap_years_before (gy : Z) : Z :=
  (gy + 3) / 4 - (gy + 99) / 100 + (gy + 399) / 400.

Definition day_of_year (gy gm gd : Z) : Z :=
  gd + goff gm + (if (gm >? 2) && is_leap gy then 1 else 0).

(** A date of the proleptic Gregorian calendar, with the month lengths of
    [sal_a]. *)
Definition valid_gregorian (gy gm gd : Z) : bool :=
  (1 <=? gm) && (gm <=? 12) && (1 <=? gd) && (gd <=? nth (Z.to_nat gm) (sal_a gy) 0).

(** The leap years of the local calendar as the day count of
    [_jalali_to_gregorian] has them: eight in a cycle of 33 years. *)
Definition jalali_leap (jy : Z) : bool :=
  let r := (jy + 1595) mod 33 in (r mod 4 =? 0) && negb (r =? 32).

Definition jalali_month_days (jy jm : Z) : Z :=
  if jm <=? 6 then 31 else if jm <=? 11 then 30 else if jalali_leap jy then 30 else 29.

(** A date of the local calendar. *)
Definition valid_jalali (jy jm jd : Z) : bool :=
  (1 <=? jm) && (jm <=? 12) && (1 <=? jd) && (jd <=? jalali_month_days jy jm).

Definition date_eqb (a b : Z * Z * Z) : bool :=
  let '(a1, a2, a3) := a in
  let '(b1, b2, b3) := b in
  (a1 =? b1) && (a2 =? b2) && (a3 =? b3).

(** [f] holds on [lo], ..., [lo + len - 1]. *)
Fixpoint forall_range (f : Z -> bool) (lo : Z) (len : positive) : bool :=
  match len with
  | xH => f lo
  | xO p => forall_range f lo p && forall_range f (lo + Zpos p) p
  | xI p => f lo && (forall_range f (lo + 1) p && forall_range f (lo + 1 + Zpos p) p)
  end.

(** The checks run over the first two centuries of the 400 years of the
    canonical calendar (the other two repeat the second), and over one cycle
    of the local one: 12053 days or 33 years. *)
Definition check_gregorian_of_days (n : Z) : bool :=
  let '(gy, gm, gd) := gregorian_of_days n in
  valid_gregorian gy gm gd && (gregorian_days gy gm gd (goff gm) =? n + 355667)
  && ((n <? 36525) || ((100 <=? gy) && (gy <? 200))).

Definition check_jalali_of_days (n : Z) : bool :=
  let '(jy, jm, jd) := jalali_of_days (-1595) n in
  valid_jalali jy jm jd && (jalali_days jy jm jd =? n - 355667).

Definition check_jalali_days (jy : Z) : bool :=
  forall_range (fun jm => forall_range (fun jd =>
    implb (valid_jalali jy jm jd)
      (date_eqb (jalali_of_days (-1595) (jalali_days jy jm jd + 355667)) (jy, jm, jd)))
    1 31) 1 12.

Definition check_jalali_year (jy : Z) : bool :=
  jalali_days (jy + 1) 1 1 - jalali_days jy 1 1 =? (if jalali_leap jy then 366 else 365).

(** A date [datetime.date] accepts. *)
Definition valid_date (gy gm gd : Z) : bool :=
  (1 <=? gy) && (gy <=? 9999) && valid_gregorian gy gm gd.

(** The three components a text is read into, when it has three. *)
Definition parsed_as (int : str -> pyresult Z) (value : str) (year month day : Z) : Prop :=
  exists p1 p2 p3,
    forms.components (strip (forms._persian_to_ascii value)) = [p1; p2; p3]
    /\ int p1 = Return year /\ int p2 = Return month /\ int p3 = Return day.

(** *** Progression *)

(** The level set on the learner, else the level of its class group. *)
Definition own_or_class_level (student : Student.t) : option StudyLevel.t :=
  match Student.level student with
  | Some l => Some l
  | None =>
      match Student.school_class student with
      | Some c => SchoolClass.level c
      | None => None
      end
  end.

(** The marker of greatest ordinal among the learner's, else the one of the
    class group. *)
Definition latest_semester (student : Student.t) : option Semester.t :=
  match first_by_number_desc Semester.number (Student.semesters student) with
  | Some s => Some s
  | None =>
      match Student.school_class student with
      | Some c => SchoolClass.semester c
      | None => None
      end
  end.

Definition latest_period (student : Student.t) : option CoursePeriod.t :=
  match first_by_number_desc CoursePeriod.number (Student.periods student) with
  | Some p => Some p
  | None =>
      match Student.school_class student with
      | Some c => SchoolClass.period c
      | None => None
      end
  end.

(** The code of the level the promotion works with: the learner's or the class
    group's, else the one read off the markers; empty when there is none. *)
Definition effective_level_code (student : Student.t) : string :=
  match own_or_class_level student with
  | Some l => StudyLevel.code l
  | None =>
      match latest_semester student, latest_period student with
      | Some _, None => "aali"
      | _, Some _ => "moteseta"
      | None, None => ""
      end
  end.

Definition upper (code : string) : bool := String.eqb code "aali".
Definition middle_or_lower (code : string) : bool :=
  String.eqb code "moteseta" || String.eqb code "ebtedai".

(** A subject of the level, or of no level. *)
Definition subject_applies (code : string) (s : Subject.t) : bool :=
  match Subject.level s with
  | None => true
  | Some l => String.eqb (StudyLevel.code l) code
  end.

(** The subjects due this term, in the order of their [id]; none when the
    level or the marker of its unit is missing. *)
Definition resolved_subjects (student : Student.t) (db : DB) : list Subject.t :=
  let code := effective_level_code student in
  if upper code then
    match latest_semester student with
    | Some sem =>
        order_by_id (filter (subject_applies code)
                       (filter (semester_is (Semester.number sem)) (Subject_objects db)))
    | None => []
    end
  else if middle_or_lower code then
    match latest_period student with
    | Some per =>
        order_by_id (filter (subject_applies code)
                       (filter (period_is per) (Subject_objects db)))
    | None => []
    end
  else [].

(** The ordinal of the learner's current term and the last ordinal of the
    level. *)
Definition current_ordinal (student : Student.t) : option Z :=
  let code := effective_level_code student in
  if upper code then option_map Semester.number (latest_semester student)
  else if middle_or_lower code then option_map CoursePeriod.number (latest_period student)
  else None.

Definition ceiling (student : Student.t) : Z :=
  if upper (effective_level_code student) then 4 else 6.

(** The score records of a learner in a subject. *)
Definition records (db : DB) (student : Student.t) (s : Subject.t) : list StudentScore.t :=
  filter (fun r => (StudentScore.student r =? Student.id student)
                   && (StudentScore.subject r =? Subject.id s))
    (StudentScore_objects db).

Definition score_passing (r : StudentScore.t) : bool :=
  match StudentScore.score r with
  | Some v => 50 <=? v
  | None => false
  end.

(** The subject has a score, and the score is passing. *)
Definition passed (db : DB) (student : Student.t) (s : Subject.t) : bool :=
  match records db student s with
  | [] => false
  | rs => forallb score_passing rs
  end.

(** The test the promotion runs on the score records of the subjects due: a
    record for each, none ungraded, none below 50. *)
Definition scores_ok (db : DB) (student : Student.t) (subjects : list Subject.t) : bool :=
  let scores_qs := scores_of student subjects db in
  negb (List.length scores_qs <? List.length subjects)%nat
  && negb (existsb score_isnull scores_qs)
  && negb (existsb (score_lt 50) scores_qs).

Definition evaluable (subjects : list Subject.t) : bool :=
  match subjects with
  | [] => false
  | _ :: _ => true
  end.

(** Primary keys of subjects are distinct; a learner has one score record per
    subject at most. *)
Definition subject_ids_unique (db : DB) : Prop :=
  NoDup (map Subject.id (Subject_objects db)).

Definition score_key (r : StudentScore.t) : Z * Z :=
  (StudentScore.student r, StudentScore.subject r).

Definition scores_unique (db : DB) : Prop :=
  NoDup (map score_key (StudentScore_objects db)).

(** The subjects and the scores are as they were, and no semester and no
    period was removed. *)
Definition same_records (db db' : DB) : Prop :=
  Subject_objects db' = Subject_objects db
  /\ StudentScore_objects db' = StudentScore_objects db
  /\ incl (Semester_objects db) (Semester_objects db')
  /\ incl (CoursePeriod_objects db) (CoursePeriod_objects db').

(** What a view returned, the tables left aside; nothing when it raised. *)
Definition returned {A : Type} (r : pyresult (A * DB)) : option A :=
  match r with
  | Return (a, _) => Some a
  | Raise _ => None
  end.

(** The query that gates the crossover to the middle level. *)
Definition is_eligible_for_crossover (student : Student.t) (db : DB) : bool :=
  match views._can_graduate_ebtedai student db with
  | Return ((can_graduate, _), _) => can_graduate
  | Raise _ => false
  end.

(** What [_auto_promote_student] does with a learner not yet graduated, in
    terms of the subjects due, the test of their scores, the ordinal of the
    current term and the last ordinal of the level. *)
Definition promotion_flow (st : Student.t) (db : DB) : Prop :=
  exists db1, same_records db db1 /\
    let subs := resolved_subjects st db in
    if evaluable subs && scores_ok db st subs then
      match current_ordinal st with
      | None => False
      | Some n =>
          if ceiling st <=? n then
            views._auto_promote_student st db =
            Return ((Some msg_graduated, Student.set_is_graduated true st), db1)
          else
            exists db2, same_records db db2 /\
              if upper (effective_level_code st) then
                views._auto_promote_student st db =
                Return ((Some (msg_semester (n + 1)),
                         Student.set_is_graduated false
                           (Student.set_semesters [Semester.mk (n + 1)] st)), db2)
                /\ In (Semester.mk (n + 1)) (Semester_objects db2)
              else
                views._auto_promote_student st db =
                Return ((Some (msg_period (n + 1)),
                         Student.set_is_graduated false
                           (Student.set_periods [CoursePeriod.mk (n + 1)] st)), db2)
                /\ In (CoursePeriod.mk (n + 1)) (CoursePeriod_objects db2)
      end
    else views._auto_promote_student st db = Return ((None, st), db1).

(** *** Sample data *)

Definition aali : StudyLevel.t := StudyLevel.mk "aali" "عالی".
Definition moteseta : StudyLevel.t := StudyLevel.mk "moteseta" "متوسطه".
Definition ebtedai : StudyLevel.t := StudyLevel.mk "ebtedai" "ابتداییه".

Definition sample_subjects : list Subject.t :=
  [ Subject.mk 1 (Some aali) (Some 2) None;
    Subject.mk 2 None (Some 2) None;
    Subject.mk 3 (Some aali) (Some 4) None;
    Subject.mk 4 (Some ebtedai) None (Some (CoursePeriod.mk 6));
    Subject.mk 5 (Some moteseta) None (Some (CoursePeriod.mk 3)) ].

Definition sample_scores (v : Z) : list StudentScore.t :=
  [ StudentScore.mk 7 1 (Some 80); StudentScore.mk 7 2 (Some v);
    StudentScore.mk 7 3 (Some 50); StudentScore.mk 7 4 (Some 65);
    StudentScore.mk 7 5 (Some 90) ].

Definition sample_db (v : Z) : DB := mkDB [] [] [] sample_subjects (sample_scores v).

Definition learner (level : option StudyLevel.t) (graduated : bool)
  (semesters periods : list Z) : Student.t :=
  Student.mk 7 level None graduated (map Semester.mk semesters) (map CoursePeriod.mk periods).

(** ** core/forms.py: the forms *)

Fixpoint uint_codes (d : Decimal.uint) : str :=
  match d with
  | Decimal.Nil => []
  | Decimal.D0 l => 48 :: uint_codes l
  | Decimal.D1 l => 49 :: uint_codes l
  | Decimal.D2 l => 50 :: uint_codes l
  | Decimal.D3 l => 51 :: uint_codes l
  | Decimal.D4 l => 52 :: uint_codes l
  | Decimal.D5 l => 53 :: uint_codes l
  | Decimal.D6 l => 54 :: uint_codes l
  | Decimal.D7 l => 55 :: uint_codes l
  | Decimal.D8 l => 56 :: uint_codes l
  | Decimal.D9 l => 57 :: uint_codes l
  end.

(** [f"{n:0Wd}"]: the decimal digits of [n], filled with zeros after the sign
    up to [width] characters. *)
Definition format_0d (width : nat) (n : Z) : str :=
  match Z.to_int n with
  | Decimal.Pos u =>
      repeat 48 (width - List.length (uint_codes u)) ++ uint_codes u
  | Decimal.Neg u =>
      45 :: repeat 48 (width - 1 - List.length (uint_codes u)) ++ uint_codes u
  end.

(** [self.add_error(field, message)] appends the message to the errors of the
    form and removes the field from [cleaned_data]; the dictionary that
    [clean] holds as [cleaned] is that same object.  A form is modelled by its
    [cleaned_data] and its errors, a missing key and a key with the value
    [None] being both [None]. *)
Definition form_errors := list (string * string).

(** [StudentForm] and [TeacherForm] treat the date of birth alike. *)
Module StudentForm.

(** The keys of [cleaned_data] that [clean] reads or writes. *)
Record cleaned_data := mk_cleaned {
  level : option StudyLevel.t;
  is_grade12_graduate : option bool;
  semesters : option (list Semester.t);
  periods : option (list CoursePeriod.t);
  school_class : option SchoolClass.t
}.

Definition del (field : string) (c : cleaned_data) : cleaned_data :=
  if String.eqb field "level" then
    mk_cleaned None (is_grade12_graduate c) (semesters c) (periods c) (school_class c)
  else if String.eqb field "is_grade12_graduate" then
    mk_cleaned (level c) None (semesters c) (periods c) (school_class c)
  else if String.eqb field "semesters" then
    mk_cleaned (level c) (is_grade12_graduate c) None (periods c) (school_class c)
  else if String.eqb field "periods" then
    mk_cleaned (level c) (is_grade12_graduate c) (semesters c) None (school_class c)
  else if String.eqb field "school_class" then
    mk_cleaned (level c) (is_grade12_graduate c) (semesters c) (periods c) None
  else c.

Definition add_error (field message : string) (f : cleaned_data * form_errors)
  : cleaned_data * form_errors :=
  (del field (fst f), snd f ++ [(field, message)]).

(** [cleaned['periods'] = []] and [cleaned['semesters'] = []] *)
Definition set_periods (v : list CoursePeriod.t) (f : cleaned_data * form_errors)
  : cleaned_data * form_errors :=
  let c := fst f in
  (mk_cleaned (level c) (is_grade12_graduate c) (semesters c) (Some v) (school_class c), snd f).

Definition set_semesters (v : list Semester.t) (f : cleaned_data * form_errors)
  : cleaned_data * form_errors :=
  let c := fst f in
  (mk_cleaned (level c) (is_grade12_graduate c) (Some v) (periods c) (school_class c), snd f).

(** The truth value of what [cleaned.get] gave. *)
Definition checked (v : option bool) : bool :=
  match v with
  | Some true => true
  | _ => false
  end.

Definition chosen {A : Type} (v : option (list A)) : bool :=
  match v with
  | Some (_ :: _) => true
  | _ => false
  end.

(** [clean], on the form as [super().clean()] left it.  The keys of the two
    levels compared at the end are their codes. *)
Definition clean (f : cleaned_data * form_errors) : cleaned_data * form_errors :=
  let cleaned := fst f in
  let level := level cleaned in
  let is_grad := is_grade12_graduate cleaned in
  let semesters := semesters cleaned in
  let periods := periods cleaned in
  let school_class := school_class cleaned in
  match level with
  | None => add_error "level" "لطفاً سطح آموزشی را انتخاب کنید." f
  | Some level =>
      let f :=
        if String.eqb (StudyLevel.code level) "aali" then
          let f := if negb (checked is_grad)
                   then add_error "is_grade12_graduate"
                          "برای دوره عالی، فارغ بودن از صنف دوازدهم الزامی است." f
                   else f in
          let f := if negb (chosen semesters)
                   then add_error "semesters" "لطفاً حداقل یک سمستر را انتخاب کنید." f
                   else f in
          set_periods [] f
        else
          let f := if checked is_grad
                   then add_error "is_grade12_graduate"
                          "برای دوره ابتداییه/متوسطه، فارغ صنف دوازدهم نباید باشد." f
                   else f in
          let f := if negb (chosen periods)
                   then add_error "periods" "لطفاً حداقل یک دوره را انتخاب کنید." f
                   else f in
          set_semesters [] f in
      match school_class with
      | Some c =>
          match SchoolClass.level c with
          | Some class_level =>
              if negb (StudyLevel.same class_level level)
              then add_error "level" "سطح انتخاب‌شده با سطح صنف انتخاب‌شده مطابقت ندارد." f
              else f
          | None => f
          end
      | None => f
      end
  end.

(** The part of [__init__] that fills [self.initial['birth_date']] from the
    stored date, when there is one. *)
Definition __init__ (birth_date : option datetime.date_t) : pyresult (option str) :=
  match birth_date with
  | None => Return None
  | Some d =>
      pybind (forms._gregorian_to_jalali
                (datetime.year d) (datetime.month d) (datetime.day d))
        (fun '(jy, jm, jd) =>
           Return (Some (format_0d 4 jy ++ [47] ++ format_0d 2 jm ++ [47] ++ format_0d 2 jd)))
  end.

Section Cleaning.

Variable int : str -> pyresult Z.

(** [raw] is [self.cleaned_data.get('birth_date')]; a [ValidationError] is
    written with its message. *)
Definition clean_birth_date (raw : option str) : pyresult (option datetime.date_t) :=
  match raw with
  | None | Some [] => Raise "ValidationError: تاریخ تولد الزامی است."%string
  | Some raw =>
      match forms._parse_birth_date int raw with
      | Return d => Return d
      | Raise _ => Raise "ValidationError: تاریخ تولد نامعتبر است."%string
      end
  end.

End Cleaning.

End StudentForm.

Module SubjectForm.

Record cleaned_data := mk_cleaned {
  level : option StudyLevel.t;
  semester : option Z;
  period : option CoursePeriod.t
}.

Definition del (field : string) (c : cleaned_data) : cleaned_data :=
  if String.eqb field "level" then mk_cleaned None (semester c) (period c)
  else if String.eqb field "semester" then mk_cleaned (level c) None (period c)
  else if String.eqb field "period" then mk_cleaned (level c) (semester c) None
  else c.

Definition add_error (field message : string) (f : cleaned_data * form_errors)
  : cleaned_data * form_errors :=
  (del field (fst f), snd f ++ [(field, message)]).

(** [not semester] is true of no semester and of the semester 0. *)
Definition given (semester : option Z) : bool :=
  match semester with
  | Some n => negb (n =? 0)
  | None => false
  end.

Definition clean (f : cleaned_data * form_errors) : cleaned_data * form_errors :=
  let cleaned := fst f in
  let level := level cleaned in
  let semester := semester cleaned in
  let period := period cleaned in
  match level with
  | None => add_error "level" "لطفاً سطح آموزشی را انتخاب کنید." f
  | Some level =>
      if String.eqb (StudyLevel.code level) "aali" then
        let f := if negb (given semester)
                 then add_error "semester" "لطفاً سمستر را انتخاب کنید." f
                 else f in
        (mk_cleaned (SubjectForm.level (fst f)) (SubjectForm.semester (fst f)) None, snd f)
      else
        let f := match period with
                 | None => add_error "period" "لطفاً دوره را انتخاب کنید." f
                 | Some _ => f
                 end in
        if negb (given semester)
        then (mk_cleaned (SubjectForm.level (fst f)) (Some 1) (SubjectForm.period (fst f)),
              snd f)
        else f
  end.

End SubjectForm.

(** ** More vocabulary *)

(** The digits of the local script. *)
Definition persian_digit (c : Z) : bool := (1776 <=? c) && (c <=? 1785).

(** A text with its ASCII digits written in the local script. *)
Definition in_persian_digits (s : str) : str :=
  map (fun c => if (48 <=? c) && (c <=? 57) then c + 1728 else c) s.

(** [int] reads the decimal digits that [format_0d] writes. *)
Definition reads_decimals (int : str -> pyresult Z) : Prop :=
  forall width n, 0 <= n -> int (format_0d width n) = Return n.

Definition ascii_digit (c : Z) : bool := (48 <=? c) && (c <=? 57).

(** The order of dates: by year, then month, then day. *)
Definition earlier (a b : Z * Z * Z) : Prop :=
  let '(y1, m1, d1) := a in
  let '(y2, m2, d2) := b in
  y1 < y2 \/ (y1 = y2 /\ (m1 < m2 \/ (m1 = m2 /\ d1 < d2))).

(** *** Reference data *)

(** The map [_ensure_reference_data] builds, with the names of its
    [level_defs]. *)
Definition reference_levels : list (string * StudyLevel.t) :=
  map (fun '(code, name) => (code, StudyLevel.mk code name)) views.level_defs.

(** The row that [get_or_create] finds for a code or a number. *)
Definition level_by_code (code : string) (db : DB) : option StudyLevel.t :=
  find (fun l => String.eqb (StudyLevel.code l) code) (StudyLevel_objects db).

Definition semester_by_number (n : Z) (db : DB) : option Semester.t :=
  find (fun s => Semester.number s =? n) (Semester_objects db).

Definition period_by_number (n : Z) (db : DB) : option CoursePeriod.t :=
  find (fun p => CoursePeriod.number p =? n) (CoursePeriod_objects db).

(** The reference rows are all there: what a run of [_ensure_reference_data]
    leaves behind, and what makes another run change nothing. *)
Definition reference_data_present (db : DB) : Prop :=
  (forall code name, In (code, name) views.level_defs ->
     level_by_code code db = Some (StudyLevel.mk code name))
  /\ (forall n, 1 <= n <= 4 -> semester_by_number n db = Some (Semester.mk n))
  /\ (forall n, 1 <= n <= 6 -> period_by_number n db = Some (CoursePeriod.mk n)).

(** *** Crossover *)

(** The code of the level [_can_graduate_ebtedai] works with: the learner's
    or the class group's, else the lower level. *)
Definition crossover_level_code (student : Student.t) : string :=
  match own_or_class_level student with
  | Some l => StudyLevel.code l
  | None => "ebtedai"
  end.

(** The test of [_can_graduate_ebtedai] as a condition on the learner and the
    tables: lower level, Period 6, subjects due, and the test of the scores. *)
Definition crossover_condition (student : Student.t) (db : DB) : bool :=
  String.eqb (crossover_level_code student) "ebtedai"
  && match latest_period student with
     | Some per =>
         (CoursePeriod.number per =? 6)
         && (let subjects :=
               order_by_id (filter (subject_applies "ebtedai")
                              (filter (period_is per) (Subject_objects db))) in
             evaluable subjects && scores_ok db student subjects)
     | None => false
     end.

(** The learner as [student_promote_to_moteseta] saves it. *)
Definition crossed (student : Student.t) : Student.t :=
  Student.set_semesters []
    (Student.set_periods [CoursePeriod.mk 1]
       (Student.set_is_graduated false
          (Student.set_school_class None
             (Student.set_level (Some (StudyLevel.mk "moteseta" "متوسطه")) student)))).

(** *** core/views.py: the certificate of the lower level *)

(** What [student_certificate_print] answers: the error message with its
    redirect, or the page with its context. *)
Inductive certificate : Type :=
| certificate_refused
| certificate_page (student : Student.t) (period : option CoursePeriod.t)
    (current_date : str).

(** The view after [student = get_object_or_404(Student, pk=pk)]; [today] is
    [datetime.now()]. *)
Definition student_certificate_print (student : Student.t) (today : datetime.date_t)
  : M certificate :=
  r <- views._can_graduate_ebtedai student ;;
  let '(can_graduate, latest_period) := r in
  if negb can_graduate then ret certificate_refused
  else fun db =>
    pybind (views._gregorian_to_jalali
              (datetime.year today) (datetime.month today) (datetime.day today))
      (fun '(jy, jm, jd) =>
         let current_date :=
           format_0d 4 jy ++ [47] ++ format_0d 2 jm ++ [47] ++ format_0d 2 jd in
         Return (certificate_page student latest_period current_date, db)).

(** *** core/views.py: entering scores *)

Definition with_scores (v : list StudentScore.t) (db : DB) : DB :=
  mkDB (StudyLevel_objects db) (Semester_objects db) (CoursePeriod_objects db)
    (Subject_objects db) v.

Inductive op : Type :=
| op_created                         (* 'created' *)
| op_updated.                        (* 'updated' *)

(** The three counters of the POST branch of [grade_entry], and its
    [saved_subjects], an entry being the subject's key, the score and the
    operation (the name of the subject, which the tables here do not hold, is
    left out). *)
Record tally := mk_tally {
  created : Z;
  updated : Z;
  errors : Z;
  saved_subjects : list (Z * option Z * op)
}.

Module grade_entry.

Definition start : tally := mk_tally 0 0 0 [].

Definition count_error (t : tally) : tally :=
  mk_tally (created t) (updated t) (errors t + 1) (saved_subjects t).

Definition count_saved (sub_id : Z) (score_val : option Z) (created_flag : bool) (t : tally)
  : tally :=
  if created_flag then
    mk_tally (created t + 1) (updated t) (errors t)
      (saved_subjects t ++ [(sub_id, score_val, op_created)])
  else
    mk_tally (created t) (updated t + 1) (errors t)
      (saved_subjects t ++ [(sub_id, score_val, op_updated)]).

(** The rows of a learner for a subject. *)
Definition matches (student : Student.t) (sub_id : Z) (r : StudentScore.t) : bool :=
  (StudentScore.student r =? Student.id student) && (StudentScore.subject r =? sub_id).

(** [StudentScore.objects.update_or_create(student=student, subject_id=sub_id,
    defaults={'score': score_val})]: the row is looked up with [get], which
    raises when there are several. *)
Definition update_or_create (student : Student.t) (sub_id : Z) (score_val : option Z)
  : M (StudentScore.t * bool) := fun db =>
  let obj := StudentScore.mk (Student.id student) sub_id score_val in
  match filter (matches student sub_id) (StudentScore_objects db) with
  | [] => Return ((obj, true), with_scores (StudentScore_objects db ++ [obj]) db)
  | [_] =>
      Return ((obj, false),
              with_scores (map (fun r => if matches student sub_id r then obj else r)
                             (StudentScore_objects db)) db)
  | _ :: _ :: _ => Raise "MultipleObjectsReturned"%string
  end.

Section Posting.

Variable int : str -> pyresult Z.

(** The score of the entry [idx]: [None] when the text could not be used (the
    iteration counts an error), else the value to store. *)
Definition score_at (scores : list str) (idx : nat) : option (option Z) :=
  match nth_error scores idx with
  | None => Some None
  | Some raw =>
      match strip raw with
      | [] => Some None
      | val =>
          match int val with
          | Return score_val =>
              if (score_val <? 0) || (score_val >? 100) then None else Some (Some score_val)
          | Raise _ => None
          end
      end
  end.

(** The loop [for idx, sid in enumerate(subject_ids)], from [idx] on. *)
Fixpoint save_scores (student : Student.t) (scores : list str) (idx : nat)
    (subject_ids : list str) (t : tally) : M tally :=
  match subject_ids with
  | [] => ret t
  | sid :: rest =>
      match int sid with
      | Raise e =>
          if String.eqb e "ValueError" then
            save_scores student scores (S idx) rest (count_error t)
          else views.raise e
      | Return sub_id =>
          match score_at scores idx with
          | None => save_scores student scores (S idx) rest (count_error t)
          | Some score_val =>
              subj <- views.query (fun db =>
                        find (fun s => Subject.id s =? sub_id) (Subject_objects db)) ;;
              match subj with
              | None => save_scores student scores (S idx) rest (count_error t)
              | Some _ =>
                  r <- update_or_create student sub_id score_val ;;
                  save_scores student scores (S idx) rest
                    (count_saved sub_id score_val (snd r) t)
              end
          end
      end
  end.

(** The POST branch of [grade_entry] once the learner is found: the scores are
    saved, then the promotion is evaluated. *)
Definition post (student : Student.t) (subject_ids scores : list str)
  : M (tally * option message * Student.t) :=
  t <- save_scores student scores 0 subject_ids start ;;
  r <- views._auto_promote_student student ;;
  ret (t, fst r, snd r).

End Posting.

End grade_entry.

(** The builtin [int] raises nothing but [ValueError] on a text. *)
Definition raises_value_error_only (int : str -> pyresult Z) : Prop :=
  forall s e, int s = Raise e -> e = "ValueError"%string.

(** A stored score is none or one of 0..100. *)
Definition score_in_range (r : StudentScore.t) : bool :=
  match StudentScore.score r with
  | None => true
  | Some v => (0 <=? v) && (v <=? 100)
  end.

Definition of_student (student : Student.t) (r : StudentScore.t) : bool :=
  StudentScore.student r =? Student.id student.

(** The score rows point to subjects of the table. *)
Definition scores_refer_to_subjects (db : DB) : Prop :=
  forall r, In r (StudentScore_objects db) ->
    exists s, In s (Subject_objects db) /\ Subject.id s = StudentScore.subject r.

(** What the loop of [grade_entry] keeps, from the tables [db] it started on
    to the tables [db'] it has reached. *)
Definition saved_from (st : Student.t) (db db' : DB) : Prop :=
  db' = with_scores (StudentScore_objects db') db
  /\ scores_unique db'
  /\ filter (fun r => negb (of_student st r)) (StudentScore_objects db')
     = filter (fun r => negb (of_student st r)) (StudentScore_objects db)
  /\ incl (map score_key (StudentScore_objects db)) (map score_key (StudentScore_objects db'))
  /\ (forall r, In r (StudentScore_objects db') ->
        In r (StudentScore_objects db)
        \/ (of_student st r = true /\ score_in_range r = true
            /\ exists s, In s (Subject_objects db) /\ Subject.id s = StudentScore.subject r)).

(** ** Tactics *)

(** Linear arithmetic with quotients and remainders by constants. *)
Ltac divmod := Z.div_mod_to_equations; lia.

(** Names the run of the promotion that the goal speaks of. *)
Ltac name_run st db1 run Hrun :=
  match goal with
  | |- context [ ?r = Return (None, st, db1) ] => remember r as run eqn:Hrun
  end.

(** Runs the next read of the tables in the named run. *)
Ltac step_query Hrun :=
  cbv beta iota delta [negb] in Hrun;
  unfold bind at 1 in Hrun; unfold views.query at 1 in Hrun; cbv beta iota in Hrun.

(** The elements of a list given in full are distinct. *)
Ltac distinct := repeat (constructor; [cbv; intuition congruence |]); constructor.

(** ** Calendar: the day numbers and their decoding *)

Lemma forall_range_spec f len :
  forall lo, forall_range f lo len = true ->
  forall z, lo <= z < lo + Zpos len -> f z = true.
Proof.
  induction len as [p IH | p IH | ]; simpl; intros lo H z Hz.
  - apply andb_true_iff in H as [H0 H]. apply andb_true_iff in H as [H1 H2].
    destruct (Z.eq_dec z lo) as [-> | Hne]; [exact H0|].
    destruct (Z_lt_le_dec z (lo + 1 + Zpos p)).
    + apply (IH _ H1). lia.
    + apply (IH _ H2). lia.
  - apply andb_true_iff in H as [H1 H2].
    destruct (Z_lt_le_dec z (lo + Zpos p)).
    + apply (IH _ H1). lia.
    + apply (IH _ H2). lia.
  - assert (z = lo) by lia. subst. exact H.
Qed.

Lemma date_eqb_eq a b : date_eqb a b = true -> a = b.
Proof.
  destruct a as [[a1 a2] a3], b as [[b1 b2] b3]. unfold date_eqb.
  rewrite !andb_true_iff, !Z.eqb_eq. intros [[-> ->] ->]. reflexivity.
Qed.

Lemma jalali_to_gregorian_split jy jm jd :
  forms._jalali_to_gregorian jy jm jd = gregorian_of_days (jalali_days jy jm jd).
Proof. reflexivity. Qed.

Lemma forms_gregorian_to_jalali_split gy gm gd :
  forms._gregorian_to_jalali gy gm gd =
  pybind (py_getitem g_d_m (gm - 1))
    (fun off => Return (jalali_of_days (-1595) (gregorian_days gy gm gd off))).
Proof.
  unfold forms._gregorian_to_jalali, jalali_of_days, gregorian_days.
  destruct (py_getitem g_d_m (gm - 1)) as [off | e]; [| reflexivity].
  cbv beta iota zeta delta [pybind].
  match goal with |- context [ (?d mod 12053) mod 1461 >? 365 ] =>
    destruct ((d mod 12053) mod 1461 >? 365) end.
  - match goal with |- context [ ?x <? 186 ] => destruct (x <? 186) end; reflexivity.
  - match goal with |- context [ ?x <? 186 ] => destruct (x <? 186) end; reflexivity.
Qed.

Lemma views_gregorian_to_jalali_split gy gm gd :
  1600 < gy ->
  views._gregorian_to_jalali gy gm gd =
  pybind (py_getitem g_d_m (gm - 1))
    (fun off => Return (jalali_of_days 979 (gregorian_days gy gm gd off - 940134))).
Proof.
  intros Hgy. unfold views._gregorian_to_jalali.
  replace (gy >? 1600) with true by (symmetry; apply Z.gtb_lt; lia).
  destruct (py_getitem g_d_m (gm - 1)) as [off | e]; [| reflexivity].
  cbv beta iota zeta delta [pybind].
  assert (Hd : 365 * (gy - 1600) + ((if gm >? 2 then gy - 1600 + 1 else gy - 1600) + 3) / 4
               - ((if gm >? 2 then gy - 1600 + 1 else gy - 1600) + 99) / 100
               + ((if gm >? 2 then gy - 1600 + 1 else gy - 1600) + 399) / 400 - 80 + gd + off
               = gregorian_days gy gm gd off - 940134).
  { unfold gregorian_days. destruct (gm >? 2); divmod. }
  rewrite Hd. unfold jalali_of_days.
  set (d := gregorian_days gy gm gd off - 940134).
  destruct ((d mod 12053) mod 1461 >? 365).
  - match goal with |- context [ ?x <? 186 ] => destruct (x <? 186) end; reflexivity.
  - match goal with |- context [ ?x <? 186 ] => destruct (x <? 186) end; reflexivity.
Qed.

Lemma py_getitem_month gm :
  1 <= gm <= 12 -> py_getitem g_d_m (gm - 1) = Return (goff gm).
Proof.
  intros H.
  assert (Hc : gm = 1 \/ gm = 2 \/ gm = 3 \/ gm = 4 \/ gm = 5 \/ gm = 6 \/ gm = 7 \/
               gm = 8 \/ gm = 9 \/ gm = 10 \/ gm = 11 \/ gm = 12) by lia.
  repeat (destruct Hc as [-> | Hc]; [reflexivity|]). rewrite Hc. reflexivity.
Qed.

Lemma is_leap_period gy q : is_leap (gy + 400 * q) = is_leap gy.
Proof.
  unfold is_leap.
  replace ((gy + 400 * q) mod 4) with (gy mod 4)
    by (replace (gy + 400 * q) with (gy + (100 * q) * 4) by ring; now rewrite Z.mod_add).
  replace ((gy + 400 * q) mod 100) with (gy mod 100)
    by (replace (gy + 400 * q) with (gy + (4 * q) * 100) by ring; now rewrite Z.mod_add).
  replace ((gy + 400 * q) mod 400) with (gy mod 400)
    by (replace (gy + 400 * q) with (gy + q * 400) by ring; now rewrite Z.mod_add).
  reflexivity.
Qed.

Lemma gregorian_of_days_period n q :
  gregorian_of_days (n + q * 146097) = shift_year (400 * q) (gregorian_of_days n).
Proof.
  unfold gregorian_of_days.
  rewrite Z.div_add, Z.mod_add by lia.
  set (d := n mod 146097). set (c := n / 146097).
  assert (Hshift : forall y y' days, y = y' + 400 * q ->
    (let '(gm, gd) := month_walk (tl (sal_a y)) 1 (days + 1) in (y, gm, gd)) =
    shift_year (400 * q)
      (let '(gm, gd) := month_walk (tl (sal_a y')) 1 (days + 1) in (y', gm, gd))).
  { intros y y' days ->. unfold sal_a. rewrite is_leap_period.
    destruct (month_walk _ 1 (days + 1)). reflexivity. }
  destruct (d >? 36524).
  - set (d1 := if (d - 1) mod 36524 >=? 365 then _ else _).
    destruct (d1 mod 1461 >? 365); apply Hshift; ring.
  - destruct (d mod 1461 >? 365); apply Hshift; ring.
Qed.

Lemma gregorian_days_period gy gm gd off q :
  gregorian_days (gy + 400 * q) gm gd off = gregorian_days gy gm gd off + q * 146097.
Proof.
  unfold gregorian_days. destruct (gm >? 2); divmod.
Qed.

Lemma valid_gregorian_period gy gm gd q :
  valid_gregorian (gy + 400 * q) gm gd = valid_gregorian gy gm gd.
Proof.
  unfold valid_gregorian, sal_a. now rewrite is_leap_period.
Qed.

Lemma jalali_days_period jy jm jd q :
  jalali_days (jy + 33 * q) jm jd = jalali_days jy jm jd + q * 12053.
Proof.
  unfold jalali_days. destruct (jm <? 7); divmod.
Qed.

Lemma jalali_leap_period jy q : jalali_leap (jy + 33 * q) = jalali_leap jy.
Proof.
  unfold jalali_leap.
  replace ((jy + 33 * q + 1595) mod 33) with ((jy + 1595) mod 33)
    by (replace (jy + 33 * q + 1595) with (jy + 1595 + q * 33) by ring; now rewrite Z.mod_add).
  reflexivity.
Qed.

Lemma valid_jalali_period jy jm jd q :
  valid_jalali (jy + 33 * q) jm jd = valid_jalali jy jm jd.
Proof.
  unfold valid_jalali, jalali_month_days. now rewrite jalali_leap_period.
Qed.

Lemma jalali_of_days_base base k n :
  jalali_of_days (base + k) n = shift_year k (jalali_of_days base n).
Proof.
  unfold jalali_of_days.
  set (d := n mod 12053).
  destruct (d mod 1461 >? 365);
    match goal with |- context [ ?x <? 186 ] => destruct (x <? 186) end;
    unfold shift_year; f_equal; f_equal; ring.
Qed.

Lemma jalali_of_days_period base n q :
  jalali_of_days base (n + q * 12053) = shift_year (33 * q) (jalali_of_days base n).
Proof.
  rewrite <- jalali_of_days_base.
  unfold jalali_of_days.
  rewrite Z.div_add, Z.mod_add by lia.
  set (d := n mod 12053).
  destruct (d mod 1461 >? 365);
    match goal with |- context [ ?x <? 186 ] => destruct (x <? 186) end;
    f_equal; f_equal; ring.
Qed.

(** The checks over one cycle. *)
Lemma gregorian_of_days_cycle : forall_range check_gregorian_of_days 0 73049 = true.
Proof. vm_compute. reflexivity. Qed.

Lemma jalali_of_days_cycle : forall_range check_jalali_of_days 0 12053 = true.
Proof. vm_compute. reflexivity. Qed.

Lemma jalali_days_cycle : forall_range check_jalali_days (-1595) 33 = true.
Proof. vm_compute. reflexivity. Qed.

Lemma jalali_year_cycle : forall_range check_jalali_year (-1595) 33 = true.
Proof. vm_compute. reflexivity. Qed.

(** The second, third and fourth century of the 400 years are alike. *)
Lemma is_leap_century gy : 100 <= gy < 300 -> is_leap (gy + 100) = is_leap gy.
Proof.
  intros H. unfold is_leap.
  replace ((gy + 100) mod 4) with (gy mod 4) by divmod.
  replace ((gy + 100) mod 100) with (gy mod 100) by divmod.
  replace ((gy + 100) mod 400 =? 0) with false by (symmetry; apply Z.eqb_neq; divmod).
  replace (gy mod 400 =? 0) with false by (symmetry; apply Z.eqb_neq; divmod).
  reflexivity.
Qed.

Lemma gregorian_days_century gy gm gd off :
  100 <= gy < 300 ->
  gregorian_days (gy + 100) gm gd off = gregorian_days gy gm gd off + 36524.
Proof.
  intros H. unfold gregorian_days. destruct (gm >? 2); divmod.
Qed.

Lemma valid_gregorian_century gy gm gd :
  100 <= gy < 300 -> valid_gregorian (gy + 100) gm gd = valid_gregorian gy gm gd.
Proof.
  intros H. unfold valid_gregorian, sal_a. now rewrite is_leap_century.
Qed.

Lemma gregorian_of_days_century d :
  36525 <= d < 109573 ->
  100 <= fst (fst (gregorian_of_days d)) < 300 ->
  gregorian_of_days (d + 36524) = shift_year 100 (gregorian_of_days d).
Proof.
  intros Hd. unfold gregorian_of_days.
  rewrite (Z.div_small d 146097), (Z.mod_small d 146097) by lia.
  rewrite (Z.div_small (d + 36524) 146097), (Z.mod_small (d + 36524) 146097) by lia.
  replace (d >? 36524) with true by (symmetry; apply Z.gtb_lt; lia).
  replace (d + 36524 >? 36524) with true by (symmetry; apply Z.gtb_lt; lia).
  replace (d + 36524 - 1) with (d - 1 + 1 * 36524) by ring.
  rewrite Z.div_add, Z.mod_add by lia.
  set (d1 := if (d - 1) mod 36524 >=? 365 then _ else _).
  assert (Hshift : forall y days,
    (100 <= fst (fst (let '(gm, gd) := month_walk (tl (sal_a y)) 1 (days + 1) in
                      (y, gm, gd))) < 300) ->
    (let '(gm, gd) := month_walk (tl (sal_a (y + 100))) 1 (days + 1) in (y + 100, gm, gd)) =
    shift_year 100
      (let '(gm, gd) := month_walk (tl (sal_a y)) 1 (days + 1) in (y, gm, gd))).
  { intros y days Hy.
    assert (Hy' : 100 <= y < 300)
      by (destruct (month_walk (tl (sal_a y)) 1 (days + 1)); exact Hy).
    unfold sal_a. rewrite (is_leap_century y Hy').
    destruct (month_walk _ 1 (days + 1)). reflexivity. }
  destruct (d1 mod 1461 >? 365); intros Hy; rewrite <- (Hshift _ _ Hy);
    match goal with
    | |- (let '(_, _) := month_walk (tl (sal_a ?a)) _ _ in _) =
         (let '(_, _) := month_walk (tl (sal_a ?b)) _ _ in _) =>
        replace a with b by ring; reflexivity
    end.
Qed.

(** Every day number of the 400 years decodes to a valid canonical date,
    whose day number it is. *)
Lemma gregorian_of_days_first_centuries r :
  0 <= r < 73049 ->
  (let '(gy, gm, gd) := gregorian_of_days r in
   valid_gregorian gy gm gd = true /\ gregorian_days gy gm gd (goff gm) = r + 355667)
  /\ (36525 <= r -> 100 <= fst (fst (gregorian_of_days r)) < 200).
Proof.
  intros Hr.
  pose proof (forall_range_spec _ _ _ gregorian_of_days_cycle r ltac:(lia)) as Hc.
  unfold check_gregorian_of_days in Hc.
  destruct (gregorian_of_days r) as [[gy gm] gd].
  apply andb_true_iff in Hc as [Hc Hy]. apply andb_true_iff in Hc as [Hv He].
  apply Z.eqb_eq in He. split; [auto |].
  intros Hlo. simpl. apply orb_true_iff in Hy as [Hy | Hy].
  - apply Z.ltb_lt in Hy. lia.
  - apply andb_true_iff in Hy as [H1 H2]. apply Z.leb_le in H1. apply Z.ltb_lt in H2. lia.
Qed.

Lemma gregorian_of_days_next_century d lo :
  36525 <= d < 109573 -> 100 <= lo <= 200 ->
  (let '(gy, gm, gd) := gregorian_of_days d in
   valid_gregorian gy gm gd = true /\ gregorian_days gy gm gd (goff gm) = d + 355667) ->
  lo <= fst (fst (gregorian_of_days d)) < lo + 100 ->
  (let '(gy, gm, gd) := gregorian_of_days (d + 36524) in
   valid_gregorian gy gm gd = true
   /\ gregorian_days gy gm gd (goff gm) = d + 36524 + 355667)
  /\ lo + 100 <= fst (fst (gregorian_of_days (d + 36524))) < lo + 200.
Proof.
  intros Hd Hlo Hs Hy.
  rewrite (gregorian_of_days_century d Hd) by lia.
  destruct (gregorian_of_days d) as [[gy gm] gd]. simpl in Hy. unfold shift_year.
  destruct Hs as [Hv He]. simpl.
  rewrite valid_gregorian_century, gregorian_days_century, He by lia.
  repeat split; auto; lia.
Qed.

Lemma gregorian_of_days_400_years r :
  0 <= r < 146097 ->
  let '(gy, gm, gd) := gregorian_of_days r in
  valid_gregorian gy gm gd = true /\ gregorian_days gy gm gd (goff gm) = r + 355667.
Proof.
  intros Hr.
  destruct (Z_lt_le_dec r 73049) as [H1 | H1].
  { apply gregorian_of_days_first_centuries. lia. }
  destruct (Z_lt_le_dec r 109573) as [H2 | H2].
  - destruct (gregorian_of_days_first_centuries (r - 36524) ltac:(lia)) as [Hs Hy].
    destruct (gregorian_of_days_next_century (r - 36524) 100 ltac:(lia) ltac:(lia) Hs
                (Hy ltac:(lia))) as [Hs' _].
    replace (r - 36524 + 36524) with r in Hs' by ring. exact Hs'.
  - destruct (gregorian_of_days_first_centuries (r - 36524 - 36524) ltac:(lia)) as [Hs Hy].
    destruct (gregorian_of_days_next_century (r - 36524 - 36524) 100 ltac:(lia) ltac:(lia)
                Hs (Hy ltac:(lia))) as [Hs' Hy'].
    replace (r - 36524 - 36524 + 36524) with (r - 36524) in Hs', Hy' by ring.
    destruct (gregorian_of_days_next_century (r - 36524) 200 ltac:(lia) ltac:(lia) Hs' Hy')
      as [Hs'' _].
    replace (r - 36524 + 36524) with r in Hs'' by ring. exact Hs''.
Qed.

Lemma gregorian_of_days_sound n :
  let '(gy, gm, gd) := gregorian_of_days n in
  valid_gregorian gy gm gd = true /\ gregorian_days gy gm gd (goff gm) = n + 355667.
Proof.
  pose proof (Z.mod_pos_bound n 146097 ltac:(lia)) as Hb.
  pose proof (gregorian_of_days_400_years (n mod 146097) Hb) as Hc.
  assert (Hn : n = n mod 146097 + (n / 146097) * 146097)
    by (pose proof (Z.div_mod n 146097 ltac:(lia)); lia).
  set (r := n mod 146097) in *. set (q := n / 146097) in *. clearbody r q. subst n.
  rewrite gregorian_of_days_period.
  destruct (gregorian_of_days r) as [[gy gm] gd]. unfold shift_year.
  destruct Hc as [Hv He].
  rewrite valid_gregorian_period, gregorian_days_period, He. split; [exact Hv | ring].
Qed.

Lemma valid_gregorian_bounds gy gm gd :
  valid_gregorian gy gm gd = true -> 1 <= gm <= 12 /\ 1 <= gd <= 31.
Proof.
  unfold valid_gregorian. rewrite !andb_true_iff, !Z.leb_le. intros [[[H1 H2] H3] H4].
  assert (Hc : gm = 1 \/ gm = 2 \/ gm = 3 \/ gm = 4 \/ gm = 5 \/ gm = 6 \/ gm = 7 \/
               gm = 8 \/ gm = 9 \/ gm = 10 \/ gm = 11 \/ gm = 12) by lia.
  assert (nth (Z.to_nat gm) (sal_a gy) 0 <= 31).
  { unfold sal_a. destruct (is_leap gy);
      repeat (destruct Hc as [-> | Hc]; [simpl; lia|]); rewrite Hc; simpl; lia. }
  lia.
Qed.

Lemma valid_jalali_bounds jy jm jd :
  valid_jalali jy jm jd = true -> 1 <= jm <= 12 /\ 1 <= jd <= 31.
Proof.
  unfold valid_jalali. rewrite !andb_true_iff, !Z.leb_le. intros [[[H1 H2] H3] H4].
  assert (jalali_month_days jy jm <= 31).
  { unfold jalali_month_days.
    destruct (jm <=? 6); [lia|]. destruct (jm <=? 11); [lia|].
    destruct (jalali_leap jy); lia. }
  lia.
Qed.

(** The day number of a valid canonical date, by years and days of the
    year. *)
Lemma leap_years_before_step gy :
  leap_years_before (gy + 1) = leap_years_before gy + (if is_leap gy then 1 else 0).
Proof.
  unfold leap_years_before, is_leap.
  destruct (gy mod 4 =? 0) eqn:H4; destruct (gy mod 100 =? 0) eqn:H100;
    destruct (gy mod 400 =? 0) eqn:H400; simpl;
    repeat match goal with
    | H : (_ =? _) = true |- _ => apply Z.eqb_eq in H
    | H : (_ =? _) = false |- _ => apply Z.eqb_neq in H
    end; divmod.
Qed.

Lemma gregorian_days_year gy gm gd :
  gregorian_days gy gm gd (goff gm)
  = 355666 + 365 * gy + leap_years_before gy + day_of_year gy gm gd.
Proof.
  pose proof (leap_years_before_step gy) as Hstep.
  unfold gregorian_days, day_of_year, leap_years_before in *.
  destruct (gm >? 2); cbv beta iota delta [andb].
  - destruct (is_leap gy); lia.
  - lia.
Qed.

Lemma month_cases gm :
  1 <= gm <= 12 ->
  gm = 1 \/ gm = 2 \/ gm = 3 \/ gm = 4 \/ gm = 5 \/ gm = 6 \/ gm = 7 \/
  gm = 8 \/ gm = 9 \/ gm = 10 \/ gm = 11 \/ gm = 12.
Proof. lia. Qed.

Lemma valid_gregorian_inv gy gm gd :
  valid_gregorian gy gm gd = true ->
  1 <= gm <= 12 /\ 1 <= gd <= nth (Z.to_nat gm) (sal_a gy) 0.
Proof.
  unfold valid_gregorian. rewrite !andb_true_iff, !Z.leb_le. tauto.
Qed.

(** In one year, the days of a month come after those of the months before. *)
Lemma day_of_year_bounds gy gm gd :
  valid_gregorian gy gm gd = true ->
  1 <= day_of_year gy gm gd <= 365 + (if is_leap gy then 1 else 0).
Proof.
  intros Hv. apply valid_gregorian_inv in Hv as [Hm Hd].
  unfold day_of_year, sal_a, goff in *.
  destruct (is_leap gy);
    destruct (month_cases gm Hm) as
      [-> | [-> | [-> | [-> | [-> | [-> | [-> | [-> | [-> | [-> | [-> | ->]]]]]]]]]]];
    simpl in Hd |- *; lia.
Qed.

Lemma day_of_year_start_mono gy gm gm' :
  1 <= gm -> gm < gm' -> gm' <= 12 ->
  day_of_year gy gm (nth (Z.to_nat gm) (sal_a gy) 0) <= day_of_year gy gm' 0.
Proof.
  intros H1 H2 H3.
  assert (Hm : 1 <= gm <= 12) by lia. assert (Hm' : 1 <= gm' <= 12) by lia.
  unfold day_of_year, sal_a, goff.
  destruct (is_leap gy);
    destruct (month_cases gm Hm) as
      [-> | [-> | [-> | [-> | [-> | [-> | [-> | [-> | [-> | [-> | [-> | ->]]]]]]]]]]];
    destruct (month_cases gm' Hm') as
      [-> | [-> | [-> | [-> | [-> | [-> | [-> | [-> | [-> | [-> | [-> | ->]]]]]]]]]]];
    try lia; simpl; lia.
Qed.

Lemma day_of_year_inj gy gm gd gm' gd' :
  valid_gregorian gy gm gd = true -> valid_gregorian gy gm' gd' = true ->
  day_of_year gy gm gd = day_of_year gy gm' gd' -> gm = gm' /\ gd = gd'.
Proof.
  intros Hv Hv' He.
  pose proof (valid_gregorian_inv _ _ _ Hv) as [Hm Hd].
  pose proof (valid_gregorian_inv _ _ _ Hv') as [Hm' Hd'].
  assert (Hgm : gm = gm').
  { destruct (Z.lt_trichotomy gm gm') as [Hlt | [Heq | Hgt]]; [| exact Heq |]; exfalso.
    - pose proof (day_of_year_start_mono gy gm gm' ltac:(lia) Hlt ltac:(lia)) as Hmono.
      unfold day_of_year in *. lia.
    - pose proof (day_of_year_start_mono gy gm' gm ltac:(lia) Hgt ltac:(lia)) as Hmono.
      unfold day_of_year in *. lia. }
  subst gm'. split; [reflexivity |]. unfold day_of_year in He. lia.
Qed.

(** The first day of a later year is more than a year away. *)
Lemma year_start_mono gy k :
  0 <= k ->
  365 * gy + leap_years_before gy + 365 * k <= 365 * (gy + k) + leap_years_before (gy + k).
Proof.
  intros Hk. pattern k. apply natlike_ind; [| | exact Hk].
  - replace (gy + 0) with gy by ring. lia.
  - intros x Hx IH. replace (gy + Z.succ x) with (gy + x + 1) by lia.
    rewrite leap_years_before_step. destruct (is_leap (gy + x)); lia.
Qed.

(** Two valid canonical dates with the same day number are the same date. *)
Lemma gregorian_days_inj gy gm gd gy' gm' gd' :
  valid_gregorian gy gm gd = true -> valid_gregorian gy' gm' gd' = true ->
  gregorian_days gy gm gd (goff gm) = gregorian_days gy' gm' gd' (goff gm') ->
  (gy, gm, gd) = (gy', gm', gd').
Proof.
  intros Hv Hv' He. rewrite !gregorian_days_year in He.
  pose proof (day_of_year_bounds _ _ _ Hv) as Hb.
  pose proof (day_of_year_bounds _ _ _ Hv') as Hb'.
  assert (Hgy : gy = gy').
  { destruct (Z.lt_trichotomy gy gy') as [Hlt | [Heq | Hgt]]; [| exact Heq |]; exfalso.
    - pose proof (year_start_mono (gy + 1) (gy' - gy - 1) ltac:(lia)) as Hm.
      replace (gy + 1 + (gy' - gy - 1)) with gy' in Hm by ring.
      rewrite leap_years_before_step in Hm. destruct (is_leap gy); lia.
    - pose proof (year_start_mono (gy' + 1) (gy - gy' - 1) ltac:(lia)) as Hm.
      replace (gy' + 1 + (gy - gy' - 1)) with gy in Hm by ring.
      rewrite leap_years_before_step in Hm. destruct (is_leap gy'); lia. }
  subst gy'.
  destruct (day_of_year_inj gy gm gd gm' gd' Hv Hv' ltac:(lia)) as [-> ->]. reflexivity.
Qed.

(** A valid canonical date is the decoding of its day number. *)
Lemma gregorian_days_sound gy gm gd :
  valid_gregorian gy gm gd = true ->
  gregorian_of_days (gregorian_days gy gm gd (goff gm) - 355667) = (gy, gm, gd).
Proof.
  intros Hv.
  pose proof (gregorian_of_days_sound (gregorian_days gy gm gd (goff gm) - 355667)) as Hs.
  destruct (gregorian_of_days _) as [[gy' gm'] gd']. destruct Hs as [Hv' He].
  apply gregorian_days_inj; [exact Hv' | exact Hv | lia].
Qed.

(** Every day number decodes to a valid local date, whose day number it is. *)
Lemma jalali_of_days_sound n :
  let '(jy, jm, jd) := jalali_of_days (-1595) n in
  valid_jalali jy jm jd = true /\ jalali_days jy jm jd = n - 355667.
Proof.
  pose proof (Z.mod_pos_bound n 12053 ltac:(lia)) as Hb.
  pose proof (forall_range_spec _ _ _ jalali_of_days_cycle (n mod 12053) ltac:(lia)) as Hc.
  assert (Hn : n = n mod 12053 + (n / 12053) * 12053)
    by (pose proof (Z.div_mod n 12053 ltac:(lia)); lia).
  set (r := n mod 12053) in *. set (q := n / 12053) in *. clearbody r q. subst n.
  rewrite jalali_of_days_period.
  unfold check_jalali_of_days in Hc.
  destruct (jalali_of_days (-1595) r) as [[jy jm] jd]. unfold shift_year.
  apply andb_true_iff in Hc as [Hv He]. apply Z.eqb_eq in He.
  rewrite valid_jalali_period, jalali_days_period, He. split; [exact Hv | ring].
Qed.

(** A valid local date is the decoding of its day number. *)
Lemma jalali_days_sound jy jm jd :
  valid_jalali jy jm jd = true ->
  jalali_of_days (-1595) (jalali_days jy jm jd + 355667) = (jy, jm, jd).
Proof.
  intros Hv.
  pose proof (Z.mod_pos_bound (jy + 1595) 33 ltac:(lia)) as Hb.
  assert (Hjy : jy = ((jy + 1595) mod 33 - 1595) + 33 * ((jy + 1595) / 33))
    by (pose proof (Z.div_mod (jy + 1595) 33 ltac:(lia)); lia).
  set (q := (jy + 1595) / 33) in *. set (r := (jy + 1595) mod 33) in *.
  clearbody q r. subst jy.
  rewrite valid_jalali_period in Hv.
  rewrite jalali_days_period.
  replace (jalali_days (r - 1595) jm jd + q * 12053 + 355667)
    with (jalali_days (r - 1595) jm jd + 355667 + q * 12053) by ring.
  rewrite jalali_of_days_period.
  pose proof (forall_range_spec _ _ _ jalali_days_cycle (r - 1595) ltac:(lia)) as Hc.
  unfold check_jalali_days in Hc.
  destruct (valid_jalali_bounds _ _ _ Hv) as [Hm Hd].
  pose proof (forall_range_spec _ _ _ Hc jm ltac:(lia)) as Hc2. cbv beta in Hc2.
  pose proof (forall_range_spec _ _ _ Hc2 jd ltac:(lia)) as Hc3. cbv beta in Hc3.
  rewrite Hv in Hc3. apply date_eqb_eq in Hc3. rewrite Hc3.
  reflexivity.
Qed.

(** The local year of [jalali_leap] has 366 days, the others 365: the leap
    years are those of the day count of [_jalali_to_gregorian]. *)
Lemma jalali_year_length jy :
  jalali_days (jy + 1) 1 1 - jalali_days jy 1 1 = if jalali_leap jy then 366 else 365.
Proof.
  pose proof (Z.mod_pos_bound (jy + 1595) 33 ltac:(lia)) as Hb.
  assert (Hjy : jy = ((jy + 1595) mod 33 - 1595) + 33 * ((jy + 1595) / 33))
    by (pose proof (Z.div_mod (jy + 1595) 33 ltac:(lia)); lia).
  set (q := (jy + 1595) / 33) in *. set (r := (jy + 1595) mod 33) in *.
  clearbody q r. subst jy.
  replace (r - 1595 + 33 * q + 1) with (r - 1595 + 1 + 33 * q) by ring.
  rewrite !jalali_days_period, jalali_leap_period.
  pose proof (forall_range_spec _ _ _ jalali_year_cycle (r - 1595) ltac:(lia)) as Hc.
  unfold check_jalali_year in Hc. apply Z.eqb_eq in Hc. lia.
Qed.

(** [forms._gregorian_to_jalali] of a valid canonical date is a valid local
    date. *)
Lemma gregorian_to_jalali_valid gy gm gd :
  valid_gregorian gy gm gd = true ->
  exists jy jm jd,
    forms._gregorian_to_jalali gy gm gd = Return (jy, jm, jd)
    /\ valid_jalali jy jm jd = true
    /\ jalali_days jy jm jd = gregorian_days gy gm gd (goff gm) - 355667.
Proof.
  intros Hv. destruct (valid_gregorian_bounds _ _ _ Hv) as [Hm _].
  rewrite forms_gregorian_to_jalali_split, (py_getitem_month gm Hm). simpl.
  pose proof (jalali_of_days_sound (gregorian_days gy gm gd (goff gm))) as Hs.
  destruct (jalali_of_days (-1595) (gregorian_days gy gm gd (goff gm))) as [[jy jm] jd].
  exists jy, jm, jd. destruct Hs as [Hs1 Hs2]. auto.
Qed.

(** [_jalali_to_gregorian] always yields a valid canonical date. *)
Lemma jalali_to_gregorian_valid jy jm jd :
  let '(gy, gm, gd) := forms._jalali_to_gregorian jy jm jd in
  valid_gregorian gy gm gd = true.
Proof.
  rewrite jalali_to_gregorian_split.
  pose proof (gregorian_of_days_sound (jalali_days jy jm jd)) as Hs.
  destruct (gregorian_of_days (jalali_days jy jm jd)) as [[gy gm] gd]. tauto.
Qed.

(** ** C9: the two converters of [forms.py] are inverse of each other *)

(** C9. Converting a valid canonical (Gregorian) date to the local calendar
    and back yields the date, and converting a valid local (Jalali) date to
    the canonical calendar and back yields the date; both hold for every year,
    negative ones included. *)
Theorem calendar_round_trip :
  (forall gy gm gd, valid_gregorian gy gm gd = true ->
     exists jy jm jd,
       forms._gregorian_to_jalali gy gm gd = Return (jy, jm, jd)
       /\ valid_jalali jy jm jd = true
       /\ forms._jalali_to_gregorian jy jm jd = (gy, gm, gd))
  /\
  (forall jy jm jd, valid_jalali jy jm jd = true ->
     let '(gy, gm, gd) := forms._jalali_to_gregorian jy jm jd in
     valid_gregorian gy gm gd = true
     /\ forms._gregorian_to_jalali gy gm gd = Return (jy, jm, jd)).
Proof.
  split.
  - intros gy gm gd Hv.
    destruct (gregorian_to_jalali_valid _ _ _ Hv) as (jy & jm & jd & He & Hj & Hd).
    exists jy, jm, jd. repeat split; [exact He | exact Hj |].
    rewrite jalali_to_gregorian_split, Hd. now apply gregorian_days_sound.
  - intros jy jm jd Hv.
    rewrite jalali_to_gregorian_split.
    pose proof (gregorian_of_days_sound (jalali_days jy jm jd)) as Hs.
    destruct (gregorian_of_days (jalali_days jy jm jd)) as [[gy gm] gd].
    destruct Hs as [Hg Hd]. split; [exact Hg |].
    destruct (valid_gregorian_bounds _ _ _ Hg) as [Hm _].
    rewrite forms_gregorian_to_jalali_split, (py_getitem_month gm Hm). simpl.
    rewrite Hd. now rewrite jalali_days_sound.
Qed.

Lemma calendar_round_trip_witness :
  (exists jy jm jd,
     forms._gregorian_to_jalali 2024 3 20 = Return (jy, jm, jd)
     /\ valid_jalali jy jm jd = true
     /\ forms._jalali_to_gregorian jy jm jd = (2024, 3, 20))
  /\ (let '(gy, gm, gd) := forms._jalali_to_gregorian 1403 12 30 in
      valid_gregorian gy gm gd = true
      /\ forms._gregorian_to_jalali gy gm gd = Return (1403, 12, 30)).
Proof.
  split.
  - apply (proj1 calendar_round_trip 2024 3 20). reflexivity.
  - apply (proj2 calendar_round_trip 1403 12 30). reflexivity.
Defined.

(** ** C10: the converter of [views.py] against the one of [forms.py] *)

(** C10. For every Gregorian date after the year 1600, the range in which
    [views._gregorian_to_jalali] works from its epoch 1600 (it is only ever
    given the current date), the converter of [views.py] and the one of
    [forms.py] return the same result: the same triple, and the same
    [IndexError] when the month is no index of [g_d_m]. *)
Theorem converters_agree gy gm gd :
  1600 < gy ->
  views._gregorian_to_jalali gy gm gd = forms._gregorian_to_jalali gy gm gd.
Proof.
  intros Hgy.
  rewrite (views_gregorian_to_jalali_split gy gm gd Hgy), forms_gregorian_to_jalali_split.
  destruct (py_getitem g_d_m (gm - 1)) as [off | e]; [| reflexivity]. simpl. f_equal.
  set (d := gregorian_days gy gm gd off).
  replace d with (d - 940134 + 78 * 12053) at 2 by ring.
  rewrite jalali_of_days_period.
  replace 979 with (-1595 + 33 * 78) by reflexivity.
  apply jalali_of_days_base.
Qed.

Lemma converters_agree_witness :
  views._gregorian_to_jalali 2024 3 20 = forms._gregorian_to_jalali 2024 3 20
  /\ forms._gregorian_to_jalali 2024 3 20 = Return (1403, 1, 1).
Proof.
  split.
  - apply (converters_agree 2024 3 20). lia.
  - reflexivity.
Defined.

(** The year 1600 itself is outside that range: there the two differ. *)
Lemma converters_differ_in_1600 :
  views._gregorian_to_jalali 1600 12 31 = Return (979, 10, 10)
  /\ forms._gregorian_to_jalali 1600 12 31 = Return (979, 10, 11).
Proof. split; reflexivity. Qed.

(** ** Parsing a date of birth *)

Lemma datetime_is_leap gy : datetime._is_leap gy = is_leap gy.
Proof.
  unfold datetime._is_leap, is_leap.
  destruct (gy mod 4 =? 0) eqn:H4; destruct (gy mod 100 =? 0) eqn:H100;
    destruct (gy mod 400 =? 0) eqn:H400; try reflexivity; exfalso;
    apply Z.eqb_eq in H400; apply Z.eqb_neq in H4; divmod.
Qed.

Lemma datetime_days_in_month gy gm :
  1 <= gm <= 12 -> datetime._days_in_month gy gm = nth (Z.to_nat gm) (sal_a gy) 0.
Proof.
  intros H. unfold datetime._days_in_month, sal_a. rewrite datetime_is_leap.
  assert (Hc : gm = 1 \/ gm = 2 \/ gm = 3 \/ gm = 4 \/ gm = 5 \/ gm = 6 \/ gm = 7 \/
               gm = 8 \/ gm = 9 \/ gm = 10 \/ gm = 11 \/ gm = 12) by lia.
  destruct (is_leap gy);
    repeat (destruct Hc as [-> | Hc]; [reflexivity|]); rewrite Hc; reflexivity.
Qed.

(** [datetime.date] returns the date it is given when that is a date of the
    years 1..9999, and raises otherwise. *)
Lemma datetime_date_valid gy gm gd :
  valid_date gy gm gd = true ->
  datetime.date gy gm gd = Return (datetime.mk_date gy gm gd).
Proof.
  intros Hv. unfold valid_date in Hv.
  apply andb_true_iff in Hv as [Hy Hg]. apply andb_true_iff in Hy as [Hy1 Hy2].
  destruct (valid_gregorian_bounds _ _ _ Hg) as [Hm Hd].
  unfold valid_gregorian in Hg. rewrite !andb_true_iff, !Z.leb_le in Hg.
  apply Z.leb_le in Hy1, Hy2.
  unfold datetime.date, datetime.c_int.
  rewrite (datetime_days_in_month gy gm Hm).
  repeat match goal with
  | |- context [ ?a <=? ?b ] =>
      replace (a <=? b) with true by (symmetry; apply Z.leb_le; lia)
  end.
  reflexivity.
Qed.

Lemma datetime_date_invalid gy gm gd :
  valid_date gy gm gd = false -> raises (datetime.date gy gm gd) = true.
Proof.
  intros Hv. unfold datetime.date.
  destruct (negb (datetime.c_int gy && datetime.c_int gm && datetime.c_int gd));
    [reflexivity|].
  destruct ((1 <=? gy) && (gy <=? 9999)) eqn:Hy; [| reflexivity].
  destruct ((1 <=? gm) && (gm <=? 12)) eqn:Hm; [| reflexivity].
  destruct ((1 <=? gd) && (gd <=? datetime._days_in_month gy gm)) eqn:Hd; [| reflexivity].
  exfalso. simpl in *.
  assert (Hm' : 1 <= gm <= 12)
    by (apply andb_true_iff in Hm as [? ?]; split; now apply Z.leb_le).
  rewrite (datetime_days_in_month gy gm Hm') in Hd.
  unfold valid_date, valid_gregorian in Hv.
  apply andb_true_iff in Hd as [Hd1 Hd2].
  rewrite Hy, Hm, Hd1, Hd2 in Hv. discriminate.
Qed.

Lemma datetime_date_raises gy gm gd :
  raises (datetime.date gy gm gd) = negb (valid_date gy gm gd).
Proof.
  destruct (valid_date gy gm gd) eqn:Hv.
  - now rewrite (datetime_date_valid _ _ _ Hv).
  - now rewrite (datetime_date_invalid _ _ _ Hv).
Qed.

Lemma parsed_as_components int value y m d :
  parsed_as int value y m d ->
  nonempty (strip (forms._persian_to_ascii value)) = true.
Proof.
  intros (p1 & p2 & p3 & Hc & _).
  destruct (strip (forms._persian_to_ascii value)); [discriminate Hc | reflexivity].
Qed.

(** ** C8: the year decides which calendar a text is read in *)

(** C8. For every text that is read into three numeric components, a year of
    1700 or more makes the components the canonical date as they are
    ([datetime.date] of them, no conversion), and a year of 1699 or less makes
    them a date of the local calendar, converted by [_jalali_to_gregorian]. *)
Theorem year_heuristic (int : str -> pyresult Z) (value : str) (y m d : Z) :
  parsed_as int value y m d ->
  (1700 <= y ->
     forms._parse_birth_date int value =
     pybind (datetime.date y m d) (fun date => Return (Some date)))
  /\
  (y <= 1699 ->
     forms._parse_birth_date int value =
     let '(gy, gm, gd) := forms._jalali_to_gregorian y m d in
     pybind (datetime.date gy gm gd) (fun date => Return (Some date))).
Proof.
  intros Hp. pose proof (parsed_as_components _ _ _ _ _ Hp) as Hne.
  destruct Hp as (p1 & p2 & p3 & Hc & H1 & H2 & H3).
  unfold forms._parse_birth_date. rewrite Hne, Hc, H1, H2, H3. simpl.
  split; intros Hy.
  - replace (y >=? 1700) with true by (symmetry; apply Z.geb_le; lia). reflexivity.
  - replace (y >=? 1700) with false; [reflexivity |].
    symmetry. rewrite Z.geb_leb. apply Z.leb_gt. lia.
Qed.

Lemma year_heuristic_witness :
  forms._parse_birth_date int_ascii (codes "1700/01/01")
    = Return (Some (datetime.mk_date 1700 1 1))
  /\ forms._parse_birth_date int_ascii (codes "1699/01/01")
    = Return (Some (datetime.mk_date 2320 3 21)).
Proof.
  assert (H1700 : parsed_as int_ascii (codes "1700/01/01") 1700 1 1).
  { exists (codes "1700"), (codes "01"), (codes "01"). repeat split; reflexivity. }
  assert (H1699 : parsed_as int_ascii (codes "1699/01/01") 1699 1 1).
  { exists (codes "1699"), (codes "01"), (codes "01"). repeat split; reflexivity. }
  split.
  - rewrite (proj1 (year_heuristic int_ascii _ 1700 1 1 H1700)) by lia. reflexivity.
  - rewrite (proj2 (year_heuristic int_ascii _ 1699 1 1 H1699)) by lia. reflexivity.
Defined.

(** ** C3: when parsing fails *)

(** C3 as it stands fails: a date that is no date of the local
    calendar is accepted (day 30 of the twelfth month of 1402, a year of 365
    days; month 13), and a text of blanks gives no value and no failure. *)
Lemma parse_accepts_invalid_local_date :
  valid_jalali 1402 12 30 = false
  /\ forms._parse_birth_date int_ascii (codes "1402/12/30")
     = Return (Some (datetime.mk_date 2024 3 20))
  /\ valid_jalali 1402 13 45 = false
  /\ forms._parse_birth_date int_ascii (codes "1402/13/45")
     = Return (Some (datetime.mk_date 2024 5 4))
  /\ forms._parse_birth_date int_ascii (codes "  ") = Return None.
Proof. repeat split; reflexivity. Qed.

(** C3 (amended). [_parse_birth_date] raises exactly when the normalized,
    stripped text is not empty and: it has not exactly three non-empty
    components between the separators; or [int] rejects a component; or the
    canonical date is no date of the years 1..9999, that date being the three
    components themselves for a year of 1700 or more, and the conversion of
    the components otherwise, of which only the year can be out of range.
    The components of a local date are not checked at all. *)
Theorem parse_fails_exactly (int : str -> pyresult Z) (value : str) :
  raises (forms._parse_birth_date int value) = true <->
  strip (forms._persian_to_ascii value) <> []
  /\ (List.length (forms.components (strip (forms._persian_to_ascii value))) <> 3%nat
      \/ (exists p, In p (forms.components (strip (forms._persian_to_ascii value)))
                    /\ raises (int p) = true)
      \/ (exists y m d, parsed_as int value y m d
            /\ ((1700 <= y /\ valid_date y m d = false)
                \/ (y < 1700
                    /\ ~ 1 <= fst (fst (forms._jalali_to_gregorian y m d)) <= 9999)))).
Proof.
  unfold forms._parse_birth_date, parsed_as.
  set (raw := strip (forms._persian_to_ascii value)).
  destruct raw as [| c raw'] eqn:Hraw.
  { simpl. split; [discriminate | intros [H _]; now elim H]. }
  change (nonempty (c :: raw')) with true. cbv beta iota delta [negb].
  assert (Hne : c :: raw' <> []) by discriminate.
  destruct (forms.components (c :: raw')) as [| p1 [| p2 [| p3 [| p4 ps]]]] eqn:Hc;
    try (simpl; split; [intros _; split; [exact Hne | left; discriminate] | reflexivity]).
  split.
  - intros Hr. split; [exact Hne |]. right.
    destruct (int p1) as [y |] eqn:H1;
      [| left; exists p1; split; [simpl; auto | now rewrite H1]].
    destruct (int p2) as [m |] eqn:H2;
      [| left; exists p2; split; [simpl; auto | now rewrite H2]].
    destruct (int p3) as [d |] eqn:H3;
      [| left; exists p3; split; [simpl; auto | now rewrite H3]].
    right. exists y, m, d. split; [exists p1, p2, p3; auto |].
    simpl in Hr. destruct (y >=? 1700) eqn:Hy.
    + left. split; [apply Z.geb_le in Hy; lia |].
      destruct (valid_date y m d) eqn:Hv; [| reflexivity].
      rewrite (datetime_date_valid _ _ _ Hv) in Hr. discriminate.
    + right. split; [rewrite Z.geb_leb in Hy; apply Z.leb_gt in Hy; lia |].
      pose proof (jalali_to_gregorian_valid y m d) as Hg.
      destruct (forms._jalali_to_gregorian y m d) as [[gy gm] gd]. simpl. intros Hrange.
      assert (Hv : valid_date gy gm gd = true).
      { unfold valid_date. rewrite Hg.
        replace (1 <=? gy) with true by (symmetry; apply Z.leb_le; lia).
        replace (gy <=? 9999) with true by (symmetry; apply Z.leb_le; lia). reflexivity. }
      rewrite (datetime_date_valid _ _ _ Hv) in Hr. discriminate.
  - intros [_ [Hlen | [(p & Hin & Hp) | (y & m & d & Hpa & Hbad)]]].
    + now elim Hlen.
    + destruct (int p1) as [y |] eqn:H1; [| reflexivity].
      destruct (int p2) as [m |] eqn:H2; [| reflexivity].
      destruct (int p3) as [d |] eqn:H3; [| reflexivity].
      exfalso. simpl in Hin.
      destruct Hin as [<- | [<- | [<- | []]]];
        [rewrite H1 in Hp | rewrite H2 in Hp | rewrite H3 in Hp]; discriminate.
    + destruct Hpa as (q1 & q2 & q3 & Hq & H1 & H2 & H3).
      injection Hq as <- <- <-. rewrite H1, H2, H3. simpl.
      destruct Hbad as [[Hy Hv] | [Hy Hrange]].
      * replace (y >=? 1700) with true by (symmetry; apply Z.geb_le; lia).
        pose proof (datetime_date_invalid _ _ _ Hv) as Hr.
        destruct (datetime.date y m d); [discriminate | reflexivity].
      * replace (y >=? 1700) with false
          by (symmetry; rewrite Z.geb_leb; apply Z.leb_gt; lia).
        destruct (forms._jalali_to_gregorian y m d) as [[gy gm] gd]. simpl in Hrange.
        assert (Hv : valid_date gy gm gd = false).
        { unfold valid_date.
          destruct (1 <=? gy) eqn:Ha; [| reflexivity].
          destruct (gy <=? 9999) eqn:Hb; [| reflexivity].
          apply Z.leb_le in Ha, Hb. elim Hrange. lia. }
        pose proof (datetime_date_invalid _ _ _ Hv) as Hr.
        destruct (datetime.date gy gm gd); [discriminate | reflexivity].
Qed.

Lemma parse_fails_exactly_witness :
  raises (forms._parse_birth_date int_ascii (codes "1402/03")) = true
  /\ raises (forms._parse_birth_date int_ascii (codes "1700/02/30")) = true.
Proof.
  split.
  - apply (proj2 (parse_fails_exactly int_ascii (codes "1402/03"))).
    split; [discriminate | left; discriminate].
  - apply (proj2 (parse_fails_exactly int_ascii (codes "1700/02/30"))).
    split; [discriminate |]. right. right. exists 1700, 2, 30. split.
    + exists (codes "1700"), (codes "02"), (codes "30"). repeat split; reflexivity.
    + left. split; [lia | reflexivity].
Defined.

(** ** Progression: the reference data *)

Lemma same_records_refl db : same_records db db.
Proof. repeat split; apply incl_refl. Qed.

Lemma same_records_trans db1 db2 db3 :
  same_records db1 db2 -> same_records db2 db3 -> same_records db1 db3.
Proof.
  intros (a1 & b1 & c1 & d1) (a2 & b2 & c2 & d2).
  repeat split; try congruence; eapply incl_tran; eassumption.
Qed.

Lemma bind_return {A B : Type} (m : M A) (k : A -> M B) db a db' :
  m db = Return (a, db') -> bind m k db = k a db'.
Proof. intros H. unfold bind. now rewrite H. Qed.

Lemma ensure_level_spec code name db :
  exists obj db',
    views.ensure_level code name db = Return (obj, db')
    /\ StudyLevel.code obj = code /\ same_records db db'.
Proof.
  unfold views.ensure_level.
  destruct (find _ (StudyLevel_objects db)) as [obj |] eqn:Hf.
  - apply find_some in Hf as [_ Hc]. apply String.eqb_eq in Hc.
    destruct (String.eqb (StudyLevel.name obj) name).
    + exists obj, db. repeat split; auto; apply incl_refl.
    + eexists _, _. split; [reflexivity |]. simpl. repeat split; auto; apply incl_refl.
  - eexists _, _. split; [reflexivity |]. simpl. repeat split; auto; apply incl_refl.
Qed.

Lemma ensure_levels_spec defs : forall db,
  exists level_map db',
    views.ensure_levels defs db = Return (level_map, db')
    /\ same_records db db'
    /\ forall code, In code (map fst defs) ->
         exists obj, views.level_map_get level_map code = Some obj
                     /\ StudyLevel.code obj = code.
Proof.
  induction defs as [| [code name] rest IH]; intros db.
  - exists [], db. repeat split; try apply incl_refl. intros code [].
  - destruct (ensure_level_spec code name db) as (obj & db1 & He & Hc & Hs).
    destruct (IH db1) as (lm & db2 & Hr & Hs2 & Hget).
    exists ((code, obj) :: lm), db2. split; [| split].
    + simpl. rewrite (bind_return _ _ _ _ _ He), (bind_return _ _ _ _ _ Hr). reflexivity.
    + eapply same_records_trans; eassumption.
    + intros k Hk. simpl.
      destruct (String.eqb code k) eqn:Hck.
      * apply String.eqb_eq in Hck. subst k. exists obj. auto.
      * destruct Hk as [Hk | Hk]; [simpl in Hk; subst k; now rewrite String.eqb_refl in Hck |].
        now apply Hget.
Qed.

Lemma ensure_semester_spec n db :
  exists obj db',
    views.ensure_semester n db = Return (obj, db')
    /\ same_records db db' /\ In (Semester.mk n) (Semester_objects db').
Proof.
  unfold views.ensure_semester.
  destruct (find _ (Semester_objects db)) as [obj |] eqn:Hf.
  - apply find_some in Hf as [Hin Hn]. apply Z.eqb_eq in Hn.
    exists obj, db. split; [reflexivity |]. split; [apply same_records_refl |].
    destruct obj as [k]. simpl in Hn. now subst k.
  - eexists _, _. split; [reflexivity |]. simpl. split.
    + repeat split; simpl; auto; try apply incl_refl. now apply incl_appl, incl_refl.
    + apply in_or_app. right. now left.
Qed.

Lemma ensure_period_spec n db :
  exists obj db',
    views.ensure_period n db = Return (obj, db')
    /\ same_records db db' /\ In (CoursePeriod.mk n) (CoursePeriod_objects db').
Proof.
  unfold views.ensure_period.
  destruct (find _ (CoursePeriod_objects db)) as [obj |] eqn:Hf.
  - apply find_some in Hf as [Hin Hn]. apply Z.eqb_eq in Hn.
    exists obj, db. split; [reflexivity |]. split; [apply same_records_refl |].
    destruct obj as [k]. simpl in Hn. now subst k.
  - eexists _, _. split; [reflexivity |]. simpl. split.
    + repeat split; simpl; auto; try apply incl_refl. now apply incl_appl, incl_refl.
    + apply in_or_app. right. now left.
Qed.

Lemma for_each_spec {A B : Type} (f : A -> M B) (l : list A) :
  (forall x db, exists b db', f x db = Return (b, db') /\ same_records db db') ->
  forall db, exists db', views.for_each f l db = Return (tt, db') /\ same_records db db'.
Proof.
  intros Hf. induction l as [| x rest IH]; intros db.
  - exists db. split; [reflexivity | apply same_records_refl].
  - destruct (Hf x db) as (b & db1 & He & Hs).
    destruct (IH db1) as (db2 & Hr & Hs2).
    exists db2. split.
    + simpl. now rewrite (bind_return _ _ _ _ _ He).
    + eapply same_records_trans; eassumption.
Qed.

(** [_ensure_reference_data] returns the three levels under their codes and
    leaves subjects and scores as they are. *)
Lemma ensure_reference_data_spec db :
  exists level_map db',
    views._ensure_reference_data db = Return (level_map, db')
    /\ same_records db db'
    /\ forall code, In code ["aali"; "moteseta"; "ebtedai"]%string ->
         exists obj, views.level_map_get level_map code = Some obj
                     /\ StudyLevel.code obj = code.
Proof.
  destruct (ensure_levels_spec views.level_defs db) as (lm & db1 & He & Hs1 & Hget).
  destruct (for_each_spec views.ensure_semester [1; 2; 3; 4]
              (fun n d => let '(ex_intro _ o (ex_intro _ d' (conj a (conj b _)))) :=
                            ensure_semester_spec n d in
                          ex_intro _ o (ex_intro _ d' (conj a b))) db1)
    as (db2 & Hsem & Hs2).
  destruct (for_each_spec views.ensure_period [1; 2; 3; 4; 5; 6]
              (fun n d => let '(ex_intro _ o (ex_intro _ d' (conj a (conj b _)))) :=
                            ensure_period_spec n d in
                          ex_intro _ o (ex_intro _ d' (conj a b))) db2)
    as (db3 & Hper & Hs3).
  exists lm, db3. split; [| split].
  - unfold views._ensure_reference_data.
    rewrite (bind_return _ _ _ _ _ He), (bind_return _ _ _ _ _ Hsem),
      (bind_return _ _ _ _ _ Hper). reflexivity.
  - eapply same_records_trans; [| eassumption].
    eapply same_records_trans; eassumption.
  - exact Hget.
Qed.

Lemma evaluable_length (subjects : list Subject.t) :
  (0 <? Z.of_nat (List.length subjects)) = evaluable subjects.
Proof. destruct subjects; reflexivity. Qed.

Lemma scores_of_same st subs db db' :
  same_records db db' -> scores_of st subs db' = scores_of st subs db.
Proof. intros (_ & H & _). unfold scores_of. now rewrite H. Qed.

Lemma next_semester_spec {A : Type} (K : Semester.t -> A) n db :
  exists db',
    (found <- views.query (fun db0 =>
                find (fun s => Semester.number s =? n) (Semester_objects db0)) ;;
     next_sem <- match found with
                 | Some s => ret s
                 | None => views.create_semester n
                 end ;;
     ret (K next_sem)) db = Return (K (Semester.mk n), db')
    /\ same_records db db' /\ In (Semester.mk n) (Semester_objects db').
Proof.
  unfold bind, views.query, ret, views.create_semester.
  destruct (find _ (Semester_objects db)) as [obj |] eqn:Hf.
  - apply find_some in Hf as [Hin Hn]. apply Z.eqb_eq in Hn.
    destruct obj as [k]. simpl in Hn. subst k.
    exists db. split; [reflexivity |]. split; [apply same_records_refl | exact Hin].
  - eexists. split; [reflexivity |]. simpl. split.
    + repeat split; simpl; auto; try apply incl_refl. now apply incl_appl, incl_refl.
    + apply in_or_app. right. now left.
Qed.

Lemma next_period_spec {A : Type} (K : CoursePeriod.t -> A) n db :
  exists db',
    (found <- views.query (fun db0 =>
                find (fun p => CoursePeriod.number p =? n) (CoursePeriod_objects db0)) ;;
     next_period <- match found with
                    | Some p => ret p
                    | None => views.create_period n
                    end ;;
     ret (K next_period)) db = Return (K (CoursePeriod.mk n), db')
    /\ same_records db db' /\ In (CoursePeriod.mk n) (CoursePeriod_objects db').
Proof.
  unfold bind, views.query, ret, views.create_period.
  destruct (find _ (CoursePeriod_objects db)) as [obj |] eqn:Hf.
  - apply find_some in Hf as [Hin Hn]. apply Z.eqb_eq in Hn.
    destruct obj as [k]. simpl in Hn. subst k.
    exists db. split; [reflexivity |]. split; [apply same_records_refl | exact Hin].
  - eexists. split; [reflexivity |]. simpl. split.
    + repeat split; simpl; auto; try apply incl_refl. now apply incl_appl, incl_refl.
    + apply in_or_app. right. now left.
Qed.

Lemma auto_promote_flow st db :
  Student.is_graduated st = false -> promotion_flow st db.
Proof.
  intros Hg. unfold promotion_flow, views._auto_promote_student. rewrite Hg.
  destruct (ensure_reference_data_spec db) as (lm & db1 & He & Hs & Hget).
  rewrite (bind_return _ _ _ _ _ He).
  fold (own_or_class_level st). fold (latest_semester st). fold (latest_period st).
  exists db1. split; [exact Hs |].
  unfold resolved_subjects, current_ordinal, ceiling, effective_level_code.
  pattern (own_or_class_level st).
  match goal with |- ?P _ => assert (Hlevel : forall l, P (Some l)) end.
  { intros l. cbv beta iota. unfold upper, middle_or_lower.
    pose proof Hs as (Hsub & Hsco & _ & _).
    destruct (String.eqb (StudyLevel.code l) "") eqn:E0.
    { apply String.eqb_eq in E0. rewrite E0. reflexivity. }
    destruct (String.eqb (StudyLevel.code l) "aali") eqn:E1.
    - destruct (latest_semester st) as [sem |]; [| reflexivity].
      name_run st db1 run Hrun. step_query Hrun.
      change (level_or_null l) with (subject_applies (StudyLevel.code l)) in Hrun.
      rewrite Hsub, evaluable_length in Hrun.
      set (subs := order_by_id _) in *.
      destruct (evaluable subs); [| exact Hrun].
      step_query Hrun.
      rewrite (scores_of_same _ _ _ _ Hs) in Hrun. unfold scores_ok.
      destruct (Datatypes.length (scores_of st subs db) <? Datatypes.length subs)%nat;
        [exact Hrun |].
      destruct (existsb score_isnull (scores_of st subs db)); [exact Hrun |].
      destruct (existsb (score_lt 50) (scores_of st subs db)); [exact Hrun |].
      cbv beta iota delta [negb andb option_map] in Hrun |- *.
      rewrite Z.geb_leb in Hrun.
      destruct (4 <=? Semester.number sem); [exact Hrun |].
      destruct (next_semester_spec
                  (fun next_sem => (Some (msg_semester (Semester.number sem + 1)),
                                    Student.set_is_graduated false
                                      (Student.set_semesters [next_sem] st)))
                  (Semester.number sem + 1) db1) as (db2 & Heq & Hs2 & Hin).
      exists db2. split; [eapply same_records_trans; eassumption |].
      split; [rewrite Hrun; exact Heq | exact Hin].
    - destruct (String.eqb (StudyLevel.code l) "moteseta"
                || String.eqb (StudyLevel.code l) "ebtedai")%bool eqn:E2; [| reflexivity].
      destruct (latest_period st) as [per |]; [| reflexivity].
      name_run st db1 run Hrun. step_query Hrun.
      change (level_or_null l) with (subject_applies (StudyLevel.code l)) in Hrun.
      rewrite Hsub, evaluable_length in Hrun.
      set (subs := order_by_id _) in *.
      destruct (evaluable subs); [| exact Hrun].
      step_query Hrun.
      rewrite (scores_of_same _ _ _ _ Hs) in Hrun. unfold scores_ok.
      destruct (Datatypes.length (scores_of st subs db) <? Datatypes.length subs)%nat;
        [exact Hrun |].
      destruct (existsb score_isnull (scores_of st subs db)); [exact Hrun |].
      destruct (existsb (score_lt 50) (scores_of st subs db)); [exact Hrun |].
      cbv beta iota delta [negb andb option_map] in Hrun |- *.
      rewrite Z.geb_leb in Hrun.
      destruct (6 <=? CoursePeriod.number per); [exact Hrun |].
      destruct (next_period_spec
                  (fun next_period => (Some (msg_period (CoursePeriod.number per + 1)),
                                       Student.set_is_graduated false
                                         (Student.set_periods [next_period] st)))
                  (CoursePeriod.number per + 1) db1) as (db2 & Heq & Hs2 & Hin).
      exists db2. split; [eapply same_records_trans; eassumption |].
      split; [rewrite Hrun; exact Heq | exact Hin]. }
  cbv beta. destruct (own_or_class_level st) as [l |]; [exact (Hlevel l) |].
  destruct (Hget "aali"%string) as ([ca na] & Ha & Hca); [simpl; auto |].
  destruct (Hget "moteseta"%string) as ([cm nm] & Hm & Hcm); [simpl; auto |].
  simpl in Hca, Hcm. subst ca cm. rewrite Ha, Hm.
  destruct (latest_semester st) as [sem |] eqn:Esem;
    destruct (latest_period st) as [per |] eqn:Eper.
  - pose proof (Hlevel (StudyLevel.mk "moteseta" nm)) as H. cbv beta in H. exact H.
  - pose proof (Hlevel (StudyLevel.mk "aali" na)) as H. cbv beta in H. exact H.
  - pose proof (Hlevel (StudyLevel.mk "moteseta" nm)) as H. cbv beta in H. exact H.
  - reflexivity.
Qed.

(** ** Progression: counting the score records *)

Lemma insert_by_id_perm s qs : Permutation (insert_by_id s qs) (s :: qs).
Proof.
  induction qs as [| x rest IH]; simpl.
  - apply Permutation_refl.
  - destruct (Subject.id s <=? Subject.id x).
    + apply Permutation_refl.
    + eapply perm_trans; [apply perm_skip, IH | apply perm_swap].
Qed.

Lemma order_by_id_perm qs : Permutation (order_by_id qs) qs.
Proof.
  induction qs as [| x rest IH]; simpl.
  - apply perm_nil.
  - eapply perm_trans; [apply insert_by_id_perm | now apply perm_skip].
Qed.

(** Filtering rows keeps their keys distinct. *)
Lemma filter_keeps_keys_distinct {R K : Type} (key : R -> K) (keep : R -> bool)
      (rows : list R) (Hkeys : NoDup (map key rows)) :
  NoDup (map key (filter keep rows)).
Proof.
  induction rows as [| x rest IH]; simpl in *; [constructor |].
  apply NoDup_cons_iff in Hkeys as [Hfresh Hrest].
  destruct (keep x); simpl; [| now apply IH].
  apply NoDup_cons; [| now apply IH].
  rewrite in_map_iff. intros (y & Hy & Hin). apply Hfresh.
  rewrite in_map_iff. exists y. split; [exact Hy |].
  apply filter_In in Hin. tauto.
Qed.

Lemma resolved_subjects_unique st db :
  subject_ids_unique db -> NoDup (map Subject.id (resolved_subjects st db)).
Proof.
  intros Hu. unfold resolved_subjects.
  assert (Hf : forall p q, NoDup (map Subject.id
                 (order_by_id (filter p (filter q (Subject_objects db)))))).
  { intros p q. eapply Permutation_NoDup.
    - apply Permutation_map, Permutation_sym, order_by_id_perm.
    - now apply filter_keeps_keys_distinct, filter_keeps_keys_distinct. }
  destruct (upper _); [destruct (latest_semester st); [apply Hf | constructor] |].
  destruct (middle_or_lower _); [destruct (latest_period st); [apply Hf | constructor] |].
  constructor.
Qed.

Lemma in_scores_of st subs db r :
  In r (scores_of st subs db) <->
  In r (StudentScore_objects db) /\ StudentScore.student r = Student.id st
  /\ exists s, In s subs /\ Subject.id s = StudentScore.subject r.
Proof.
  unfold scores_of. rewrite filter_In, andb_true_iff, Z.eqb_eq, existsb_exists.
  split.
  - intros (Hin & Hst & s & Hs & He). apply Z.eqb_eq in He. eauto 6.
  - intros (Hin & Hst & s & Hs & He). repeat split; auto.
    exists s. split; [exact Hs | now apply Z.eqb_eq].
Qed.

Lemma in_records db st s r :
  In r (records db st s) <->
  In r (StudentScore_objects db) /\ StudentScore.student r = Student.id st
  /\ StudentScore.subject r = Subject.id s.
Proof.
  unfold records. rewrite filter_In, andb_true_iff, !Z.eqb_eq. tauto.
Qed.

Lemma passed_spec db st s :
  passed db st s = true <->
  records db st s <> [] /\ forall r, In r (records db st s) -> score_passing r = true.
Proof.
  unfold passed. destruct (records db st s) as [| r0 rs] eqn:Hr.
  - split; [discriminate | intros [H _]; now elim H].
  - rewrite forallb_forall. split.
    + intros H. split; [discriminate | exact H].
    + intros [_ H]. exact H.
Qed.

(** The score records of one learner are records of distinct subjects. *)
Lemma subjects_of_student_unique (l : list StudentScore.t) (c : Z)
      (q : StudentScore.t -> bool) :
  NoDup (map score_key l) ->
  (forall r, q r = true -> StudentScore.student r = c) ->
  NoDup (map StudentScore.subject (filter q l)).
Proof.
  intros Hnd Hq. induction l as [| x rest IH]; simpl.
  - constructor.
  - inversion Hnd as [| ? ? Hnin Hnd']; subst.
    destruct (q x) eqn:Hx; [| now apply IH].
    simpl. constructor; [| now apply IH].
    intros Hin. apply in_map_iff in Hin as (r & Hsub & Hr).
    apply filter_In in Hr as [Hr Hqr].
    apply Hnin. apply in_map_iff. exists r. split; [| exact Hr].
    unfold score_key. now rewrite Hsub, (Hq r Hqr), (Hq x Hx).
Qed.

(** When every subject due is passed, the test of the scores succeeds. *)
Lemma scores_ok_when_all_passed db st subs :
  NoDup (map Subject.id subs) ->
  (forall s, In s subs -> passed db st s = true) ->
  scores_ok db st subs = true.
Proof.
  intros Hnd Hall. unfold scores_ok.
  assert (Hpass : forall r, In r (scores_of st subs db) -> score_passing r = true).
  { intros r Hr. apply in_scores_of in Hr as (Hin & Hst & s & Hs & He).
    apply (proj1 (passed_spec db st s) (Hall s Hs)).
    apply in_records. auto. }
  rewrite !andb_true_iff, !negb_true_iff. repeat split.
  - apply Nat.ltb_ge.
    rewrite <- (length_map Subject.id subs),
            <- (length_map StudentScore.subject (scores_of st subs db)).
    apply NoDup_incl_length; [exact Hnd |].
    intros k Hk. apply in_map_iff in Hk as (s & <- & Hs).
    destruct (proj1 (passed_spec db st s) (Hall s Hs)) as [Hne _].
    destruct (records db st s) as [| r rs] eqn:Hr; [now elim Hne |].
    assert (Hin : In r (records db st s)) by (rewrite Hr; now left).
    apply in_records in Hin as (Hin & Hst & Hsub).
    apply in_map_iff. exists r. split; [exact Hsub |].
    apply in_scores_of. eauto 6.
  - apply not_true_is_false. intros Hex.
    apply existsb_exists in Hex as (r & Hr & Hnull).
    apply Hpass in Hr. unfold score_passing in Hr. unfold score_isnull in Hnull.
    destruct (StudentScore.score r); discriminate.
  - apply not_true_is_false. intros Hex.
    apply existsb_exists in Hex as (r & Hr & Hlt).
    apply Hpass in Hr. unfold score_passing in Hr. unfold score_lt in Hlt.
    destruct (StudentScore.score r) as [v |]; [| discriminate].
    apply Z.leb_le in Hr. apply Z.ltb_lt in Hlt. lia.
Qed.

(** When a subject due is not passed, the test of the scores fails. *)
Lemma scores_not_ok_when_one_failed db st subs s :
  scores_unique db ->
  In s subs -> passed db st s = false ->
  scores_ok db st subs = false.
Proof.
  intros Hu Hs Hp. unfold scores_ok.
  destruct (Nat.ltb (List.length (scores_of st subs db)) (List.length subs)) eqn:Hlen;
    [reflexivity |].
  destruct (existsb score_isnull (scores_of st subs db)) eqn:Hnull; [reflexivity |].
  destruct (existsb (score_lt 50) (scores_of st subs db)) eqn:Hlt; [reflexivity |].
  exfalso. apply Nat.ltb_ge in Hlen.
  assert (Hqs : forall r, In r (scores_of st subs db) -> score_passing r = true).
  { intros r Hr.
    assert (H1 : score_isnull r = false).
    { destruct (score_isnull r) eqn:E; [| reflexivity].
      assert (existsb score_isnull (scores_of st subs db) = true)
        by (apply existsb_exists; eauto). congruence. }
    assert (H2 : score_lt 50 r = false).
    { destruct (score_lt 50 r) eqn:E; [| reflexivity].
      assert (existsb (score_lt 50) (scores_of st subs db) = true)
        by (apply existsb_exists; eauto). congruence. }
    unfold score_isnull in H1. unfold score_lt in H2. unfold score_passing.
    destruct (StudentScore.score r) as [v |]; [| discriminate].
    apply Z.ltb_ge in H2. now apply Z.leb_le. }
  assert (Hnone : records db st s = []).
  { destruct (records db st s) as [| r0 rs] eqn:Hr; [reflexivity |].
    assert (Hall : forall r, In r (records db st s) -> score_passing r = true).
    { intros r Hin. apply Hqs. apply in_records in Hin as (Hin & Hst & Hsub).
      apply in_scores_of. eauto 6. }
    assert (passed db st s = true)
      by (apply passed_spec; split; [rewrite Hr; discriminate | exact Hall]).
    congruence. }
  (* the keys of the records counted are distinct subjects other than [s] *)
  assert (Hnd : NoDup (Subject.id s :: map StudentScore.subject (scores_of st subs db))).
  { constructor.
    - intros Hin. apply in_map_iff in Hin as (r & Hsub & Hr).
      apply in_scores_of in Hr as (Hin & Hst & _).
      assert (Hrec : In r (records db st s)) by (apply in_records; auto).
      rewrite Hnone in Hrec. exact Hrec.
    - apply (subjects_of_student_unique _ (Student.id st)); [exact Hu |].
      intros r Hq. apply andb_true_iff in Hq as [Hq _]. now apply Z.eqb_eq. }
  assert (Hincl : incl (Subject.id s :: map StudentScore.subject (scores_of st subs db))
                       (map Subject.id subs)).
  { intros k [<- | Hk]; [now apply in_map |].
    apply in_map_iff in Hk as (r & <- & Hr).
    apply in_scores_of in Hr as (_ & _ & s' & Hs' & <-). now apply in_map. }
  pose proof (NoDup_incl_length Hnd Hincl) as Hle.
  simpl in Hle. rewrite !length_map in Hle. lia.
Qed.

(** ** Progression: the outcomes *)

Lemma evaluable_nonempty (subs : list Subject.t) : subs <> [] -> evaluable subs = true.
Proof. destruct subs; [intros H; now elim H | reflexivity]. Qed.

Lemma forallb_passed db st subs :
  forallb (passed db st) subs = true -> forall s, In s subs -> passed db st s = true.
Proof. intros H. now apply forallb_forall. Qed.

Lemma forallb_not_passed db st subs :
  forallb (passed db st) subs = false -> exists s, In s subs /\ passed db st s = false.
Proof.
  induction subs as [| x rest IH]; simpl; [discriminate |].
  destruct (passed db st x) eqn:Hx; simpl.
  - intros H. destruct (IH H) as (s & Hs & Hp). exists s. auto.
  - intros _. exists x. auto.
Qed.

Lemma graduated_is_left_alone st db :
  Student.is_graduated st = true ->
  views._auto_promote_student st db = Return ((None, st), db).
Proof. intros Hg. unfold views._auto_promote_student. now rewrite Hg. Qed.

(** ** C4: held unless every subject due is passed *)

(** C4. For every learner whose subjects due this term are not none (so level
    and marker are determined): when a subject due has no score record, or an
    ungraded one, or a score below 50, the evaluation returns no message and
    leaves the learner (markers and graduated flag) and the subjects and
    scores as they were; and a learner not yet graduated whose subjects due
    all have a score of 50 or more is not held: 50 is the first passing
    score. *)
Theorem held_unless_all_passed st db :
  subject_ids_unique db -> scores_unique db ->
  resolved_subjects st db <> [] ->
  (forallb (passed db st) (resolved_subjects st db) = false ->
     exists db',
       views._auto_promote_student st db = Return ((None, st), db')
       /\ same_records db db')
  /\
  (Student.is_graduated st = false ->
   forallb (passed db st) (resolved_subjects st db) = true ->
     exists msg st' db',
       views._auto_promote_student st db = Return ((Some msg, st'), db')).
Proof.
  intros Hids Hkeys Hne. split.
  - intros Hfail.
    destruct (Student.is_graduated st) eqn:Hg.
    { exists db. split; [now apply graduated_is_left_alone | apply same_records_refl]. }
    destruct (forallb_not_passed _ _ _ Hfail) as (s & Hs & Hp).
    destruct (auto_promote_flow st db Hg) as (db1 & Hsame & Hflow). cbv zeta in Hflow.
    rewrite (scores_not_ok_when_one_failed db st _ s Hkeys Hs Hp), andb_false_r in Hflow.
    exists db1. auto.
  - intros Hg Hpass.
    destruct (auto_promote_flow st db Hg) as (db1 & Hsame & Hflow). cbv zeta in Hflow.
    rewrite (evaluable_nonempty _ Hne) in Hflow.
    rewrite (scores_ok_when_all_passed db st _ (resolved_subjects_unique st db Hids)
               (forallb_passed _ _ _ Hpass)) in Hflow.
    simpl in Hflow.
    destruct (current_ordinal st) as [n |]; [| contradiction].
    destruct (ceiling st <=? n); [eauto |].
    destruct Hflow as (db2 & _ & Hflow).
    destruct (upper (effective_level_code st)); destruct Hflow as [Hrun _]; eauto.
Qed.

(** ** C5: graduation at the last term *)

(** C5 as it stands fails: for a learner of the middle level at Period 6, when
    the catalogue has no subject of that level (or of no level) for Period 6,
    every subject due has a passing score, there being none, and the learner
    is not graduated. *)
Lemma no_graduation_without_subjects :
  let st := learner (Some moteseta) false [] [6] in
  let db := sample_db 50 in
  current_ordinal st = Some 6 /\ ceiling st = 6
  /\ forallb (passed db st) (resolved_subjects st db) = true
  /\ returned (views._auto_promote_student st db) = Some (None, st)
  /\ Student.is_graduated st = false.
Proof. repeat split; reflexivity. Qed.

(** C5 (amended). For every learner not yet graduated whose subjects due are
    not none and all have a score of 50 or more, and whose current ordinal has
    reached the last one of the level (4 for the upper level, 6 for the middle
    and lower ones): the evaluation returns the graduation message and sets
    the graduated flag, and changes nothing else of the learner: the term
    markers stay. *)
Theorem graduates_at_ceiling st db n :
  subject_ids_unique db ->
  Student.is_graduated st = false ->
  resolved_subjects st db <> [] ->
  forallb (passed db st) (resolved_subjects st db) = true ->
  current_ordinal st = Some n -> ceiling st <= n ->
  exists db',
    views._auto_promote_student st db =
    Return ((Some msg_graduated, Student.set_is_graduated true st), db')
    /\ same_records db db'.
Proof.
  intros Hids Hg Hne Hpass Hn Hceil.
  destruct (auto_promote_flow st db Hg) as (db1 & Hsame & Hflow). cbv zeta in Hflow.
  rewrite (evaluable_nonempty _ Hne) in Hflow.
  rewrite (scores_ok_when_all_passed db st _ (resolved_subjects_unique st db Hids)
             (forallb_passed _ _ _ Hpass)) in Hflow.
  simpl in Hflow. rewrite Hn in Hflow.
  replace (ceiling st <=? n) with true in Hflow by (symmetry; now apply Z.leb_le).
  exists db1. auto.
Qed.

(** ** C6: advancing to the next term *)

(** C6 as it stands fails: a learner already marked graduated, at Semester 2
    of the upper level with every subject due passed, is left at Semester
    2. *)
Lemma no_advance_once_graduated :
  let st := learner (Some aali) true [2] [] in
  let db := sample_db 50 in
  current_ordinal st = Some 2 /\ ceiling st = 4
  /\ resolved_subjects st db <> []
  /\ forallb (passed db st) (resolved_subjects st db) = true
  /\ returned (views._auto_promote_student st db) = Some (None, st)
  /\ Student.semesters st = [Semester.mk 2].
Proof. repeat split; try reflexivity. discriminate. Qed.

(** C6 (amended). For every learner not yet graduated whose subjects due are
    not none and all have a score of 50 or more, and whose current ordinal [n]
    is below the last one of the level: the evaluation returns the message of
    the promotion to [n + 1]; the semester (upper level) or period (middle and
    lower level) of ordinal [n + 1] is in its table afterwards, created if it
    was not there, and it is the learner's only marker of that kind; the
    graduated flag is false. *)
Theorem advances_below_ceiling st db n :
  subject_ids_unique db ->
  Student.is_graduated st = false ->
  resolved_subjects st db <> [] ->
  forallb (passed db st) (resolved_subjects st db) = true ->
  current_ordinal st = Some n -> n < ceiling st ->
  exists db',
    same_records db db'
    /\ if upper (effective_level_code st) then
         views._auto_promote_student st db =
         Return ((Some (msg_semester (n + 1)),
                  Student.set_is_graduated false
                    (Student.set_semesters [Semester.mk (n + 1)] st)), db')
         /\ In (Semester.mk (n + 1)) (Semester_objects db')
       else
         views._auto_promote_student st db =
         Return ((Some (msg_period (n + 1)),
                  Student.set_is_graduated false
                    (Student.set_periods [CoursePeriod.mk (n + 1)] st)), db')
         /\ In (CoursePeriod.mk (n + 1)) (CoursePeriod_objects db').
Proof.
  intros Hids Hg Hne Hpass Hn Hceil.
  destruct (auto_promote_flow st db Hg) as (db1 & Hsame & Hflow). cbv zeta in Hflow.
  rewrite (evaluable_nonempty _ Hne) in Hflow.
  rewrite (scores_ok_when_all_passed db st _ (resolved_subjects_unique st db Hids)
             (forallb_passed _ _ _ Hpass)) in Hflow.
  simpl in Hflow. rewrite Hn in Hflow.
  replace (ceiling st <=? n) with false in Hflow by (symmetry; apply Z.leb_gt; lia).
  exact Hflow.
Qed.

(** ** C2: a learner without a level *)

(** C2 as it stands fails: a learner with no level of its own and no class
    group, holding Semester 2, is taken for a learner of the upper level,
    evaluated, and promoted to Semester 3. *)
Lemma level_is_read_off_the_markers :
  let st := learner None false [2] [] in
  own_or_class_level st = None
  /\ returned (views._auto_promote_student st (sample_db 50))
     = Some (Some (msg_semester 3), learner None false [3] []).
Proof. split; reflexivity. Qed.

(** C2 (amended). For every learner with no level of its own and none from
    its class group, and with no semester and no period marker either, of its
    own or of its class group: the evaluation returns no message and leaves
    the learner, the subjects and the scores as they were. *)
Theorem undetermined_without_level_and_marker st db :
  own_or_class_level st = None ->
  latest_semester st = None -> latest_period st = None ->
  exists db',
    views._auto_promote_student st db = Return ((None, st), db')
    /\ same_records db db'.
Proof.
  intros Hl Hsem Hper.
  destruct (Student.is_graduated st) eqn:Hg.
  { exists db. split; [now apply graduated_is_left_alone | apply same_records_refl]. }
  destruct (auto_promote_flow st db Hg) as (db1 & Hsame & Hflow). cbv zeta in Hflow.
  assert (Hsubs : resolved_subjects st db = []).
  { unfold resolved_subjects, effective_level_code. rewrite Hl, Hsem, Hper. reflexivity. }
  rewrite Hsubs in Hflow. simpl in Hflow. exists db1. auto.
Qed.

(** ** C1: a period marker on a learner of the upper level *)

(** C1 as it stands fails: nothing is raised for a learner of the upper level
    with a Period marker; the evaluation returns, with no message when the
    learner has no semester, and with the promotion when it has one. *)
Lemma period_on_upper_level_raises_nothing :
  raises (views._auto_promote_student (learner (Some aali) false [] [3]) (sample_db 50))
  = false
  /\ returned (views._auto_promote_student (learner (Some aali) false [] [3]) (sample_db 50))
  = Some (None, learner (Some aali) false [] [3])
  /\ returned (views._auto_promote_student (learner (Some aali) false [2] [3]) (sample_db 50))
     = Some (Some (msg_semester 3), learner (Some aali) false [3] [3]).
Proof. repeat split; reflexivity. Qed.

(** C1 (amended). For every learner whose level, its own or its class
    group's, is the upper one, whatever Period markers it holds: the
    evaluation raises nothing; it returns an outcome and leaves the Period
    markers as they are, and when the learner has no semester marker the
    outcome is no message and no change. *)
Theorem upper_level_ignores_period_marker st db l :
  own_or_class_level st = Some l -> StudyLevel.code l = "aali"%string ->
  exists msg st' db',
    views._auto_promote_student st db = Return ((msg, st'), db')
    /\ Student.periods st' = Student.periods st
    /\ (latest_semester st = None -> msg = None /\ st' = st).
Proof.
  intros Hl Hcode.
  destruct (Student.is_graduated st) eqn:Hg.
  { exists None, st, db. split; [now apply graduated_is_left_alone | auto]. }
  destruct (auto_promote_flow st db Hg) as (db1 & Hsame & Hflow). cbv zeta in Hflow.
  assert (Hc : effective_level_code st = "aali"%string)
    by (unfold effective_level_code; now rewrite Hl).
  assert (Hsubs : latest_semester st = None -> resolved_subjects st db = []).
  { intros Hsem. unfold resolved_subjects. rewrite Hc, Hsem. reflexivity. }
  destruct (evaluable (resolved_subjects st db) && scores_ok db st (resolved_subjects st db))
    eqn:Hev.
  - assert (Hsem : latest_semester st <> None).
    { intros Hsem. rewrite (Hsubs Hsem) in Hev. discriminate. }
    destruct (current_ordinal st) as [n |]; [| contradiction].
    destruct (ceiling st <=? n).
    + exists (Some msg_graduated), (Student.set_is_graduated true st), db1.
      split; [exact Hflow |]. split; [reflexivity | intros H; now elim Hsem].
    + destruct Hflow as (db2 & _ & Hflow). rewrite Hc in Hflow. simpl in Hflow.
      destruct Hflow as [Hrun _].
      eexists _, _, db2. split; [exact Hrun |].
      split; [reflexivity | intros H; now elim Hsem].
  - exists None, st, db1. auto.
Qed.

(** ** C7: the crossover from the lower to the middle level *)

(** A learner of the lower level at Period 6 whose subjects due are not none
    and are all passed is eligible for the crossover. *)
Lemma eligible_at_period_6 st db l :
  subject_ids_unique db ->
  own_or_class_level st = Some l -> StudyLevel.code l = "ebtedai"%string ->
  current_ordinal st = Some 6 ->
  resolved_subjects st db <> [] ->
  forallb (passed db st) (resolved_subjects st db) = true ->
  is_eligible_for_crossover st db = true.
Proof.
  intros Hids Hl Hcode Hn Hne Hpass.
  pose proof (scores_ok_when_all_passed db st _ (resolved_subjects_unique st db Hids)
                (forallb_passed _ _ _ Hpass)) as Hok.
  pose proof (evaluable_nonempty _ Hne) as Hev.
  unfold current_ordinal, resolved_subjects, effective_level_code in *.
  rewrite Hl, Hcode in *. simpl in Hn, Hev, Hok.
  unfold is_eligible_for_crossover, views._can_graduate_ebtedai.
  destruct (ensure_reference_data_spec db) as (lm & db1 & He & Hs & _).
  rewrite (bind_return _ _ _ _ _ He).
  fold (own_or_class_level st). fold (latest_period st).
  rewrite Hl, Hcode, String.eqb_refl. cbv beta iota delta [negb].
  destruct (latest_period st) as [per |]; [| discriminate].
  simpl in Hn. injection Hn as Hn. rewrite Hn, Z.eqb_refl. cbv beta iota delta [negb].
  unfold bind at 1. unfold views.query at 1. cbv beta iota.
  pose proof Hs as (Hsub & _).
  change (level_or_null l) with (subject_applies (StudyLevel.code l)).
  rewrite Hsub, Hcode, evaluable_length, Hev. cbv beta iota delta [negb].
  unfold bind at 1. unfold views.query at 1. cbv beta iota.
  rewrite (scores_of_same _ _ _ _ Hs).
  unfold scores_ok in Hok. rewrite !andb_true_iff, !negb_true_iff in Hok.
  destruct Hok as [[H1 H2] H3]. rewrite H1, H2, H3. reflexivity.
Qed.

(** C7. For every learner the crossover query finds eligible (a learner of
    the lower level at Period 6 with every subject due passed), the crossover
    answers with its success message and leaves the learner with the middle
    level, not graduated, with Period 1 as its only period marker, no semester
    marker and no class group; Period 1 is in the table of periods afterwards,
    created if it was not there. *)
Theorem crossover_to_middle_level st db :
  is_eligible_for_crossover st db = true ->
  exists m st' db',
    views.student_promote_to_moteseta st db = Return ((success_promoted, st'), db')
    /\ Student.level st' = Some m /\ StudyLevel.code m = "moteseta"%string
    /\ Student.is_graduated st' = false
    /\ Student.periods st' = [CoursePeriod.mk 1]
    /\ Student.semesters st' = []
    /\ Student.school_class st' = None
    /\ Student.id st' = Student.id st
    /\ In (CoursePeriod.mk 1) (CoursePeriod_objects db').
Proof.
  unfold is_eligible_for_crossover. intros Hel.
  destruct (views._can_graduate_ebtedai st db) as [[[can lp] db1] | e] eqn:Hcan;
    [| discriminate].
  subst can. unfold views.student_promote_to_moteseta.
  rewrite (bind_return _ _ _ _ _ Hcan). cbv beta iota delta [negb].
  destruct (ensure_reference_data_spec db1) as (lm & db2 & He & Hs & Hget).
  rewrite (bind_return _ _ _ _ _ He).
  destruct (Hget "moteseta"%string) as (m & Hm & Hcode); [simpl; auto |].
  rewrite Hm.
  destruct (next_period_spec
              (fun next_period =>
                 (success_promoted,
                  Student.set_semesters []
                    (Student.set_periods [next_period]
                       (Student.set_is_graduated false
                          (Student.set_school_class None
                             (Student.set_level (Some m) st))))))
              1 db2) as (db3 & Heq & _ & Hin).
  eexists m, _, db3. split; [exact Heq |]. repeat split; auto.
Qed.

Lemma crossover_to_middle_level_witness :
  exists m st' db',
    views.student_promote_to_moteseta (learner (Some ebtedai) true [1] [6]) (sample_db 50)
    = Return ((success_promoted, st'), db')
    /\ Student.level st' = Some m /\ StudyLevel.code m = "moteseta"%string
    /\ Student.is_graduated st' = false
    /\ Student.periods st' = [CoursePeriod.mk 1]
    /\ Student.semesters st' = []
    /\ Student.school_class st' = None
    /\ Student.id st' = 7
    /\ In (CoursePeriod.mk 1) (CoursePeriod_objects db').
Proof.
  apply (crossover_to_middle_level (learner (Some ebtedai) true [1] [6]) (sample_db 50)).
  reflexivity.
Defined.

(** ** The theorems at sample data *)

Lemma held_unless_all_passed_witness :
  (exists db',
     views._auto_promote_student (learner (Some aali) false [2] []) (sample_db 49)
     = Return ((None, learner (Some aali) false [2] []), db')
     /\ same_records (sample_db 49) db')
  /\ (exists msg st' db',
        views._auto_promote_student (learner (Some aali) false [2] []) (sample_db 50)
        = Return ((Some msg, st'), db')).
Proof.
  split.
  - apply (proj1 (held_unless_all_passed (learner (Some aali) false [2] []) (sample_db 49)
                    ltac:(unfold subject_ids_unique; simpl; distinct)
                    ltac:(unfold scores_unique; simpl; distinct)
                    ltac:(vm_compute; discriminate))).
    reflexivity.
  - apply (proj2 (held_unless_all_passed (learner (Some aali) false [2] []) (sample_db 50)
                    ltac:(unfold subject_ids_unique; simpl; distinct)
                    ltac:(unfold scores_unique; simpl; distinct)
                    ltac:(vm_compute; discriminate))); reflexivity.
Defined.

Lemma graduates_at_ceiling_witness :
  (exists db',
     views._auto_promote_student (learner (Some ebtedai) false [] [6]) (sample_db 50)
     = Return ((Some msg_graduated, learner (Some ebtedai) true [] [6]), db')
     /\ same_records (sample_db 50) db')
  /\ (exists db',
        views._auto_promote_student (learner (Some aali) false [4] []) (sample_db 50)
        = Return ((Some msg_graduated, learner (Some aali) true [4] []), db')
        /\ same_records (sample_db 50) db').
Proof.
  split.
  - apply (graduates_at_ceiling (learner (Some ebtedai) false [] [6]) (sample_db 50) 6);
      [unfold subject_ids_unique; simpl; distinct | reflexivity | vm_compute; discriminate
      | reflexivity | reflexivity | vm_compute; discriminate].
  - apply (graduates_at_ceiling (learner (Some aali) false [4] []) (sample_db 50) 4);
      [unfold subject_ids_unique; simpl; distinct | reflexivity | vm_compute; discriminate
      | reflexivity | reflexivity | vm_compute; discriminate].
Defined.

Lemma advances_below_ceiling_witness :
  exists db',
    same_records (sample_db 50) db'
    /\ views._auto_promote_student (learner (Some aali) false [2] []) (sample_db 50)
       = Return ((Some (msg_semester 3), learner (Some aali) false [3] []), db')
    /\ In (Semester.mk 3) (Semester_objects db').
Proof.
  apply (advances_below_ceiling (learner (Some aali) false [2] []) (sample_db 50) 2);
    [unfold subject_ids_unique; simpl; distinct | reflexivity | vm_compute; discriminate
    | reflexivity | reflexivity | reflexivity].
Defined.

Lemma undetermined_without_level_and_marker_witness :
  exists db',
    views._auto_promote_student (learner None false [] []) (sample_db 50)
    = Return ((None, learner None false [] []), db')
    /\ same_records (sample_db 50) db'.
Proof.
  apply (undetermined_without_level_and_marker (learner None false [] []) (sample_db 50));
    reflexivity.
Defined.

Lemma upper_level_ignores_period_marker_witness :
  exists msg st' db',
    views._auto_promote_student (learner (Some aali) false [] [3]) (sample_db 50)
    = Return ((msg, st'), db')
    /\ Student.periods st' = [CoursePeriod.mk 3]
    /\ (latest_semester (learner (Some aali) false [] [3]) = None ->
        msg = None /\ st' = learner (Some aali) false [] [3]).
Proof.
  apply (upper_level_ignores_period_marker
           (learner (Some aali) false [] [3]) (sample_db 50) aali); reflexivity.
Defined.

(** ** Digits of the local script *)

Lemma mapping_get_spec ch :
  forms.mapping_get forms.mapping ch ch = if persian_digit ch then ch - 1728 else ch.
Proof.
  unfold forms.mapping, forms.mapping_get, persian_digit.
  repeat match goal with
  | |- context [ ?k =? ch ] =>
      let E := fresh "E" in
      destruct (k =? ch) eqn:E;
      [ apply Z.eqb_eq in E; subst ch; reflexivity | apply Z.eqb_neq in E ]
  end.
  destruct (1776 <=? ch) eqn:H1; destruct (ch <=? 1785) eqn:H2; simpl; try reflexivity.
  apply Z.leb_le in H1, H2. lia.
Qed.

Lemma persian_to_ascii_map (value : str) :
  forms._persian_to_ascii value
  = map (fun ch => if persian_digit ch then ch - 1728 else ch) value.
Proof. unfold forms._persian_to_ascii. apply map_ext. intros ch. apply mapping_get_spec. Qed.

Lemma persian_to_ascii_no_local_digit (value : str) :
  forallb (fun ch => negb (persian_digit ch)) (forms._persian_to_ascii value) = true.
Proof.
  rewrite persian_to_ascii_map. apply forallb_forall. intros c Hc.
  apply in_map_iff in Hc as (ch & <- & _).
  unfold persian_digit. destruct ((1776 <=? ch) && (ch <=? 1785)) eqn:E.
  - apply andb_true_iff in E as [E1 E2]. apply Z.leb_le in E1, E2.
    replace (1776 <=? ch - 1728) with false by (symmetry; apply Z.leb_gt; lia).
    reflexivity.
  - now rewrite E.
Qed.

Lemma persian_to_ascii_again (value : str) :
  forms._persian_to_ascii (forms._persian_to_ascii value) = forms._persian_to_ascii value.
Proof.
  pose proof (persian_to_ascii_no_local_digit value) as Hclean.
  unfold forms._persian_to_ascii at 1.
  rewrite <- (map_id (forms._persian_to_ascii value)) at 2.
  apply map_ext_in. intros c Hc. rewrite mapping_get_spec.
  rewrite forallb_forall in Hclean. specialize (Hclean c Hc).
  now destruct (persian_digit c).
Qed.

(** X1. [_persian_to_ascii] rewrites each digit of the local script
    (U+06F0..U+06F9) into the ASCII digit of the same value and leaves every
    other character, separators included, where and as it is; nothing of the
    local digits is left, so a second pass changes nothing. *)
Theorem persian_to_ascii_spec (value : str) :
  forms._persian_to_ascii value
  = map (fun ch => if persian_digit ch then ch - 1728 else ch) value
  /\ List.length (forms._persian_to_ascii value) = List.length value
  /\ forallb (fun ch => negb (persian_digit ch)) (forms._persian_to_ascii value) = true
  /\ forms._persian_to_ascii (forms._persian_to_ascii value) = forms._persian_to_ascii value.
Proof.
  split; [apply persian_to_ascii_map |].
  split; [unfold forms._persian_to_ascii; apply length_map |].
  split; [apply persian_to_ascii_no_local_digit | apply persian_to_ascii_again].
Qed.

Lemma persian_to_ascii_in_persian_digits (s : str) :
  forms._persian_to_ascii (in_persian_digits s) = forms._persian_to_ascii s.
Proof.
  unfold forms._persian_to_ascii, in_persian_digits. rewrite map_map.
  apply map_ext. intros c. rewrite !mapping_get_spec. unfold persian_digit.
  destruct ((48 <=? c) && (c <=? 57)) eqn:E.
  - apply andb_true_iff in E as [E1 E2]. apply Z.leb_le in E1, E2.
    replace (1776 <=? c + 1728) with true by (symmetry; apply Z.leb_le; lia).
    replace (c + 1728 <=? 1785) with true by (symmetry; apply Z.leb_le; lia).
    replace (1776 <=? c) with false by (symmetry; apply Z.leb_gt; lia).
    simpl. lia.
  - reflexivity.
Qed.

(** X2. A date text is read the same in either script: writing the ASCII
    digits of a text in the local script, or normalizing its digits
    beforehand, does not change what [_parse_birth_date] returns or
    raises. *)
Theorem parse_is_script_independent (int : str -> pyresult Z) (value : str) :
  forms._parse_birth_date int (in_persian_digits value) = forms._parse_birth_date int value
  /\ forms._parse_birth_date int (forms._persian_to_ascii value)
     = forms._parse_birth_date int value.
Proof.
  unfold forms._parse_birth_date.
  rewrite persian_to_ascii_in_persian_digits.
  rewrite persian_to_ascii_again. split; reflexivity.
Qed.

(** ** The text of a date in an editable field *)

Lemma uint_codes_digits u : forallb ascii_digit (uint_codes u) = true.
Proof. induction u; simpl; auto. Qed.

Lemma repeat_zero_digits k : forallb ascii_digit (repeat 48 k) = true.
Proof. induction k; simpl; auto. Qed.

Lemma to_int_nonneg n : 0 <= n -> exists u, Z.to_int n = Decimal.Pos u /\ Z.of_uint u = n.
Proof.
  intros Hn. pose proof (DecimalZ.of_to n) as H.
  destruct n as [| p | p]; [| | lia]; simpl in *; eexists; split; try reflexivity; exact H.
Qed.

Lemma uint_codes_nonempty u : uint_codes u = [] -> u = Decimal.Nil.
Proof. destruct u; simpl; [reflexivity | discriminate ..]. Qed.

(** The text of a number that is not negative is one digit at least, and
    digits only. *)
Lemma format_0d_digits width n :
  0 <= n -> format_0d width n <> [] /\ forallb ascii_digit (format_0d width n) = true.
Proof.
  intros Hn. unfold format_0d.
  destruct (to_int_nonneg n Hn) as (u & E & Hu). rewrite E. split.
  - intros H. apply app_eq_nil in H as [_ H]. apply uint_codes_nonempty in H. subst u.
    simpl in Hu. subst n. discriminate E.
  - rewrite forallb_app, repeat_zero_digits, uint_codes_digits. reflexivity.
Qed.

Lemma digits_value_app a b acc :
  digits_value acc (a ++ b) =
  match digits_value acc a with
  | Some v => digits_value v b
  | None => None
  end.
Proof.
  revert acc. induction a as [| c a IH]; intros acc; simpl; [reflexivity |].
  destruct ((48 <=? c) && (c <=? 57)); [apply IH | reflexivity].
Qed.

Lemma digits_value_zeros k : digits_value 0 (repeat 48 k) = Some 0.
Proof. induction k; simpl; auto. Qed.

Lemma digits_value_step acc c s :
  48 <= c <= 57 -> digits_value acc (c :: s) = digits_value (10 * acc + (c - 48)) s.
Proof.
  intros H. cbn [digits_value].
  replace (48 <=? c) with true by (symmetry; apply Z.leb_le; lia).
  replace (c <=? 57) with true by (symmetry; apply Z.leb_le; lia). reflexivity.
Qed.

Lemma digits_value_uint_acc u : forall p,
  digits_value (Zpos p) (uint_codes u) = Some (Zpos (Pos.of_uint_acc u p)).
Proof.
  induction u; intros p; [reflexivity | ..];
    cbn [uint_codes Pos.of_uint_acc]; rewrite digits_value_step by lia;
    rewrite <- IHu; f_equal; lia.
Qed.

Lemma digits_value_uint u : digits_value 0 (uint_codes u) = Some (Z.of_uint u).
Proof.
  unfold Z.of_uint.
  induction u; [reflexivity | ..];
    cbn [uint_codes Pos.of_uint]; rewrite digits_value_step by lia;
    [exact IHu | ..]; cbn [Z.of_N]; rewrite <- digits_value_uint_acc; reflexivity.
Qed.

Lemma int_ascii_digits s :
  s <> [] -> forallb ascii_digit s = true ->
  int_ascii s = match digits_value 0 s with
                | Some v => Return v
                | None => Raise "ValueError"%string
                end.
Proof.
  destruct s as [| c s]; [intros H; now elim H |]. intros _ Hd. simpl in Hd.
  apply andb_true_iff in Hd as [Hc _]. unfold ascii_digit in Hc.
  apply andb_true_iff in Hc as [H1 H2]. apply Z.leb_le in H1, H2.
  unfold int_ascii.
  replace (c =? 43) with false by (symmetry; apply Z.eqb_neq; lia).
  replace (c =? 45) with false by (symmetry; apply Z.eqb_neq; lia).
  reflexivity.
Qed.

(** The reader of decimal digits reads what [format_0d] writes. *)
Lemma int_ascii_reads_decimals : reads_decimals int_ascii.
Proof.
  intros width n Hn.
  destruct (format_0d_digits width n Hn) as [Hne Hd].
  rewrite (int_ascii_digits _ Hne Hd). unfold format_0d.
  destruct (to_int_nonneg n Hn) as (u & -> & Hu).
  rewrite digits_value_app, digits_value_zeros, digits_value_uint, Hu. reflexivity.
Qed.

Lemma split_piece sep a rest :
  ~ In sep a -> split sep (a ++ sep :: rest) = a :: split sep rest.
Proof.
  induction a as [| x a IH]; intros Hn; simpl.
  - now rewrite Z.eqb_refl.
  - replace (x =? sep) with false by (symmetry; apply Z.eqb_neq; intros ->; apply Hn; now left).
    rewrite IH; [reflexivity | intros H; apply Hn; now right].
Qed.

Lemma split_last sep a : ~ In sep a -> split sep a = [a].
Proof.
  induction a as [| x a IH]; intros Hn; simpl; [reflexivity |].
  replace (x =? sep) with false by (symmetry; apply Z.eqb_neq; intros ->; apply Hn; now left).
  rewrite IH; [reflexivity | intros H; apply Hn; now right].
Qed.

Lemma digits_no_char c s :
  ascii_digit c = false -> forallb ascii_digit s = true -> ~ In c s.
Proof.
  intros Hc Hs Hin. rewrite forallb_forall in Hs. specialize (Hs c Hin). congruence.
Qed.

Lemma lstrip_keeps s :
  match s with [] => True | c :: _ => isspace c = false end -> lstrip s = s.
Proof. destruct s as [| c s]; [reflexivity |]. simpl. now intros ->. Qed.

(** A text of three groups of digits between slashes is read into these three
    groups. *)
Lemma components_of_date_text a b c :
  a <> [] -> b <> [] -> c <> [] ->
  forallb ascii_digit a = true -> forallb ascii_digit b = true ->
  forallb ascii_digit c = true ->
  let text := a ++ [47] ++ b ++ [47] ++ c in
  strip (forms._persian_to_ascii text) = text /\ forms.components text = [a; b; c].
Proof.
  intros Ha Hb Hc Da Db Dc text.
  assert (Hall : forall x, In x text -> ascii_digit x = true \/ x = 47).
  { intros x Hx. unfold text in Hx. rewrite !in_app_iff in Hx. simpl in Hx.
    rewrite forallb_forall in Da, Db, Dc.
    destruct Hx as [H | [[H | []] | [H | [[H | []] | H]]]]; auto. }
  assert (Hnorm : forms._persian_to_ascii text = text).
  { rewrite persian_to_ascii_map.
    rewrite <- (map_id text) at 2. apply map_ext_in. intros x Hx.
    unfold persian_digit. destruct (Hall x Hx) as [H | ->]; [| reflexivity].
    unfold ascii_digit in H. apply andb_true_iff in H as [H1 H2]. apply Z.leb_le in H1, H2.
    replace (1776 <=? x) with false by (symmetry; apply Z.leb_gt; lia). reflexivity. }
  assert (Hspace : forall x, ascii_digit x = true -> isspace x = false).
  { intros x H. unfold ascii_digit in H. apply andb_true_iff in H as [H1 H2].
    apply Z.leb_le in H1, H2. unfold isspace.
    repeat match goal with
    | |- context [ ?u <=? ?v ] =>
        first [ replace (u <=? v) with true by (symmetry; apply Z.leb_le; lia)
              | replace (u <=? v) with false by (symmetry; apply Z.leb_gt; lia) ]
    | |- context [ ?u =? ?v ] =>
        replace (u =? v) with false by (symmetry; apply Z.eqb_neq; lia)
    end. reflexivity. }
  split.
  - rewrite Hnorm. unfold strip.
    rewrite (lstrip_keeps text).
    2:{ unfold text. destruct a as [| x a]; [now elim Ha |]. simpl in *.
        apply Hspace. now apply andb_true_iff in Da as [Da _]. }
    rewrite (lstrip_keeps (rev text)); [apply rev_involutive |].
    unfold text. rewrite !rev_app_distr.
    destruct (rev c) as [| x rc] eqn:Hrc.
    { apply (f_equal (@rev Z)) in Hrc. rewrite rev_involutive in Hrc. now elim Hc. }
    simpl. apply Hspace. rewrite forallb_forall in Dc. apply Dc.
    apply in_rev. rewrite Hrc. now left.
  - unfold forms.components.
    assert (Hrep : forall u, ascii_digit u = false -> u <> 47 ->
              replace u 47 text = text).
    { intros u Hu Hne. unfold replace. rewrite <- (map_id text) at 2.
      apply map_ext_in. intros x Hx.
      destruct (x =? u) eqn:E; [| reflexivity]. apply Z.eqb_eq in E. subst x.
      destruct (Hall u Hx); congruence. }
    rewrite (Hrep 45), (Hrep 46) by (reflexivity || discriminate).
    unfold text. simpl app.
    rewrite (split_piece 47 a), (split_piece 47 b), (split_last 47 c)
      by (apply digits_no_char; [reflexivity | assumption]).
    destruct a; [now elim Ha |]. destruct b; [now elim Hb |]. destruct c; [now elim Hc |].
    reflexivity.
Qed.

(** Cleaning a text that is not empty is parsing it, with any failure turned
    into the one validation error. *)
Lemma clean_birth_date_of_text (int : str -> pyresult Z) raw :
  raw <> [] ->
  StudentForm.clean_birth_date int (Some raw) =
  match forms._parse_birth_date int raw with
  | Return d => Return d
  | Raise _ => Raise "ValidationError: تاریخ تولد نامعتبر است."%string
  end.
Proof. destruct raw; [intros H; now elim H | reflexivity]. Qed.

Lemma nonempty_text (s : str) : s <> [] -> nonempty s = true.
Proof. destruct s; [intros H; now elim H | reflexivity]. Qed.

Lemma local_year_bounds gy gm gd jy jm jd :
  1 <= gy <= 9999 ->
  valid_gregorian gy gm gd = true -> valid_jalali jy jm jd = true ->
  jalali_days jy jm jd = gregorian_days gy gm gd (goff gm) - 355667 ->
  gy - 622 <= jy <= gy - 621.
Proof.
  intros Hy Hv Hj.
  destruct (valid_gregorian_bounds _ _ _ Hv) as [Hm Hgd].
  destruct (valid_jalali_bounds _ _ _ Hj) as [Hjm Hjd].
  assert (Hoff : 0 <= goff gm <= 334).
  { unfold goff.
    destruct (month_cases gm Hm) as
      [-> | [-> | [-> | [-> | [-> | [-> | [-> | [-> | [-> | [-> | [-> | ->]]]]]]]]]]];
      simpl; lia. }
  generalize (goff gm) Hoff. clear Hoff. intros off Hoff.
  unfold jalali_days, gregorian_days.
  destruct (jm <? 7); destruct (gm >? 2); intros H; divmod.
Qed.

Lemma valid_date_year gy gm gd :
  valid_date gy gm gd = true -> 1 <= gy <= 9999 /\ valid_gregorian gy gm gd = true.
Proof.
  unfold valid_date. intros H. apply andb_true_iff in H as [H Hv].
  apply andb_true_iff in H as [H1 H2]. apply Z.leb_le in H1, H2. auto.
Qed.

(** X3. The local year of a date of the canonical calendar of the years
    1..9999 (the dates of [datetime.date]) is its year less 621 or 622. *)
Theorem local_year_of_canonical_date gy gm gd jy jm jd :
  valid_date gy gm gd = true ->
  forms._gregorian_to_jalali gy gm gd = Return (jy, jm, jd) ->
  gy - 622 <= jy <= gy - 621.
Proof.
  intros Hvd Hg. destruct (valid_date_year _ _ _ Hvd) as [Hy Hv].
  destruct (gregorian_to_jalali_valid _ _ _ Hv) as (jy' & jm' & jd' & He & Hj & Hd).
  rewrite He in Hg. injection Hg as <- <- <-.
  eapply local_year_bounds; eassumption.
Qed.

Lemma local_year_of_canonical_date_witness :
  forms._gregorian_to_jalali 2024 3 19 = Return (1402, 12, 29)
  /\ 2024 - 622 <= 1402 <= 2024 - 621.
Proof.
  split; [reflexivity |].
  apply (local_year_of_canonical_date 2024 3 19 1402 12 29); reflexivity.
Defined.

(** X4. The text an edit form shows for a stored date of birth is read back
    as that date, when [int] reads decimal digits and the local year of the
    date is in 0..1699 (canonical dates up to 20 March 2321): showing and
    cleaning is a round trip. *)
Theorem birth_date_text_round_trip (int : str -> pyresult Z) gy gm gd jy jm jd :
  reads_decimals int ->
  valid_date gy gm gd = true ->
  forms._gregorian_to_jalali gy gm gd = Return (jy, jm, jd) ->
  0 <= jy < 1700 ->
  exists text,
    StudentForm.__init__ (Some (datetime.mk_date gy gm gd)) = Return (Some text)
    /\ StudentForm.clean_birth_date int (Some text)
       = Return (Some (datetime.mk_date gy gm gd)).
Proof.
  intros Hint Hv Hg Hjy. pose proof Hv as Hvd. unfold valid_date in Hv.
  apply andb_true_iff in Hv as [_ Hv].
  destruct (gregorian_to_jalali_valid _ _ _ Hv) as (jy' & jm' & jd' & He & Hj & Hd).
  pose proof He as He'. rewrite Hg in He'. injection He' as <- <- <-.
  destruct (valid_jalali_bounds _ _ _ Hj) as [Hjm Hjd].
  destruct (format_0d_digits 4 jy ltac:(lia)) as [Na Da].
  destruct (format_0d_digits 2 jm ltac:(lia)) as [Nb Db].
  destruct (format_0d_digits 2 jd ltac:(lia)) as [Nc Dc].
  destruct (components_of_date_text _ _ _ Na Nb Nc Da Db Dc) as [Hstrip Hcomp].
  cbv zeta in Hstrip, Hcomp.
  exists (format_0d 4 jy ++ [47] ++ format_0d 2 jm ++ [47] ++ format_0d 2 jd). split.
  { unfold StudentForm.__init__. cbn [datetime.year datetime.month datetime.day].
    rewrite Hg. reflexivity. }
  rewrite clean_birth_date_of_text
    by (intros H; apply app_eq_nil in H as [H _]; now elim Na).
  unfold forms._parse_birth_date. cbv zeta. rewrite Hstrip, Hcomp.
  rewrite nonempty_text by (intros H; apply app_eq_nil in H as [H _]; now elim Na).
  cbn [negb]. rewrite !Hint by lia. cbn [pybind].
  replace (jy >=? 1700) with false by (symmetry; rewrite Z.geb_leb; apply Z.leb_gt; lia).
  rewrite jalali_to_gregorian_split, Hd, (gregorian_days_sound _ _ _ Hv).
  rewrite (datetime_date_valid _ _ _ Hvd). reflexivity.
Qed.

Lemma birth_date_text_round_trip_witness :
  exists text,
    StudentForm.__init__ (Some (datetime.mk_date 2023 6 5)) = Return (Some text)
    /\ StudentForm.clean_birth_date int_ascii (Some text)
       = Return (Some (datetime.mk_date 2023 6 5)).
Proof.
  apply (birth_date_text_round_trip int_ascii 2023 6 5 1402 3 15);
    [exact int_ascii_reads_decimals | reflexivity | reflexivity | lia].
Defined.

(** X5. From 21 March 2321 on the round trip is lost: the text shown for a
    stored date whose local year is 1700 or more has a year that is taken for
    a canonical one, and cleaning it never gives the stored date back. *)
Theorem birth_date_text_not_read_back (int : str -> pyresult Z) gy gm gd jy jm jd :
  reads_decimals int ->
  valid_date gy gm gd = true ->
  forms._gregorian_to_jalali gy gm gd = Return (jy, jm, jd) ->
  1700 <= jy ->
  exists text,
    StudentForm.__init__ (Some (datetime.mk_date gy gm gd)) = Return (Some text)
    /\ StudentForm.clean_birth_date int (Some text)
       <> Return (Some (datetime.mk_date gy gm gd)).
Proof.
  intros Hint Hv Hg Hjy.
  pose proof Hv as Hvd. apply valid_date_year in Hv as [Hy Hv].
  destruct (gregorian_to_jalali_valid _ _ _ Hv) as (jy' & jm' & jd' & He & Hj & Hd).
  pose proof He as He'. rewrite Hg in He'. injection He' as <- <- <-.
  pose proof (local_year_bounds _ _ _ _ _ _ Hy Hv Hj Hd) as Hyear.
  destruct (valid_jalali_bounds _ _ _ Hj) as [Hjm Hjd].
  destruct (format_0d_digits 4 jy ltac:(lia)) as [Na Da].
  destruct (format_0d_digits 2 jm ltac:(lia)) as [Nb Db].
  destruct (format_0d_digits 2 jd ltac:(lia)) as [Nc Dc].
  destruct (components_of_date_text _ _ _ Na Nb Nc Da Db Dc) as [Hstrip Hcomp].
  cbv zeta in Hstrip, Hcomp.
  exists (format_0d 4 jy ++ [47] ++ format_0d 2 jm ++ [47] ++ format_0d 2 jd). split.
  { unfold StudentForm.__init__. cbn [datetime.year datetime.month datetime.day].
    rewrite Hg. reflexivity. }
  rewrite clean_birth_date_of_text
    by (intros H; apply app_eq_nil in H as [H _]; now elim Na).
  unfold forms._parse_birth_date. cbv zeta. rewrite Hstrip, Hcomp.
  rewrite nonempty_text by (intros H; apply app_eq_nil in H as [H _]; now elim Na).
  cbn [negb]. rewrite !Hint by lia. cbn [pybind].
  replace (jy >=? 1700) with true by (symmetry; apply Z.geb_le; lia).
  unfold datetime.date.
  repeat match goal with
  | |- context [ if ?b then _ else _ ] => destruct b
  end; simpl; try discriminate.
  intros H. injection H as H _ _. lia.
Qed.

Lemma birth_date_text_not_read_back_witness :
  exists text,
    StudentForm.__init__ (Some (datetime.mk_date 2321 3 21)) = Return (Some text)
    /\ StudentForm.clean_birth_date int_ascii (Some text)
       <> Return (Some (datetime.mk_date 2321 3 21)).
Proof.
  apply (birth_date_text_not_read_back int_ascii 2321 3 21 1700 1 1);
    [exact int_ascii_reads_decimals | reflexivity | reflexivity | lia].
Defined.

(** X6. What cleaning the field of the date of birth can give: a missing or
    empty text is refused as required, every other failure is the one
    "invalid" error whatever was raised below, and a text of blanks only is
    let through with no date. *)
Theorem clean_birth_date_outcomes (int : str -> pyresult Z) (raw : option str) :
  (StudentForm.clean_birth_date int raw = Raise "ValidationError: تاریخ تولد الزامی است."%string
   <-> raw = None \/ raw = Some [])
  /\ (forall e, StudentForm.clean_birth_date int raw = Raise e ->
        e = "ValidationError: تاریخ تولد الزامی است."%string
        \/ e = "ValidationError: تاریخ تولد نامعتبر است."%string)
  /\ (forall s, raw = Some s -> s <> [] -> strip (forms._persian_to_ascii s) = [] ->
        StudentForm.clean_birth_date int raw = Return None).
Proof.
  destruct raw as [[| c s] |].
  - split; [| split].
    + split; [now right | reflexivity].
    + intros e H. injection H as <-. now left.
    + intros s Heq Hne. injection Heq as <-. now elim Hne.
  - rewrite clean_birth_date_of_text by discriminate.
    split; [| split].
    + split.
      * destruct (forms._parse_birth_date int (c :: s)); discriminate.
      * intros [H | H]; discriminate H.
    + intros e. destruct (forms._parse_birth_date int (c :: s)); [discriminate |].
      intros H. injection H as <-. now right.
    + intros s' H _ Hblank. injection H as <-.
      unfold forms._parse_birth_date. cbv zeta. rewrite Hblank. reflexivity.
  - split; [| split].
    + split; [now left | reflexivity].
    + intros e H. injection H as <-. now left.
    + intros s H. discriminate H.
Qed.

(** X7. [_jalali_to_gregorian] takes any three integers to a date of the
    canonical calendar, and a day past the end of a month is read as the first
    day of the month after it (past the end of the year: of the year after). *)
Theorem jalali_to_gregorian_normalises jy jm jd :
  (let '(gy, gm, gd) := forms._jalali_to_gregorian jy jm jd in
   valid_gregorian gy gm gd = true)
  /\ (1 <= jm <= 6 ->
      forms._jalali_to_gregorian jy jm 32 = forms._jalali_to_gregorian jy (jm + 1) 1)
  /\ (7 <= jm <= 11 ->
      forms._jalali_to_gregorian jy jm 31 = forms._jalali_to_gregorian jy (jm + 1) 1)
  /\ forms._jalali_to_gregorian jy 12 (jalali_month_days jy 12 + 1)
     = forms._jalali_to_gregorian (jy + 1) 1 1.
Proof.
  split; [| split; [| split]].
  - rewrite jalali_to_gregorian_split.
    pose proof (gregorian_of_days_sound (jalali_days jy jm jd)) as H.
    destruct (gregorian_of_days (jalali_days jy jm jd)) as [[gy gm] gd]. apply H.
  - intros H. rewrite !jalali_to_gregorian_split. f_equal. unfold jalali_days.
    destruct (jm <? 7) eqn:E1; [| apply Z.ltb_ge in E1; lia].
    destruct (jm + 1 <? 7) eqn:E2; [lia |]. apply Z.ltb_ge in E2. lia.
  - intros H. rewrite !jalali_to_gregorian_split. f_equal. unfold jalali_days.
    destruct (jm <? 7) eqn:E1; [apply Z.ltb_lt in E1; lia |].
    destruct (jm + 1 <? 7) eqn:E2; [apply Z.ltb_lt in E2; lia | lia].
  - rewrite !jalali_to_gregorian_split. f_equal.
    pose proof (jalali_year_length jy) as H.
    unfold jalali_month_days. change (12 <=? 6) with false. change (12 <=? 11) with false.
    cbv iota. revert H. unfold jalali_days.
    change (12 <? 7) with false. change (1 <? 7) with true. cbv iota.
    destruct (jalali_leap jy); lia.
Qed.

(** ** The order of dates *)

Lemma jalali_year_start_step jy :
  jalali_days jy 1 1 + 365 <= jalali_days (jy + 1) 1 1.
Proof. generalize (jalali_year_length jy). destruct (jalali_leap jy); lia. Qed.

Lemma jalali_year_start_mono jy k :
  0 <= k -> jalali_days jy 1 1 + 365 * k <= jalali_days (jy + k) 1 1.
Proof.
  intros Hk. pattern k. apply natlike_ind; [| | exact Hk].
  - replace (jy + 0) with jy by lia. lia.
  - intros x Hx IH. pose proof (jalali_year_start_step (jy + x)) as Hstep.
    replace (jy + Z.succ x) with (jy + x + 1) by lia. lia.
Qed.

Lemma jalali_day_in_year jy jm jd :
  valid_jalali jy jm jd = true ->
  jalali_days jy 1 1 <= jalali_days jy jm jd
  /\ jalali_days jy jm jd < jalali_days (jy + 1) 1 1.
Proof.
  intros Hv. pose proof (jalali_year_length jy) as Hlen. revert Hlen.
  unfold valid_jalali, jalali_month_days in Hv.
  apply andb_true_iff in Hv as [Hv H4]. apply andb_true_iff in Hv as [Hv H3].
  apply andb_true_iff in Hv as [H1 H2]. apply Z.leb_le in H1, H2, H3, H4.
  generalize (jalali_days (jy + 1) 1 1). intros next. unfold jalali_days.
  change (1 <? 7) with true. cbv iota.
  destruct (jm <? 7) eqn:E7; [apply Z.ltb_lt in E7 | apply Z.ltb_ge in E7].
  - replace (jm <=? 6) with true in H4 by (symmetry; apply Z.leb_le; lia).
    destruct (jalali_leap jy); lia.
  - replace (jm <=? 6) with false in H4 by (symmetry; apply Z.leb_gt; lia).
    destruct (jm <=? 11) eqn:E11; [apply Z.leb_le in E11 | apply Z.leb_gt in E11];
      destruct (jalali_leap jy); lia.
Qed.

(** Later dates of the local calendar have greater day numbers. *)
Lemma jalali_days_increase jy jm jd jy' jm' jd' :
  valid_jalali jy jm jd = true -> valid_jalali jy' jm' jd' = true ->
  earlier (jy, jm, jd) (jy', jm', jd') ->
  jalali_days jy jm jd < jalali_days jy' jm' jd'.
Proof.
  intros Hv Hv' [Hy | [<- Hm]].
  - destruct (jalali_day_in_year _ _ _ Hv) as [_ Hend].
    destruct (jalali_day_in_year _ _ _ Hv') as [Hstart _].
    pose proof (jalali_year_start_mono (jy + 1) (jy' - (jy + 1)) ltac:(lia)) as Hmono.
    replace (jy + 1 + (jy' - (jy + 1))) with jy' in Hmono by lia. lia.
  - unfold valid_jalali, jalali_month_days in Hv, Hv'.
    apply andb_true_iff in Hv as [Hv H4]. apply andb_true_iff in Hv as [Hv H3].
    apply andb_true_iff in Hv as [H1 H2]. apply Z.leb_le in H1, H2, H3, H4.
    apply andb_true_iff in Hv' as [Hv' H4']. apply andb_true_iff in Hv' as [Hv' H3'].
    apply andb_true_iff in Hv' as [H1' H2']. apply Z.leb_le in H1', H2', H3', H4'.
    unfold jalali_days.
    destruct Hm as [Hm | [<- Hd]]; [| destruct (jm <? 7); lia].
    destruct (jm <=? 6) eqn:E6; [apply Z.leb_le in E6 | apply Z.leb_gt in E6].
    + replace (jm <? 7) with true by (symmetry; apply Z.ltb_lt; lia).
      destruct (jm' <? 7) eqn:E7; [apply Z.ltb_lt in E7 | apply Z.ltb_ge in E7]; lia.
    + replace (jm <? 7) with false by (symmetry; apply Z.ltb_ge; lia).
      replace (jm' <? 7) with false by (symmetry; apply Z.ltb_ge; lia).
      replace (jm <=? 11) with true in H4 by (symmetry; apply Z.leb_le; lia). lia.
Qed.

(** Later dates of the canonical calendar have greater day numbers. *)
Lemma gregorian_days_increase gy gm gd gy' gm' gd' :
  valid_gregorian gy gm gd = true -> valid_gregorian gy' gm' gd' = true ->
  earlier (gy, gm, gd) (gy', gm', gd') ->
  gregorian_days gy gm gd (goff gm) < gregorian_days gy' gm' gd' (goff gm').
Proof.
  intros Hv Hv' He. rewrite !gregorian_days_year.
  pose proof (day_of_year_bounds _ _ _ Hv) as Hb.
  pose proof (day_of_year_bounds _ _ _ Hv') as Hb'.
  destruct He as [Hy | [<- Hm]].
  - pose proof (leap_years_before_step gy) as Hstep.
    pose proof (year_start_mono (gy + 1) (gy' - (gy + 1)) ltac:(lia)) as Hmono.
    replace (gy + 1 + (gy' - (gy + 1))) with gy' in Hmono by lia.
    revert Hstep Hb. destruct (is_leap gy); lia.
  - destruct Hm as [Hm | [<- Hd]]; [| unfold day_of_year; lia].
    destruct (valid_gregorian_inv _ _ _ Hv) as [Hgm Hgd].
    destruct (valid_gregorian_inv _ _ _ Hv') as [Hgm' Hgd'].
    pose proof (day_of_year_start_mono gy gm gm' ltac:(lia) Hm ltac:(lia)) as Hmono.
    unfold day_of_year in *. lia.
Qed.

(** X24. [_jalali_to_gregorian] keeps the order of dates: of two dates of the
    local calendar, the later one is converted to the later date of the
    canonical calendar. *)
Theorem jalali_to_gregorian_keeps_order jy jm jd jy' jm' jd' :
  valid_jalali jy jm jd = true -> valid_jalali jy' jm' jd' = true ->
  earlier (jy, jm, jd) (jy', jm', jd') ->
  earlier (forms._jalali_to_gregorian jy jm jd) (forms._jalali_to_gregorian jy' jm' jd').
Proof.
  intros Hv Hv' He. pose proof (jalali_days_increase _ _ _ _ _ _ Hv Hv' He) as Hlt.
  rewrite !jalali_to_gregorian_split.
  pose proof (gregorian_of_days_sound (jalali_days jy jm jd)) as Hs.
  pose proof (gregorian_of_days_sound (jalali_days jy' jm' jd')) as Hs'.
  destruct (gregorian_of_days (jalali_days jy jm jd)) as [[gy gm] gd].
  destruct (gregorian_of_days (jalali_days jy' jm' jd')) as [[gy' gm'] gd'].
  destruct Hs as [Hg Hn]. destruct Hs' as [Hg' Hn'].
  assert (Hcases : earlier (gy, gm, gd) (gy', gm', gd')
                   \/ (gy, gm, gd) = (gy', gm', gd')
                   \/ earlier (gy', gm', gd') (gy, gm, gd)).
  { unfold earlier.
    destruct (Z.lt_trichotomy gy gy') as [H | [-> | H]]; [tauto | | tauto].
    destruct (Z.lt_trichotomy gm gm') as [H | [-> | H]]; [tauto | | tauto].
    destruct (Z.lt_trichotomy gd gd') as [H | [-> | H]]; tauto. }
  destruct Hcases as [H | [H | H]]; [exact H | |].
  - injection H as -> -> ->. lia.
  - pose proof (gregorian_days_increase _ _ _ _ _ _ Hg' Hg H). lia.
Qed.

Lemma jalali_to_gregorian_keeps_order_witness :
  earlier (forms._jalali_to_gregorian 1402 12 29) (forms._jalali_to_gregorian 1403 1 1).
Proof.
  apply (jalali_to_gregorian_keeps_order 1402 12 29 1403 1 1);
    [reflexivity | reflexivity | left; lia].
Defined.

(** ** Reference data *)

Lemma find_last {A : Type} (p : A -> bool) (l : list A) (x : A) :
  find p (l ++ [x]) =
  match find p l with
  | Some y => Some y
  | None => if p x then Some x else None
  end.
Proof.
  induction l as [| a l IH]; simpl; [reflexivity |]. destruct (p a); [reflexivity | exact IH].
Qed.

Lemma find_map_same_key {A : Type} (p : A -> bool) (f : A -> A) (l : list A) :
  (forall a, p (f a) = p a) -> find p (map f l) = option_map f (find p l).
Proof.
  intros Hp. induction l as [| a l IH]; simpl; [reflexivity |].
  rewrite Hp. destruct (p a); [reflexivity | exact IH].
Qed.

(** What [get_or_create] finds for each code once a level was ensured. *)
Lemma ensure_level_lookup code name db :
  exists db',
    views.ensure_level code name db = Return (StudyLevel.mk code name, db')
    /\ same_records db db'
    /\ Semester_objects db' = Semester_objects db
    /\ CoursePeriod_objects db' = CoursePeriod_objects db
    /\ (level_by_code code db = Some (StudyLevel.mk code name) -> db' = db)
    /\ forall c, level_by_code c db' =
         if String.eqb code c then Some (StudyLevel.mk code name) else level_by_code c db.
Proof.
  unfold views.ensure_level, level_by_code.
  destruct (find (fun l => String.eqb (StudyLevel.code l) code) (StudyLevel_objects db))
    as [obj |] eqn:Hfind.
  - apply find_some in Hfind as Hobj. destruct Hobj as [_ Hcode].
    apply String.eqb_eq in Hcode. destruct obj as [ocode oname]. simpl in Hcode. subst ocode.
    simpl StudyLevel.name. simpl StudyLevel.code.
    destruct (String.eqb oname name) eqn:Hname.
    + apply String.eqb_eq in Hname. subst oname. exists db.
      split; [reflexivity |]. split; [apply same_records_refl |].
      split; [reflexivity |]. split; [reflexivity |]. split; [reflexivity |]. intros c.
      destruct (String.eqb code c) eqn:Hc; [| reflexivity].
      apply String.eqb_eq in Hc. subst c. exact Hfind.
    + eexists. split; [reflexivity |].
      split; [repeat split; simpl; apply incl_refl |].
      split; [reflexivity |]. split; [reflexivity |].
      split.
      { intros H. injection H as H. rewrite H, String.eqb_refl in Hname. discriminate. }
      intros c. simpl StudyLevel_objects.
      rewrite find_map_same_key.
      2:{ intros a. unfold StudyLevel.same. simpl.
          destruct (String.eqb (StudyLevel.code a) code) eqn:Ha; [| reflexivity].
          apply String.eqb_eq in Ha. simpl. now rewrite Ha. }
      destruct (String.eqb code c) eqn:Hc.
      * apply String.eqb_eq in Hc. subst c. rewrite Hfind. simpl.
        unfold StudyLevel.same. simpl. now rewrite String.eqb_refl.
      * destruct (find (fun l => String.eqb (StudyLevel.code l) c) (StudyLevel_objects db))
          as [r |] eqn:Hr; [| reflexivity]. simpl.
        apply find_some in Hr as [_ Hr]. apply String.eqb_eq in Hr.
        unfold StudyLevel.same. simpl. rewrite Hr.
        rewrite String.eqb_sym, Hc. reflexivity.
  - eexists. split; [reflexivity |].
    split; [repeat split; simpl; apply incl_refl |].
    split; [reflexivity |]. split; [reflexivity |]. split; [discriminate |].
    intros c. simpl StudyLevel_objects.
    rewrite find_last. simpl StudyLevel.code.
    destruct (String.eqb code c) eqn:Hc.
    + apply String.eqb_eq in Hc. subst c. rewrite Hfind. reflexivity.
    + destruct (find (fun l => String.eqb (StudyLevel.code l) c) (StudyLevel_objects db));
        reflexivity.
Qed.

Lemma ensure_semester_lookup n db :
  exists db',
    views.ensure_semester n db = Return (Semester.mk n, db')
    /\ same_records db db'
    /\ StudyLevel_objects db' = StudyLevel_objects db
    /\ CoursePeriod_objects db' = CoursePeriod_objects db
    /\ (semester_by_number n db <> None -> db' = db)
    /\ forall m, semester_by_number m db' =
         if n =? m then Some (Semester.mk n) else semester_by_number m db.
Proof.
  unfold views.ensure_semester, semester_by_number.
  destruct (find (fun s => Semester.number s =? n) (Semester_objects db)) as [obj |] eqn:Hfind.
  - apply find_some in Hfind as Hobj. destruct Hobj as [_ Hn]. apply Z.eqb_eq in Hn.
    destruct obj as [k]. simpl in Hn. subst k. exists db.
    split; [reflexivity |]. split; [apply same_records_refl |].
    split; [reflexivity |]. split; [reflexivity |]. split; [reflexivity |]. intros m.
    destruct (n =? m) eqn:Hm; [| reflexivity]. apply Z.eqb_eq in Hm. subst m. exact Hfind.
  - eexists. split; [reflexivity |].
    split.
    { repeat split; simpl; try apply incl_refl. apply incl_appl, incl_refl. }
    split; [reflexivity |]. split; [reflexivity |]. split; [intros H; now elim H |].
    intros m. simpl Semester_objects. rewrite find_last. simpl Semester.number.
    destruct (n =? m) eqn:Hm.
    + apply Z.eqb_eq in Hm. subst m. rewrite Hfind. reflexivity.
    + destruct (find (fun s => Semester.number s =? m) (Semester_objects db)); reflexivity.
Qed.

Lemma ensure_period_lookup n db :
  exists db',
    views.ensure_period n db = Return (CoursePeriod.mk n, db')
    /\ same_records db db'
    /\ StudyLevel_objects db' = StudyLevel_objects db
    /\ Semester_objects db' = Semester_objects db
    /\ (period_by_number n db <> None -> db' = db)
    /\ forall m, period_by_number m db' =
         if n =? m then Some (CoursePeriod.mk n) else period_by_number m db.
Proof.
  unfold views.ensure_period, period_by_number.
  destruct (find (fun p => CoursePeriod.number p =? n) (CoursePeriod_objects db))
    as [obj |] eqn:Hfind.
  - apply find_some in Hfind as Hobj. destruct Hobj as [_ Hn]. apply Z.eqb_eq in Hn.
    destruct obj as [k]. simpl in Hn. subst k. exists db.
    split; [reflexivity |]. split; [apply same_records_refl |].
    split; [reflexivity |]. split; [reflexivity |]. split; [reflexivity |]. intros m.
    destruct (n =? m) eqn:Hm; [| reflexivity]. apply Z.eqb_eq in Hm. subst m. exact Hfind.
  - eexists. split; [reflexivity |].
    split.
    { repeat split; simpl; try apply incl_refl. apply incl_appl, incl_refl. }
    split; [reflexivity |]. split; [reflexivity |]. split; [intros H; now elim H |].
    intros m. simpl CoursePeriod_objects. rewrite find_last. simpl CoursePeriod.number.
    destruct (n =? m) eqn:Hm.
    + apply Z.eqb_eq in Hm. subst m. rewrite Hfind. reflexivity.
    + destruct (find (fun p => CoursePeriod.number p =? m) (CoursePeriod_objects db));
        reflexivity.
Qed.

Lemma ensure_levels_lookup defs : NoDup (map fst defs) -> forall db,
  exists db',
    views.ensure_levels defs db
    = Return (map (fun '(code, name) => (code, StudyLevel.mk code name)) defs, db')
    /\ same_records db db'
    /\ Semester_objects db' = Semester_objects db
    /\ CoursePeriod_objects db' = CoursePeriod_objects db
    /\ ((forall code name, In (code, name) defs ->
           level_by_code code db = Some (StudyLevel.mk code name)) -> db' = db)
    /\ (forall code name, In (code, name) defs ->
          level_by_code code db' = Some (StudyLevel.mk code name))
    /\ (forall c, ~ In c (map fst defs) -> level_by_code c db' = level_by_code c db).
Proof.
  induction defs as [| [code name] rest IH]; intros Hnd db.
  - exists db. split; [reflexivity |]. split; [apply same_records_refl |].
    repeat split; try reflexivity; intros; contradiction.
  - inversion Hnd as [| ? ? Hfresh Hrest]; subst.
    destruct (ensure_level_lookup code name db)
      as (db1 & Hrun1 & Hsame1 & Hsem1 & Hper1 & Hnoop1 & Hfind1).
    destruct (IH Hrest db1) as (db2 & Hrun2 & Hsame2 & Hsem2 & Hper2 & Hnoop2 & Hin2 & Hout2).
    exists db2. split.
    { cbn [views.ensure_levels]. rewrite (bind_return _ _ _ _ _ Hrun1).
      rewrite (bind_return _ _ _ _ _ Hrun2). reflexivity. }
    split; [eapply same_records_trans; eassumption |].
    split; [congruence |]. split; [congruence |]. split; [| split].
    + intros Hall.
      assert (db1 = db) as -> by (apply Hnoop1, Hall; now left).
      apply Hnoop2. intros c n Hcn. apply Hall. now right.
    + intros c n [Heq | Hcn].
      * injection Heq as <- <-. rewrite (Hout2 _ Hfresh), Hfind1, String.eqb_refl. reflexivity.
      * eapply Hin2, Hcn.
    + intros c Hc. simpl in Hc. rewrite Hout2 by tauto. rewrite Hfind1.
      destruct (String.eqb code c) eqn:E; [| reflexivity].
      apply String.eqb_eq in E. tauto.
Qed.

Lemma ensure_semesters_lookup l : forall db,
  exists db',
    views.for_each views.ensure_semester l db = Return (tt, db')
    /\ same_records db db'
    /\ StudyLevel_objects db' = StudyLevel_objects db
    /\ CoursePeriod_objects db' = CoursePeriod_objects db
    /\ ((forall n, In n l -> semester_by_number n db <> None) -> db' = db)
    /\ (forall n, In n l -> semester_by_number n db' = Some (Semester.mk n))
    /\ (forall n, ~ In n l -> semester_by_number n db' = semester_by_number n db).
Proof.
  induction l as [| n l IH]; intros db.
  - exists db. split; [reflexivity |]. split; [apply same_records_refl |].
    repeat split; try reflexivity; intros; contradiction.
  - destruct (ensure_semester_lookup n db)
      as (db1 & Hrun1 & Hsame1 & Hlev1 & Hper1 & Hnoop1 & Hfind1).
    destruct (IH db1) as (db2 & Hrun2 & Hsame2 & Hlev2 & Hper2 & Hnoop2 & Hin2 & Hout2).
    exists db2. split.
    { cbn [views.for_each]. rewrite (bind_return _ _ _ _ _ Hrun1). exact Hrun2. }
    split; [eapply same_records_trans; eassumption |].
    split; [congruence |]. split; [congruence |]. split; [| split].
    + intros Hall.
      assert (db1 = db) as -> by (apply Hnoop1, Hall; now left).
      apply Hnoop2. intros m Hm. apply Hall. now right.
    + intros m Hm. destruct (in_dec Z.eq_dec m l) as [Hl | Hl]; [now apply Hin2 |].
      destruct Hm as [<- | Hm]; [| contradiction].
      rewrite (Hout2 _ Hl), Hfind1, Z.eqb_refl. reflexivity.
    + intros m Hm. simpl in Hm. rewrite Hout2 by tauto. rewrite Hfind1.
      destruct (n =? m) eqn:E; [| reflexivity]. apply Z.eqb_eq in E. tauto.
Qed.

Lemma ensure_periods_lookup l : forall db,
  exists db',
    views.for_each views.ensure_period l db = Return (tt, db')
    /\ same_records db db'
    /\ StudyLevel_objects db' = StudyLevel_objects db
    /\ Semester_objects db' = Semester_objects db
    /\ ((forall n, In n l -> period_by_number n db <> None) -> db' = db)
    /\ (forall n, In n l -> period_by_number n db' = Some (CoursePeriod.mk n))
    /\ (forall n, ~ In n l -> period_by_number n db' = period_by_number n db).
Proof.
  induction l as [| n l IH]; intros db.
  - exists db. split; [reflexivity |]. split; [apply same_records_refl |].
    repeat split; try reflexivity; intros; contradiction.
  - destruct (ensure_period_lookup n db)
      as (db1 & Hrun1 & Hsame1 & Hlev1 & Hsem1 & Hnoop1 & Hfind1).
    destruct (IH db1) as (db2 & Hrun2 & Hsame2 & Hlev2 & Hsem2 & Hnoop2 & Hin2 & Hout2).
    exists db2. split.
    { cbn [views.for_each]. rewrite (bind_return _ _ _ _ _ Hrun1). exact Hrun2. }
    split; [eapply same_records_trans; eassumption |].
    split; [congruence |]. split; [congruence |]. split; [| split].
    + intros Hall.
      assert (db1 = db) as -> by (apply Hnoop1, Hall; now left).
      apply Hnoop2. intros m Hm. apply Hall. now right.
    + intros m Hm. destruct (in_dec Z.eq_dec m l) as [Hl | Hl]; [now apply Hin2 |].
      destruct Hm as [<- | Hm]; [| contradiction].
      rewrite (Hout2 _ Hl), Hfind1, Z.eqb_refl. reflexivity.
    + intros m Hm. simpl in Hm. rewrite Hout2 by tauto. rewrite Hfind1.
      destruct (n =? m) eqn:E; [| reflexivity]. apply Z.eqb_eq in E. tauto.
Qed.

Lemma in_range_4 n : 1 <= n <= 4 <-> In n [1; 2; 3; 4].
Proof. simpl. lia. Qed.

Lemma in_range_6 n : 1 <= n <= 6 <-> In n [1; 2; 3; 4; 5; 6].
Proof. simpl. lia. Qed.

Lemma level_by_code_same_levels c db db' :
  StudyLevel_objects db' = StudyLevel_objects db -> level_by_code c db' = level_by_code c db.
Proof. unfold level_by_code. now intros ->. Qed.

Lemma semester_by_number_same n db db' :
  Semester_objects db' = Semester_objects db ->
  semester_by_number n db' = semester_by_number n db.
Proof. unfold semester_by_number. now intros ->. Qed.

(** One run of [_ensure_reference_data], in full. *)
Lemma ensure_reference_data_run db :
  exists db',
    views._ensure_reference_data db = Return (reference_levels, db')
    /\ reference_data_present db'
    /\ same_records db db'
    /\ (reference_data_present db -> db' = db)
    /\ (forall c, ~ In c (map fst views.level_defs) ->
          level_by_code c db' = level_by_code c db)
    /\ (forall n, ~ 1 <= n <= 4 -> semester_by_number n db' = semester_by_number n db)
    /\ (forall n, ~ 1 <= n <= 6 -> period_by_number n db' = period_by_number n db).
Proof.
  assert (Hcodes : NoDup (map fst views.level_defs)).
  { simpl. repeat constructor; simpl; intuition discriminate. }
  destruct (ensure_levels_lookup views.level_defs Hcodes db)
    as (db1 & Hrun1 & Hsame1 & Hsem1 & Hper1 & Hnoop1 & Hin1 & Hout1).
  destruct (ensure_semesters_lookup [1; 2; 3; 4] db1)
    as (db2 & Hrun2 & Hsame2 & Hlev2 & Hper2 & Hnoop2 & Hin2 & Hout2).
  destruct (ensure_periods_lookup [1; 2; 3; 4; 5; 6] db2)
    as (db3 & Hrun3 & Hsame3 & Hlev3 & Hsem3 & Hnoop3 & Hin3 & Hout3).
  exists db3. split.
  { unfold views._ensure_reference_data.
    rewrite (bind_return _ _ _ _ _ Hrun1), (bind_return _ _ _ _ _ Hrun2),
      (bind_return _ _ _ _ _ Hrun3). reflexivity. }
  split; [| split; [| split; [| split; [| split]]]].
  - split; [| split].
    + intros code name Hcn.
      rewrite (level_by_code_same_levels code db1 db3) by congruence. eapply Hin1, Hcn.
    + intros n Hn. rewrite (semester_by_number_same n db2 db3) by congruence.
      apply Hin2, in_range_4, Hn.
    + intros n Hn. apply Hin3, in_range_6, Hn.
  - eapply same_records_trans; [eassumption |].
    eapply same_records_trans; eassumption.
  - intros (Hl & Hs & Hp).
    assert (db1 = db) as -> by (apply Hnoop1, Hl).
    assert (db2 = db) as ->.
    { apply Hnoop2. intros n Hn. apply in_range_4 in Hn. rewrite (Hs n Hn). discriminate. }
    apply Hnoop3. intros n Hn. apply in_range_6 in Hn. rewrite (Hp n Hn). discriminate.
  - intros c Hc. rewrite (level_by_code_same_levels c db1 db3) by congruence.
    apply Hout1, Hc.
  - intros n Hn. rewrite (semester_by_number_same n db2 db3) by congruence.
    rewrite Hout2 by (rewrite <- in_range_4; exact Hn).
    apply semester_by_number_same. congruence.
  - intros n Hn. rewrite Hout3 by (rewrite <- in_range_6; exact Hn).
    unfold period_by_number. congruence.
Qed.

(** X8. [_ensure_reference_data] never raises and always answers with the same
    map; after it the three levels are found by their codes under the
    configured names, the semesters 1..4 and the periods 1..6 are found by
    their numbers, and nothing else was touched: no subject, no score, no
    semester or period removed, no level of another code changed. *)
Theorem ensure_reference_data_establishes db :
  exists db',
    views._ensure_reference_data db = Return (reference_levels, db')
    /\ reference_data_present db'
    /\ same_records db db'
    /\ (forall c, ~ In c ["aali"; "moteseta"; "ebtedai"]%string ->
          level_by_code c db' = level_by_code c db).
Proof.
  destruct (ensure_reference_data_run db) as (db' & Hrun & Hpresent & Hsame & _ & Hout & _).
  exists db'. split; [exact Hrun |]. split; [exact Hpresent |]. split; [exact Hsame |].
  exact Hout.
Qed.

(** X9. [_ensure_reference_data] is idempotent: run on the tables it left, it
    gives the same map and changes nothing. *)
Theorem ensure_reference_data_idempotent db level_map db' :
  views._ensure_reference_data db = Return (level_map, db') ->
  views._ensure_reference_data db' = Return (level_map, db').
Proof.
  intros Hrun.
  destruct (ensure_reference_data_run db) as (db1 & Hrun1 & Hpresent & _).
  rewrite Hrun1 in Hrun. injection Hrun as <- <-.
  destruct (ensure_reference_data_run db1) as (db2 & Hrun2 & _ & _ & Hnoop & _).
  rewrite Hrun2. now rewrite (Hnoop Hpresent).
Qed.

Lemma ensure_reference_data_idempotent_witness :
  exists level_map db',
    views._ensure_reference_data (sample_db 50) = Return (level_map, db')
    /\ views._ensure_reference_data db' = Return (level_map, db').
Proof.
  exists reference_levels.
  exists (mkDB [aali; moteseta; ebtedai] (map Semester.mk [1; 2; 3; 4])
            (map CoursePeriod.mk [1; 2; 3; 4; 5; 6]) sample_subjects (sample_scores 50)).
  split; [vm_compute; reflexivity |].
  apply (ensure_reference_data_idempotent (sample_db 50)). vm_compute. reflexivity.
Defined.

(** ** What a promotion does to the learner *)

Lemma scores_ok_tests db st subs :
  (if (List.length (scores_of st subs db) <? List.length subs)%nat then false
   else if existsb score_isnull (scores_of st subs db) then false
   else if existsb (score_lt 50) (scores_of st subs db) then false
   else true) = scores_ok db st subs.
Proof.
  unfold scores_ok.
  destruct (List.length (scores_of st subs db) <? List.length subs)%nat; [reflexivity |].
  destruct (existsb score_isnull (scores_of st subs db)); [reflexivity |].
  destruct (existsb (score_lt 50) (scores_of st subs db)); reflexivity.
Qed.

(** [_auto_promote_student] returns, with the subjects and the scores as they
    were. *)
Lemma auto_promote_runs st db :
  exists r db',
    views._auto_promote_student st db = Return (r, db')
    /\ Subject_objects db' = Subject_objects db
    /\ StudentScore_objects db' = StudentScore_objects db.
Proof.
  destruct (Student.is_graduated st) eqn:Hg.
  - exists (None, st), db. rewrite (graduated_is_left_alone st db Hg). auto.
  - destruct (auto_promote_flow st db Hg) as (db1 & Hs1 & H). cbv zeta in H.
    destruct (evaluable (resolved_subjects st db)
              && scores_ok db st (resolved_subjects st db)).
    2:{ eexists _, db1. rewrite H. split; [reflexivity |]. split; apply Hs1. }
    destruct (current_ordinal st) as [n |]; [| contradiction].
    destruct (ceiling st <=? n).
    { eexists _, db1. rewrite H. split; [reflexivity |]. split; apply Hs1. }
    destruct H as (db2 & Hs2 & H).
    destruct (upper (effective_level_code st)); destruct H as [H _];
      eexists _, db2; rewrite H; (split; [reflexivity |]); split; apply Hs2.
Qed.

(** X10. [_auto_promote_student] never raises (the marker it dereferences is
    always there when it is reached); it leaves the subjects and the scores as
    they were and removes no semester and no period; it never changes the
    learner's key, level or class group, and a learner it reports nothing
    about is unchanged. *)
Theorem auto_promote_returns_and_keeps st db :
  exists msg st' db',
    views._auto_promote_student st db = Return ((msg, st'), db')
    /\ same_records db db'
    /\ Student.id st' = Student.id st
    /\ Student.level st' = Student.level st
    /\ Student.school_class st' = Student.school_class st
    /\ (msg = None -> st' = st).
Proof.
  destruct (Student.is_graduated st) eqn:Hg.
  - exists None, st, db. rewrite (graduated_is_left_alone st db Hg).
    repeat split. all: try apply incl_refl.
  - destruct (auto_promote_flow st db Hg) as (db1 & Hs1 & H). cbv zeta in H.
    destruct (evaluable (resolved_subjects st db)
              && scores_ok db st (resolved_subjects st db)).
    2:{ exists None, st, db1. rewrite H. repeat split; apply Hs1. }
    destruct (current_ordinal st) as [n |]; [| contradiction].
    destruct (ceiling st <=? n).
    { eexists _, _, db1. rewrite H. split; [reflexivity |].
      split; [exact Hs1 |]. repeat split. discriminate. }
    destruct H as (db2 & Hs2 & H).
    destruct (upper (effective_level_code st)); destruct H as [H _];
      eexists _, _, db2; rewrite H; (split; [reflexivity |]);
      (split; [exact Hs2 |]); repeat split; discriminate.
Qed.

Lemma latest_semester_after_advance st s :
  latest_semester (Student.set_is_graduated false (Student.set_semesters [s] st)) = Some s.
Proof. reflexivity. Qed.

Lemma latest_period_after_advance st p :
  latest_period (Student.set_is_graduated false (Student.set_periods [p] st)) = Some p.
Proof. reflexivity. Qed.

Lemma effective_level_code_upper_advance st s :
  upper (effective_level_code st) = true ->
  effective_level_code (Student.set_is_graduated false (Student.set_semesters [s] st))
  = effective_level_code st.
Proof.
  unfold effective_level_code.
  change (own_or_class_level (Student.set_is_graduated false (Student.set_semesters [s] st)))
    with (own_or_class_level st).
  rewrite latest_semester_after_advance.
  change (latest_period (Student.set_is_graduated false (Student.set_semesters [s] st)))
    with (latest_period st).
  destruct (own_or_class_level st); [reflexivity |].
  destruct (latest_semester st), (latest_period st); simpl; intros H;
    (reflexivity || discriminate).
Qed.

Lemma effective_level_code_lower_advance st p :
  upper (effective_level_code st) = false ->
  middle_or_lower (effective_level_code st) = true ->
  effective_level_code (Student.set_is_graduated false (Student.set_periods [p] st))
  = effective_level_code st.
Proof.
  unfold effective_level_code.
  change (own_or_class_level (Student.set_is_graduated false (Student.set_periods [p] st)))
    with (own_or_class_level st).
  rewrite latest_period_after_advance.
  change (latest_semester (Student.set_is_graduated false (Student.set_periods [p] st)))
    with (latest_semester st).
  destruct (own_or_class_level st); [reflexivity |].
  destruct (latest_semester st), (latest_period st); simpl; intros H1 H2;
    (reflexivity || discriminate).
Qed.

(** X11. A promotion moves one term at most: whenever [_auto_promote_student]
    reports something, the learner was not graduated and had a current term
    [n]; either [n] is at the ceiling of the level and the learner is now
    graduated with the markers as they were, or [n] is below it and the
    learner's current term is now [n + 1] of the same level, still within the
    ceiling.  No term is skipped, and none past the ceiling is entered. *)
Theorem promotion_moves_one_term st db msg st' db' :
  views._auto_promote_student st db = Return ((Some msg, st'), db') ->
  Student.is_graduated st = false
  /\ exists n,
       current_ordinal st = Some n
       /\ ((ceiling st <= n /\ msg = msg_graduated
            /\ st' = Student.set_is_graduated true st)
           \/ (n < ceiling st
               /\ (msg = msg_semester (n + 1) \/ msg = msg_period (n + 1))
               /\ Student.is_graduated st' = false
               /\ effective_level_code st' = effective_level_code st
               /\ current_ordinal st' = Some (n + 1)
               /\ n + 1 <= ceiling st')).
Proof.
  intros Hrun.
  destruct (Student.is_graduated st) eqn:Hg.
  { rewrite (graduated_is_left_alone st db Hg) in Hrun. discriminate. }
  split; [reflexivity |].
  destruct (auto_promote_flow st db Hg) as (db1 & Hs1 & H). cbv zeta in H.
  destruct (evaluable (resolved_subjects st db)
            && scores_ok db st (resolved_subjects st db)).
  2:{ rewrite H in Hrun. discriminate. }
  destruct (current_ordinal st) as [n |] eqn:Hn; [| contradiction].
  exists n. split; [reflexivity |].
  destruct (ceiling st <=? n) eqn:Hc.
  { left. rewrite H in Hrun. injection Hrun as <- <- _.
    apply Z.leb_le in Hc. auto. }
  right. apply Z.leb_gt in Hc. split; [exact Hc |].
  destruct H as (db2 & Hs2 & H).
  unfold current_ordinal in Hn. unfold ceiling in *.
  destruct (upper (effective_level_code st)) eqn:Hup; destruct H as [H _];
    rewrite H in Hrun; injection Hrun as <- <- _.
  - split; [now left |]. split; [reflexivity |].
    pose proof (effective_level_code_upper_advance st (Semester.mk (n + 1)) Hup) as Hcode.
    split; [exact Hcode |]. unfold current_ordinal. rewrite Hcode, Hup.
    rewrite latest_semester_after_advance. split; [reflexivity | lia].
  - destruct (middle_or_lower (effective_level_code st)) eqn:Hml; [| discriminate].
    split; [now right |]. split; [reflexivity |].
    pose proof (effective_level_code_lower_advance st (CoursePeriod.mk (n + 1)) Hup Hml)
      as Hcode.
    split; [exact Hcode |]. unfold current_ordinal. rewrite Hcode, Hup, Hml.
    rewrite latest_period_after_advance. split; [reflexivity | lia].
Qed.

Lemma promotion_moves_one_term_witness :
  Student.is_graduated (learner (Some aali) false [2] []) = false
  /\ exists n,
       current_ordinal (learner (Some aali) false [2] []) = Some n
       /\ ((ceiling (learner (Some aali) false [2] []) <= n
            /\ msg_semester 3 = msg_graduated
            /\ learner (Some aali) false [3] []
               = Student.set_is_graduated true (learner (Some aali) false [2] []))
           \/ (n < ceiling (learner (Some aali) false [2] [])
               /\ (msg_semester 3 = msg_semester (n + 1)
                   \/ msg_semester 3 = msg_period (n + 1))
               /\ Student.is_graduated (learner (Some aali) false [3] []) = false
               /\ effective_level_code (learner (Some aali) false [3] [])
                  = effective_level_code (learner (Some aali) false [2] [])
               /\ current_ordinal (learner (Some aali) false [3] []) = Some (n + 1)
               /\ n + 1 <= ceiling (learner (Some aali) false [3] []))).
Proof.
  apply (promotion_moves_one_term (learner (Some aali) false [2] []) (sample_db 50)
           (msg_semester 3) (learner (Some aali) false [3] [])
           (mkDB [aali; moteseta; ebtedai] (map Semester.mk [1; 2; 3; 4])
              (map CoursePeriod.mk [1; 2; 3; 4; 5; 6]) sample_subjects (sample_scores 50))).
  vm_compute. reflexivity.
Defined.

(** X12. Graduation is final for the automatic promotion: the learner it has
    just graduated carries the flag, and evaluating that learner again, on
    whatever tables, reports nothing and changes nothing. *)
Theorem graduation_is_final st db st' db' :
  views._auto_promote_student st db = Return ((Some msg_graduated, st'), db') ->
  Student.is_graduated st' = true
  /\ forall db2, views._auto_promote_student st' db2 = Return ((None, st'), db2).
Proof.
  intros Hrun.
  assert (Hst : st' = Student.set_is_graduated true st).
  { destruct (Student.is_graduated st) eqn:Hg.
    { rewrite (graduated_is_left_alone st db Hg) in Hrun. discriminate. }
    destruct (auto_promote_flow st db Hg) as (db1 & Hs1 & H). cbv zeta in H.
    destruct (evaluable (resolved_subjects st db)
              && scores_ok db st (resolved_subjects st db)).
    2:{ rewrite H in Hrun. discriminate. }
    destruct (current_ordinal st) as [n |]; [| contradiction].
    destruct (ceiling st <=? n).
    { rewrite H in Hrun. now injection Hrun as <- _. }
    destruct H as (db2 & Hs2 & H).
    destruct (upper (effective_level_code st)); destruct H as [H _];
      rewrite H in Hrun; discriminate. }
  subst st'. split; [reflexivity |]. intros db2.
  apply graduated_is_left_alone. reflexivity.
Qed.

Lemma graduation_is_final_witness :
  Student.is_graduated (learner (Some ebtedai) true [] [6]) = true
  /\ forall db2,
       views._auto_promote_student (learner (Some ebtedai) true [] [6]) db2
       = Return ((None, learner (Some ebtedai) true [] [6]), db2).
Proof.
  apply (graduation_is_final (learner (Some ebtedai) false [] [6]) (sample_db 50)
           (learner (Some ebtedai) true [] [6])
           (mkDB [aali; moteseta; ebtedai] (map Semester.mk [1; 2; 3; 4])
              (map CoursePeriod.mk [1; 2; 3; 4; 5; 6]) sample_subjects (sample_scores 50))).
  vm_compute. reflexivity.
Defined.

(** ** The crossover check and the crossover *)

Lemma reference_levels_get :
  views.level_map_get reference_levels "aali" = Some (StudyLevel.mk "aali" "عالی")
  /\ views.level_map_get reference_levels "moteseta"
     = Some (StudyLevel.mk "moteseta" "متوسطه")
  /\ views.level_map_get reference_levels "ebtedai"
     = Some (StudyLevel.mk "ebtedai" "ابتداییه").
Proof. repeat split. Qed.

(** One run of [_can_graduate_ebtedai], in full. *)
Lemma can_graduate_run st db :
  exists db',
    views._can_graduate_ebtedai st db
    = Return ((crossover_condition st db,
               if String.eqb (crossover_level_code st) "ebtedai" then latest_period st
               else None), db')
    /\ same_records db db'.
Proof.
  unfold views._can_graduate_ebtedai.
  destruct (ensure_reference_data_run db) as (db1 & He & _ & Hs & _).
  rewrite (bind_return _ _ _ _ _ He).
  destruct reference_levels_get as (_ & _ & ->).
  fold (own_or_class_level st). fold (latest_period st).
  exists db1. split; [| exact Hs].
  unfold crossover_condition, crossover_level_code.
  assert (Hgen : forall l : StudyLevel.t,
            (if negb (String.eqb (StudyLevel.code l) "ebtedai") then ret (false, None)
             else
               match latest_period st with
               | None => ret (false, latest_period st)
               | Some per =>
                   if negb (CoursePeriod.number per =? 6) then ret (false, latest_period st)
                   else
                     subjects <- views.query (fun db0 =>
                       order_by_id
                         (filter (level_or_null l)
                            (filter (period_is per) (Subject_objects db0)))) ;;
                     if negb (0 <? Z.of_nat (List.length subjects))
                     then ret (false, latest_period st)
                     else
                       scores_qs <- views.query (scores_of st subjects) ;;
                       if (List.length scores_qs <? List.length subjects)%nat
                       then ret (false, latest_period st)
                       else if existsb score_isnull scores_qs then ret (false, latest_period st)
                       else if existsb (score_lt 50) scores_qs
                            then ret (false, latest_period st)
                            else ret (true, latest_period st)
               end) db1
            = Return
                ((String.eqb (StudyLevel.code l) "ebtedai"
                  && match latest_period st with
                     | Some per =>
                         (CoursePeriod.number per =? 6)
                         && (evaluable
                               (order_by_id
                                  (filter (subject_applies "ebtedai")
                                     (filter (period_is per) (Subject_objects db))))
                             && scores_ok db st
                                  (order_by_id
                                     (filter (subject_applies "ebtedai")
                                        (filter (period_is per) (Subject_objects db)))))
                     | None => false
                     end,
                  if String.eqb (StudyLevel.code l) "ebtedai" then latest_period st else None),
                 db1)).
  { intros l. destruct (String.eqb (StudyLevel.code l) "ebtedai") eqn:Hcode;
      [| reflexivity].
    apply String.eqb_eq in Hcode. cbv beta iota delta [negb andb].
    destruct (latest_period st) as [per |]; [| reflexivity].
    destruct (CoursePeriod.number per =? 6); [| reflexivity].
    cbv beta iota delta [negb andb].
    unfold bind at 1. unfold views.query at 1. cbv beta iota.
    change (level_or_null l) with (subject_applies (StudyLevel.code l)).
    destruct Hs as (Hsub & Hsc & _). rewrite Hsub, Hcode, evaluable_length.
    set (subs := order_by_id _).
    destruct (evaluable subs); [| reflexivity]. cbv beta iota delta [negb andb].
    unfold bind at 1. unfold views.query at 1. cbv beta iota.
    assert (Hsame : scores_of st subs db1 = scores_of st subs db).
    { unfold scores_of. now rewrite Hsc. }
    rewrite Hsame, <- scores_ok_tests.
    destruct (List.length (scores_of st subs db) <? List.length subs)%nat; [reflexivity |].
    destruct (existsb score_isnull (scores_of st subs db)); [reflexivity |].
    destruct (existsb (score_lt 50) (scores_of st subs db)); reflexivity. }
  destruct (own_or_class_level st) as [l |]; [apply Hgen |].
  apply (Hgen (StudyLevel.mk "ebtedai" "ابتداییه")).
Qed.

Lemma eligible_is_condition st db :
  is_eligible_for_crossover st db = crossover_condition st db.
Proof.
  unfold is_eligible_for_crossover.
  destruct (can_graduate_run st db) as (db' & -> & _). reflexivity.
Qed.

(** One run of [student_promote_to_moteseta], in full. *)
Lemma promote_to_moteseta_run st db :
  exists db',
    views.student_promote_to_moteseta st db
    = Return (if crossover_condition st db then (success_promoted, crossed st)
              else (error_not_eligible, st), db')
    /\ same_records db db'
    /\ (crossover_condition st db = true -> In (CoursePeriod.mk 1) (CoursePeriod_objects db')).
Proof.
  unfold views.student_promote_to_moteseta.
  destruct (can_graduate_run st db) as (db1 & Hcan & Hs1).
  rewrite (bind_return _ _ _ _ _ Hcan). cbv beta iota.
  destruct (crossover_condition st db).
  2:{ exists db1. split; [reflexivity |]. split; [exact Hs1 | discriminate]. }
  cbv beta iota delta [negb].
  destruct (ensure_reference_data_run db1) as (db2 & He & _ & Hs2 & _).
  rewrite (bind_return _ _ _ _ _ He).
  destruct reference_levels_get as (_ & -> & _).
  destruct (next_period_spec
              (fun next_period =>
                 (success_promoted,
                  Student.set_semesters []
                    (Student.set_periods [next_period]
                       (Student.set_is_graduated false
                          (Student.set_school_class None
                             (Student.set_level
                                (Some (StudyLevel.mk "moteseta" "متوسطه")) st))))))
              1 db2) as (db3 & Heq & Hs3 & Hin).
  exists db3. split; [exact Heq |]. split; [| intros _; exact Hin].
  eapply same_records_trans; [exact Hs1 |]. eapply same_records_trans; eassumption.
Qed.


(** X14. For a learner of the lower level in Period 6 who is not graduated,
    the crossover check holds exactly when the automatic promotion graduates
    the learner: the two functions apply the same test. *)
Theorem crossover_check_agrees_with_graduation st db l per :
  own_or_class_level st = Some l -> StudyLevel.code l = "ebtedai"%string ->
  latest_period st = Some per -> CoursePeriod.number per = 6 ->
  Student.is_graduated st = false ->
  is_eligible_for_crossover st db = true
  <-> exists db',
        views._auto_promote_student st db
        = Return ((Some msg_graduated, Student.set_is_graduated true st), db').
Proof.
  intros Hl Hcode Hper Hsix Hg. rewrite eligible_is_condition.
  unfold crossover_condition, crossover_level_code.
  rewrite Hl, Hcode, Hper, Hsix. cbn [String.eqb Ascii.eqb Bool.eqb andb Z.eqb Pos.eqb].
  destruct (auto_promote_flow st db Hg) as (db1 & Hs1 & H). cbv zeta in H.
  unfold resolved_subjects, current_ordinal, ceiling, effective_level_code in H.
  rewrite Hl, Hcode, Hper in H. cbn [upper middle_or_lower String.eqb Ascii.eqb Bool.eqb orb
                                      option_map] in H.
  rewrite Hsix in H.
  set (subs := order_by_id _) in *.
  destruct (evaluable subs && scores_ok db st subs).
  - change (6 <=? 6) with true in H. cbv iota in H.
    split; [intros _; exists db1; exact H | reflexivity].
  - split; [discriminate |]. intros (db' & H'). rewrite H in H'. discriminate.
Qed.

Lemma crossover_check_agrees_with_graduation_witness :
  is_eligible_for_crossover (learner (Some ebtedai) false [] [6]) (sample_db 50) = true
  <-> exists db',
        views._auto_promote_student (learner (Some ebtedai) false [] [6]) (sample_db 50)
        = Return ((Some msg_graduated,
                   Student.set_is_graduated true (learner (Some ebtedai) false [] [6])), db').
Proof.
  apply (crossover_check_agrees_with_graduation (learner (Some ebtedai) false [] [6])
           (sample_db 50) ebtedai (CoursePeriod.mk 6)); reflexivity.
Defined.

(** X15. [student_promote_to_moteseta] never raises and never answers that the
    middle level is not defined; it keeps the subjects and the scores; it
    succeeds exactly when the check holds, and a learner it refuses is left as
    it was. *)
Theorem crossover_outcomes st db :
  exists answer st' db',
    views.student_promote_to_moteseta st db = Return ((answer, st'), db')
    /\ same_records db db'
    /\ answer <> error_no_moteseta
    /\ (answer = success_promoted <-> is_eligible_for_crossover st db = true)
    /\ (is_eligible_for_crossover st db = false ->
        answer = error_not_eligible /\ st' = st).
Proof.
  destruct (promote_to_moteseta_run st db) as (db' & Hrun & Hs & _).
  rewrite eligible_is_condition.
  destruct (crossover_condition st db); eexists _, _, db';
    (split; [exact Hrun |]); (split; [exact Hs |]);
    (split; [discriminate |]); split; try (split; (reflexivity || discriminate));
    try discriminate.
Qed.

(** X16. The crossover is one way: the learner it leaves is of the middle
    level in Period 1, is not eligible for the crossover any more whatever the
    tables hold, and asking again is refused and changes nothing. *)
Theorem crossover_is_one_way st db st' db' :
  views.student_promote_to_moteseta st db = Return ((success_promoted, st'), db') ->
  effective_level_code st' = "moteseta"%string
  /\ current_ordinal st' = Some 1
  /\ forall db2,
       is_eligible_for_crossover st' db2 = false
       /\ exists db3,
            views.student_promote_to_moteseta st' db2
            = Return ((error_not_eligible, st'), db3).
Proof.
  intros Hrun.
  destruct (promote_to_moteseta_run st db) as (db1 & Hrun1 & _).
  rewrite Hrun1 in Hrun.
  destruct (crossover_condition st db); [| discriminate].
  injection Hrun as <- _.
  split; [reflexivity |]. split; [reflexivity |]. intros db2.
  assert (Hno : crossover_condition (crossed st) db2 = false) by reflexivity.
  split; [rewrite eligible_is_condition; exact Hno |].
  destruct (promote_to_moteseta_run (crossed st) db2) as (db3 & Hrun3 & _).
  rewrite Hno in Hrun3. exists db3. exact Hrun3.
Qed.

Lemma crossover_is_one_way_witness :
  effective_level_code (crossed (learner (Some ebtedai) true [1] [6])) = "moteseta"%string
  /\ current_ordinal (crossed (learner (Some ebtedai) true [1] [6])) = Some 1
  /\ forall db2,
       is_eligible_for_crossover (crossed (learner (Some ebtedai) true [1] [6])) db2 = false
       /\ exists db3,
            views.student_promote_to_moteseta (crossed (learner (Some ebtedai) true [1] [6])) db2
            = Return ((error_not_eligible, crossed (learner (Some ebtedai) true [1] [6])), db3).
Proof.
  apply (crossover_is_one_way (learner (Some ebtedai) true [1] [6]) (sample_db 50)
           (crossed (learner (Some ebtedai) true [1] [6]))
           (mkDB [aali; moteseta; ebtedai] (map Semester.mk [1; 2; 3; 4])
              (map CoursePeriod.mk [1; 2; 3; 4; 5; 6]) sample_subjects (sample_scores 50))).
  vm_compute. reflexivity.
Defined.

(** ** The certificate *)

(** Past the year 1600 the converter of [views.py] is the one of
    [forms.py]. *)
Lemma views_converter_is_forms_converter gy gm gd :
  1600 < gy ->
  views._gregorian_to_jalali gy gm gd = forms._gregorian_to_jalali gy gm gd.
Proof.
  intros Hgy.
  rewrite (views_gregorian_to_jalali_split gy gm gd Hgy), forms_gregorian_to_jalali_split.
  destruct (py_getitem g_d_m (gm - 1)) as [off | e]; [| reflexivity].
  cbn [pybind]. apply f_equal.
  transitivity (shift_year (33 * 78)
                  (jalali_of_days (-1595) (gregorian_days gy gm gd off - 940134))).
  - apply (jalali_of_days_base (-1595) (33 * 78)).
  - rewrite <- jalali_of_days_period. f_equal. ring.
Qed.

(** X25. The certificate goes with the crossover.  For a current date of the
    years 1601..9999, [student_certificate_print] never raises and keeps the
    tables' records; it shows the page exactly when
    [student_promote_to_moteseta] would succeed for the learner, and refuses
    otherwise; the page names Period 6 and carries the current date as the
    text the forms show for that date. *)
Theorem certificate_goes_with_crossover st today db :
  valid_date (datetime.year today) (datetime.month today) (datetime.day today) = true ->
  1600 < datetime.year today ->
  exists answer db',
    student_certificate_print st today db = Return (answer, db')
    /\ same_records db db'
    /\ (answer = certificate_refused <-> is_eligible_for_crossover st db = false)
    /\ (answer <> certificate_refused
        <-> exists st' db2,
              views.student_promote_to_moteseta st db
              = Return ((success_promoted, st'), db2))
    /\ (forall s per text, answer = certificate_page s per text ->
          s = st
          /\ option_map CoursePeriod.number per = Some 6
          /\ StudentForm.__init__ (Some today) = Return (Some text)).
Proof.
  intros Hvd Hy. destruct (valid_date_year _ _ _ Hvd) as [_ Hv].
  destruct (gregorian_to_jalali_valid _ _ _ Hv) as (jy & jm & jd & Hg & _).
  unfold student_certificate_print.
  destruct (can_graduate_run st db) as (db1 & Hcan & Hs1).
  rewrite (bind_return _ _ _ _ _ Hcan). cbv beta iota.
  destruct (promote_to_moteseta_run st db) as (db2 & Hrun2 & _).
  rewrite eligible_is_condition.
  destruct (crossover_condition st db) eqn:Hcond; cbn [negb].
  - rewrite (views_converter_is_forms_converter _ _ _ Hy), Hg. cbn [pybind].
    eexists _, db1. split; [reflexivity |]. split; [exact Hs1 |].
    split; [split; discriminate |]. split.
    { split; [intros _; eexists _, db2; exact Hrun2 | discriminate]. }
    intros s per text H. injection H as <- <- <-. split; [reflexivity |].
    unfold crossover_condition in Hcond.
    apply andb_true_iff in Hcond as [Hcode Hper]. rewrite Hcode.
    destruct (latest_period st) as [p |]; [| discriminate].
    apply andb_true_iff in Hper as [Hsix _]. apply Z.eqb_eq in Hsix.
    split; [simpl; now rewrite Hsix |].
    unfold StudentForm.__init__. rewrite Hg. reflexivity.
  - exists certificate_refused, db1. split; [reflexivity |]. split; [exact Hs1 |].
    split; [split; reflexivity |]. split.
    { split; [intros H; now elim H |]. intros (st' & db3 & H). rewrite Hrun2 in H.
      discriminate. }
    discriminate.
Qed.

Lemma certificate_goes_with_crossover_witness :
  exists answer db',
    student_certificate_print (learner (Some ebtedai) true [] [6])
      (datetime.mk_date 2024 3 20) (sample_db 50) = Return (answer, db')
    /\ same_records (sample_db 50) db'
    /\ (answer = certificate_refused
        <-> is_eligible_for_crossover (learner (Some ebtedai) true [] [6]) (sample_db 50)
            = false)
    /\ (answer <> certificate_refused
        <-> exists st' db2,
              views.student_promote_to_moteseta (learner (Some ebtedai) true [] [6])
                (sample_db 50)
              = Return ((success_promoted, st'), db2))
    /\ (forall s per text, answer = certificate_page s per text ->
          s = learner (Some ebtedai) true [] [6]
          /\ option_map CoursePeriod.number per = Some 6
          /\ StudentForm.__init__ (Some (datetime.mk_date 2024 3 20)) = Return (Some text)).
Proof.
  apply (certificate_goes_with_crossover (learner (Some ebtedai) true [] [6])
           (datetime.mk_date 2024 3 20) (sample_db 50)); [reflexivity | simpl; lia].
Defined.

(** ** Entering scores *)

Lemma matches_key st sub_id r :
  grade_entry.matches st sub_id r = true <-> score_key r = (Student.id st, sub_id).
Proof.
  unfold grade_entry.matches, score_key. rewrite andb_true_iff, !Z.eqb_eq.
  split; [intros [-> ->]; reflexivity | intros H; injection H; auto].
Qed.

(** Among rows of distinct keys one at most has a given key. *)
Lemma one_row_per_key st sub_id (rows : list StudentScore.t) :
  NoDup (map score_key rows) ->
  (List.length (filter (grade_entry.matches st sub_id) rows) <= 1)%nat.
Proof.
  induction rows as [| r rows IH]; intros Hnd; simpl; [lia |].
  inversion Hnd as [| ? ? Hfresh Hrest]; subst.
  destruct (grade_entry.matches st sub_id r) eqn:Hr; [| auto].
  simpl. apply matches_key in Hr.
  destruct (filter (grade_entry.matches st sub_id) rows) as [| r' ?] eqn:Hf; [simpl; lia |].
  exfalso. apply Hfresh.
  assert (Hin : In r' (filter (grade_entry.matches st sub_id) rows))
    by (rewrite Hf; now left).
  apply filter_In in Hin as [Hin Hk]. apply matches_key in Hk.
  rewrite Hr, <- Hk. now apply in_map.
Qed.

Lemma no_row_no_key st sub_id (rows : list StudentScore.t) :
  filter (grade_entry.matches st sub_id) rows = [] ->
  ~ In (Student.id st, sub_id) (map score_key rows).
Proof.
  intros Hf Hin. apply in_map_iff in Hin as (r & Hk & Hin).
  assert (H : In r (filter (grade_entry.matches st sub_id) rows)).
  { apply filter_In. split; [exact Hin |]. now apply matches_key. }
  rewrite Hf in H. contradiction.
Qed.

Lemma keys_distinct_with_new (rows : list StudentScore.t) (obj : StudentScore.t) :
  NoDup (map score_key rows) -> ~ In (score_key obj) (map score_key rows) ->
  NoDup (map score_key (rows ++ [obj])).
Proof.
  intros Hnd Hfresh. rewrite map_app. simpl.
  apply (Permutation_NoDup (l := score_key obj :: map score_key rows)).
  - apply Permutation_cons_append.
  - now constructor.
Qed.

Lemma keys_after_update st sub_id obj (rows : list StudentScore.t) :
  score_key obj = (Student.id st, sub_id) ->
  map score_key (map (fun r => if grade_entry.matches st sub_id r then obj else r) rows)
  = map score_key rows.
Proof.
  intros Hobj. rewrite map_map. apply map_ext. intros r.
  destruct (grade_entry.matches st sub_id r) eqn:Hr; [| reflexivity].
  apply matches_key in Hr. congruence.
Qed.

Lemma filter_after_update (keep : StudentScore.t -> bool) st sub_id obj
      (rows : list StudentScore.t) :
  (forall r, grade_entry.matches st sub_id r = true -> keep r = false) ->
  keep obj = false ->
  filter keep (map (fun r => if grade_entry.matches st sub_id r then obj else r) rows)
  = filter keep rows.
Proof.
  intros Hm Hobj. induction rows as [| r rows IH]; simpl; [reflexivity |].
  destruct (grade_entry.matches st sub_id r) eqn:Hr.
  - rewrite Hobj, (Hm r Hr). exact IH.
  - destruct (keep r); [f_equal |]; exact IH.
Qed.

Lemma filter_one_after_update st sub_id obj (rows : list StudentScore.t) r0 :
  grade_entry.matches st sub_id obj = true ->
  filter (grade_entry.matches st sub_id) rows = [r0] ->
  filter (grade_entry.matches st sub_id)
    (map (fun r => if grade_entry.matches st sub_id r then obj else r) rows) = [obj].
Proof.
  intros Hobj. revert r0. induction rows as [| r rows IH]; intros r0; simpl; [discriminate |].
  destruct (grade_entry.matches st sub_id r) eqn:Hr.
  - rewrite Hobj. intros H. injection H as _ H. f_equal.
    clear IH. induction rows as [| x rows IH]; simpl in *; [reflexivity |].
    destruct (grade_entry.matches st sub_id x) eqn:Hx; [discriminate |].
    rewrite Hx. apply IH, H.
  - rewrite Hr. apply IH.
Qed.

(** One run of [update_or_create] on tables with one row per learner and
    subject at most. *)
Lemma update_or_create_run st sub_id v db :
  scores_unique db ->
  let obj := StudentScore.mk (Student.id st) sub_id v in
  exists flag db',
    grade_entry.update_or_create st sub_id v db = Return ((obj, flag), db')
    /\ (flag = true <-> filter (grade_entry.matches st sub_id) (StudentScore_objects db) = [])
    /\ scores_unique db'
    /\ db' = with_scores (StudentScore_objects db') db
    /\ filter (grade_entry.matches st sub_id) (StudentScore_objects db') = [obj]
    /\ (forall keep : StudentScore.t -> bool,
          (forall r, grade_entry.matches st sub_id r = true -> keep r = false) ->
          filter keep (StudentScore_objects db') = filter keep (StudentScore_objects db))
    /\ incl (map score_key (StudentScore_objects db))
         (map score_key (StudentScore_objects db'))
    /\ (forall r, In r (StudentScore_objects db') -> In r (StudentScore_objects db) \/ r = obj).
Proof.
  intros Hu obj.
  assert (Hobj : grade_entry.matches st sub_id obj = true).
  { unfold grade_entry.matches, obj. simpl. now rewrite !Z.eqb_refl. }
  pose proof (one_row_per_key st sub_id _ Hu) as Hone.
  unfold grade_entry.update_or_create. fold obj.
  destruct (filter (grade_entry.matches st sub_id) (StudentScore_objects db))
    as [| r0 [| r1 more]] eqn:Hf.
  - exists true. eexists. split; [reflexivity |]. split; [tauto |].
    split.
    { unfold scores_unique. simpl. apply keys_distinct_with_new; [exact Hu |].
      apply no_row_no_key. exact Hf. }
    split; [reflexivity |]. simpl StudentScore_objects.
    split; [rewrite filter_app, Hf; simpl; now rewrite Hobj |].
    split.
    { intros keep Hk. rewrite filter_app. simpl. rewrite (Hk obj Hobj). apply app_nil_r. }
    split; [rewrite map_app; apply incl_appl, incl_refl |].
    intros r Hr. apply in_app_iff in Hr as [Hr | [Hr | []]]; auto.
  - exists false. eexists. split; [reflexivity |]. split; [split; discriminate |].
    split.
    { unfold scores_unique. simpl. rewrite keys_after_update; [exact Hu |].
      now apply matches_key. }
    split; [reflexivity |]. simpl StudentScore_objects.
    split; [eapply filter_one_after_update; eassumption |].
    split.
    { intros keep Hk. apply filter_after_update; [exact Hk | exact (Hk obj Hobj)]. }
    split.
    { rewrite keys_after_update; [apply incl_refl | now apply matches_key]. }
    intros r Hr. apply in_map_iff in Hr as (x & Hx & Hin).
    destruct (grade_entry.matches st sub_id x); [right; congruence | left; congruence].
  - simpl in Hone. lia.
Qed.

Lemma records_are_matches db st s :
  records db st s = filter (grade_entry.matches st (Subject.id s)) (StudentScore_objects db).
Proof. reflexivity. Qed.

(** X17. Saving a score and reading it back: on tables with one row per
    learner and subject at most, [update_or_create] never raises; afterwards
    the learner's record for the subject is the one score just given, the
    records of every other learner and subject are as before, the rows still
    have distinct keys, and the subject counts as passed exactly when the
    score is 50 or more.  It reports a creation exactly when there was no
    record. *)
Theorem saved_score_is_read_back st s v db :
  scores_unique db ->
  exists flag db',
    grade_entry.update_or_create st (Subject.id s) v db
    = Return ((StudentScore.mk (Student.id st) (Subject.id s) v, flag), db')
    /\ (flag = true <-> records db st s = [])
    /\ records db' st s = [StudentScore.mk (Student.id st) (Subject.id s) v]
    /\ (forall st2 s2,
          (Student.id st2, Subject.id s2) <> (Student.id st, Subject.id s) ->
          records db' st2 s2 = records db st2 s2)
    /\ scores_unique db'
    /\ Subject_objects db' = Subject_objects db
    /\ passed db' st s = match v with
                         | Some x => 50 <=? x
                         | None => false
                         end.
Proof.
  intros Hu.
  destruct (update_or_create_run st (Subject.id s) v db Hu)
    as (flag & db' & Hrun & Hflag & Hu' & Hdb & Hone & Hrest & _).
  exists flag, db'. split; [exact Hrun |]. split; [exact Hflag |].
  split; [exact Hone |]. split; [| split; [exact Hu' |]; split].
  - intros st2 s2 Hne. rewrite !records_are_matches. apply Hrest.
    intros r Hr. apply matches_key in Hr.
    destruct (grade_entry.matches st2 (Subject.id s2) r) eqn:Hr2; [| reflexivity].
    apply matches_key in Hr2. congruence.
  - rewrite Hdb. reflexivity.
  - unfold passed. rewrite records_are_matches, Hone. simpl.
    destruct v; simpl; [apply andb_true_r | reflexivity].
Qed.

Lemma saved_score_is_read_back_witness :
  exists flag db',
    grade_entry.update_or_create (learner (Some aali) false [2] []) 2 (Some 50) (sample_db 49)
    = Return ((StudentScore.mk 7 2 (Some 50), flag), db')
    /\ (flag = true
        <-> records (sample_db 49) (learner (Some aali) false [2] [])
              (Subject.mk 2 None (Some 2) None) = [])
    /\ records db' (learner (Some aali) false [2] []) (Subject.mk 2 None (Some 2) None)
       = [StudentScore.mk 7 2 (Some 50)]
    /\ (forall st2 s2,
          (Student.id st2, Subject.id s2) <> (7, 2) ->
          records db' st2 s2 = records (sample_db 49) st2 s2)
    /\ scores_unique db'
    /\ Subject_objects db' = Subject_objects (sample_db 49)
    /\ passed db' (learner (Some aali) false [2] []) (Subject.mk 2 None (Some 2) None)
       = (50 <=? 50).
Proof.
  apply (saved_score_is_read_back (learner (Some aali) false [2] [])
           (Subject.mk 2 None (Some 2) None) (Some 50) (sample_db 49)).
  unfold scores_unique. simpl. distinct.
Defined.

Lemma score_at_in_range (int : str -> pyresult Z) scores idx v :
  grade_entry.score_at int scores idx = Some v ->
  match v with
  | None => True
  | Some x => 0 <= x <= 100
  end.
Proof.
  unfold grade_entry.score_at.
  destruct (nth_error scores idx) as [raw |]; [| intros H; now injection H as <-].
  destruct (strip raw) as [| c val]; [intros H; now injection H as <- |].
  destruct (int (c :: val)) as [x | e]; [| discriminate].
  destruct ((x <? 0) || (x >? 100)) eqn:Hx; [discriminate |].
  intros H. injection H as <-.
  apply orb_false_iff in Hx as [H1 H2]. apply Z.ltb_ge in H1. rewrite Z.gtb_ltb in H2.
  apply Z.ltb_ge in H2. lia.
Qed.

Lemma with_scores_twice v w db : with_scores v (with_scores w db) = with_scores v db.
Proof. reflexivity. Qed.

Lemma saved_from_refl st db : scores_unique db -> saved_from st db db.
Proof.
  intros Hu. split; [now destruct db |]. split; [exact Hu |].
  split; [reflexivity |]. split; [apply incl_refl |]. auto.
Qed.

Lemma saved_from_step (int : str -> pyresult Z) st db0 db db1 sub_id v s scores idx :
  saved_from st db0 db ->
  grade_entry.score_at int scores idx = Some v ->
  find (fun s => Subject.id s =? sub_id) (Subject_objects db) = Some s ->
  db1 = with_scores (StudentScore_objects db1) db ->
  scores_unique db1 ->
  (forall keep : StudentScore.t -> bool,
     (forall r, grade_entry.matches st sub_id r = true -> keep r = false) ->
     filter keep (StudentScore_objects db1) = filter keep (StudentScore_objects db)) ->
  incl (map score_key (StudentScore_objects db)) (map score_key (StudentScore_objects db1)) ->
  (forall r, In r (StudentScore_objects db1) ->
     In r (StudentScore_objects db) \/ r = StudentScore.mk (Student.id st) sub_id v) ->
  saved_from st db0 db1.
Proof.
  intros (Hdb & Hu & Hother & Hkeys & Hrows) Hscore Hfind Hdb1 Hu1 Hrest Hkeys1 Hrows1.
  split; [rewrite Hdb1, Hdb; apply with_scores_twice |]. split; [exact Hu1 |].
  split; [| split].
  - rewrite <- Hother. apply Hrest. intros r Hr. unfold of_student.
    unfold grade_entry.matches in Hr. apply andb_true_iff in Hr as [-> _]. reflexivity.
  - eapply incl_tran; eassumption.
  - intros r Hr. destruct (Hrows1 r Hr) as [Hin | ->]; [now apply Hrows |].
    right. split; [unfold of_student; simpl; apply Z.eqb_refl |]. split.
    + unfold score_in_range. simpl. pose proof (score_at_in_range _ _ _ _ Hscore) as Hv.
      destruct v as [x |]; [| reflexivity].
      apply andb_true_iff. split; apply Z.leb_le; lia.
    + apply find_some in Hfind as [Hin Hid]. apply Z.eqb_eq in Hid.
      exists s. split; [| exact Hid]. rewrite Hdb in Hin. exact Hin.
Qed.

(** One run of the loop, from any entry on. *)
Lemma save_scores_run (int : str -> pyresult Z) st scores db0 :
  raises_value_error_only int ->
  forall subject_ids idx t db,
    saved_from st db0 db ->
    exists t' db',
      grade_entry.save_scores int st scores idx subject_ids t db = Return (t', db')
      /\ saved_from st db0 db'
      /\ created t' + updated t' + errors t'
         = created t + updated t + errors t + Z.of_nat (List.length subject_ids)
      /\ created t <= created t' /\ updated t <= updated t' /\ errors t <= errors t'
      /\ Z.of_nat (List.length (saved_subjects t')) - created t' - updated t'
         = Z.of_nat (List.length (saved_subjects t)) - created t - updated t.
Proof.
  intros Hint. induction subject_ids as [| sid rest IH]; intros idx t db Hinv.
  - exists t, db. split; [reflexivity |]. split; [exact Hinv |]. simpl. lia.
  - assert (Herr : exists t' db',
              grade_entry.save_scores int st scores (S idx) rest
                (grade_entry.count_error t) db = Return (t', db')
              /\ saved_from st db0 db'
              /\ created t' + updated t' + errors t'
                 = created t + updated t + errors t + Z.of_nat (List.length (sid :: rest))
              /\ created t <= created t' /\ updated t <= updated t' /\ errors t <= errors t'
              /\ Z.of_nat (List.length (saved_subjects t')) - created t' - updated t'
                 = Z.of_nat (List.length (saved_subjects t)) - created t - updated t).
    { destruct (IH (S idx) (grade_entry.count_error t) db Hinv)
        as (t' & db' & Hrun & Hinv' & Hsum & H1 & H2 & H3 & Hlen).
      exists t', db'. split; [exact Hrun |]. split; [exact Hinv' |].
      simpl in *. lia. }
    cbn [grade_entry.save_scores].
    destruct (int sid) as [sub_id | e] eqn:Hsid.
    2:{ rewrite (Hint _ _ Hsid). simpl String.eqb. exact Herr. }
    destruct (grade_entry.score_at int scores idx) as [v |] eqn:Hscore; [| exact Herr].
    unfold bind at 1. unfold views.query at 1. cbv beta iota.
    destruct (find (fun s => Subject.id s =? sub_id) (Subject_objects db)) as [s |] eqn:Hfind;
      [| exact Herr].
    pose proof Hinv as (_ & Hu & _).
    destruct (update_or_create_run st sub_id v db Hu)
      as (flag & db1 & Hrun1 & _ & Hu1 & Hdb1 & _ & Hrest1 & Hkeys1 & Hrows1).
    rewrite (bind_return _ _ _ _ _ Hrun1). cbn [snd].
    assert (Hinv1 : saved_from st db0 db1)
      by (eapply saved_from_step; eassumption).
    destruct (IH (S idx) (grade_entry.count_saved sub_id v flag t) db1 Hinv1)
      as (t' & db' & Hrun & Hinv' & Hsum & H1 & H2 & H3 & Hlen).
    exists t', db'. split; [exact Hrun |]. split; [exact Hinv' |].
    unfold grade_entry.count_saved in *.
    destruct flag; simpl in *; rewrite ?length_app in *; simpl in *; lia.
Qed.

Lemma int_ascii_value_error : raises_value_error_only int_ascii.
Proof.
  assert (Hu : forall s e, unsigned_int s = Raise e -> e = "ValueError"%string).
  { intros s e. unfold unsigned_int. destruct s; [intros H; now injection H |].
    destruct (digits_value 0 (z :: s)); [discriminate | intros H; now injection H]. }
  intros s e. unfold int_ascii. destruct s as [| c s]; [intros H; now injection H |].
  destruct (c =? 43); [apply Hu |].
  destruct (c =? 45); [| apply Hu].
  destruct (unsigned_int s) eqn:E; simpl; [discriminate |].
  intros H. injection H as <-. eapply Hu, E.
Qed.

(** X18. The POST branch of [grade_entry] accounts for every entry: with an
    [int] that raises nothing but [ValueError], on tables with one row per
    learner and subject at most, it never raises, each posted subject key is
    counted once as created, updated or in error, the list of the saved
    subjects has one entry per creation and update, and the table of subjects
    is as before. *)
Theorem grade_entry_counts_every_entry (int : str -> pyresult Z) st subject_ids scores db :
  raises_value_error_only int -> scores_unique db ->
  exists t msg st' db',
    grade_entry.post int st subject_ids scores db = Return ((t, msg, st'), db')
    /\ created t + updated t + errors t = Z.of_nat (List.length subject_ids)
    /\ Z.of_nat (List.length (saved_subjects t)) = created t + updated t
    /\ 0 <= created t /\ 0 <= updated t /\ 0 <= errors t
    /\ Subject_objects db' = Subject_objects db.
Proof.
  intros Hint Hu.
  destruct (save_scores_run int st scores db Hint subject_ids 0%nat grade_entry.start db
              (saved_from_refl st db Hu))
    as (t & db1 & Hrun & (Hdb1 & _) & Hsum & H1 & H2 & H3 & Hlen).
  destruct (auto_promote_runs st db1) as ([msg st'] & db2 & Hp & Hs2 & _).
  exists t, msg, st', db2. split.
  { unfold grade_entry.post. rewrite (bind_return _ _ _ _ _ Hrun).
    rewrite (bind_return _ _ _ _ _ Hp). reflexivity. }
  simpl in *. repeat split; try lia.
  rewrite Hs2, Hdb1. reflexivity.
Qed.

Lemma grade_entry_counts_every_entry_witness :
  exists t msg st' db',
    grade_entry.post int_ascii (learner (Some aali) false [2] [])
      [codes "2"; codes "x"; codes "9"; codes "1"] [codes " 50 "; codes "70"; codes "10"; codes "101"]
      (sample_db 49)
    = Return ((t, msg, st'), db')
    /\ created t + updated t + errors t = 4
    /\ Z.of_nat (List.length (saved_subjects t)) = created t + updated t
    /\ 0 <= created t /\ 0 <= updated t /\ 0 <= errors t
    /\ Subject_objects db' = Subject_objects (sample_db 49).
Proof.
  apply (grade_entry_counts_every_entry int_ascii (learner (Some aali) false [2] [])
           [codes "2"; codes "x"; codes "9"; codes "1"]
           [codes " 50 "; codes "70"; codes "10"; codes "101"] (sample_db 49)).
  - exact int_ascii_value_error.
  - unfold scores_unique. simpl. distinct.
Defined.

(** X19. The POST branch of [grade_entry] keeps the table of scores sound:
    the rows keep distinct keys and no key is lost, the rows of the other
    learners are as before, every score it stores is none or in 0..100, and
    every row it stores points to a subject of the table. *)
Theorem grade_entry_keeps_scores_sound (int : str -> pyresult Z) st subject_ids scores db :
  raises_value_error_only int -> scores_unique db ->
  exists r db',
    grade_entry.post int st subject_ids scores db = Return (r, db')
    /\ scores_unique db'
    /\ incl (map score_key (StudentScore_objects db)) (map score_key (StudentScore_objects db'))
    /\ filter (fun r => negb (of_student st r)) (StudentScore_objects db')
       = filter (fun r => negb (of_student st r)) (StudentScore_objects db)
    /\ ((forall r, In r (StudentScore_objects db) -> score_in_range r = true) ->
        forall r, In r (StudentScore_objects db') -> score_in_range r = true)
    /\ (scores_refer_to_subjects db -> scores_refer_to_subjects db').
Proof.
  intros Hint Hu.
  destruct (save_scores_run int st scores db Hint subject_ids 0%nat grade_entry.start db
              (saved_from_refl st db Hu))
    as (t & db1 & Hrun & (Hdb1 & Hu1 & Hother & Hkeys & Hrows) & _).
  destruct (auto_promote_runs st db1) as ([msg st'] & db2 & Hp & Hsub2 & Hsc2).
  exists (t, msg, st'), db2. split.
  { unfold grade_entry.post. rewrite (bind_return _ _ _ _ _ Hrun).
    rewrite (bind_return _ _ _ _ _ Hp). reflexivity. }
  unfold scores_unique, scores_refer_to_subjects in *. rewrite Hsc2, Hsub2.
  split; [exact Hu1 |]. split; [exact Hkeys |]. split; [exact Hother |]. split.
  - intros Hall r Hr. destruct (Hrows r Hr) as [Hin | (_ & Hrange & _)]; auto.
  - intros Hall r Hr. rewrite Hdb1. simpl Subject_objects.
    destruct (Hrows r Hr) as [Hin | (_ & _ & Hs)]; auto.
Qed.

Lemma grade_entry_keeps_scores_sound_witness :
  exists r db',
    grade_entry.post int_ascii (learner (Some aali) false [2] [])
      [codes "2"; codes "9"] [codes "50"; codes "70"] (sample_db 49)
    = Return (r, db')
    /\ scores_unique db'
    /\ incl (map score_key (StudentScore_objects (sample_db 49)))
         (map score_key (StudentScore_objects db'))
    /\ filter (fun r => negb (of_student (learner (Some aali) false [2] []) r))
         (StudentScore_objects db')
       = filter (fun r => negb (of_student (learner (Some aali) false [2] []) r))
           (StudentScore_objects (sample_db 49))
    /\ ((forall r, In r (StudentScore_objects (sample_db 49)) -> score_in_range r = true) ->
        forall r, In r (StudentScore_objects db') -> score_in_range r = true)
    /\ (scores_refer_to_subjects (sample_db 49) -> scores_refer_to_subjects db').
Proof.
  apply (grade_entry_keeps_scores_sound int_ascii (learner (Some aali) false [2] [])
           [codes "2"; codes "9"] [codes "50"; codes "70"] (sample_db 49)).
  - exact int_ascii_value_error.
  - unfold scores_unique. simpl. distinct.
Defined.

Lemma resolved_subjects_same st db db' :
  Subject_objects db' = Subject_objects db ->
  resolved_subjects st db' = resolved_subjects st db.
Proof. unfold resolved_subjects. now intros ->. Qed.

Lemma resolved_subjects_in_table st db s :
  In s (resolved_subjects st db) -> In s (Subject_objects db).
Proof.
  unfold resolved_subjects.
  destruct (upper (effective_level_code st)).
  - destruct (latest_semester st); [| contradiction]. intros H.
    apply (Permutation_in _ (order_by_id_perm _)) in H.
    apply filter_In in H as [H _]. apply filter_In in H as [H _]. exact H.
  - destruct (middle_or_lower (effective_level_code st)); [| contradiction].
    destruct (latest_period st); [| contradiction]. intros H.
    apply (Permutation_in _ (order_by_id_perm _)) in H.
    apply filter_In in H as [H _]. apply filter_In in H as [H _]. exact H.
Qed.

(** X20. The score entered decides the promotion.  When one subject due is
    posted with a usable score and every other subject due is passed, the POST
    branch of [grade_entry] saves the score and reports a promotion exactly
    when the score is 50 or more; with an empty score or one below 50 it
    reports nothing and leaves the learner as it was. *)
Theorem entered_score_decides_promotion (int : str -> pyresult Z) st s sid scores v db :
  subject_ids_unique db -> scores_unique db ->
  Student.is_graduated st = false ->
  In s (resolved_subjects st db) ->
  int sid = Return (Subject.id s) ->
  grade_entry.score_at int scores 0 = Some v ->
  (forall s2, In s2 (resolved_subjects st db) -> Subject.id s2 <> Subject.id s ->
     passed db st s2 = true) ->
  exists t msg st' db',
    grade_entry.post int st [sid] scores db = Return ((t, msg, st'), db')
    /\ created t + updated t = 1
    /\ records db' st s = [StudentScore.mk (Student.id st) (Subject.id s) v]
    /\ match v with
       | Some x => if 50 <=? x then msg <> None else msg = None /\ st' = st
       | None => msg = None /\ st' = st
       end.
Proof.
  intros Hids Hu Hg Hdue Hsid Hscore Hothers.
  destruct (find (fun x => Subject.id x =? Subject.id s) (Subject_objects db))
    as [s0 |] eqn:Hfind.
  2:{ pose proof (find_none _ _ Hfind s (resolved_subjects_in_table _ _ _ Hdue)) as Hno.
      cbv beta in Hno. rewrite Z.eqb_refl in Hno. discriminate. }
  destruct (update_or_create_run st (Subject.id s) v db Hu)
    as (flag & db1 & Hrun1 & _ & Hu1 & Hdb1 & Hone & Hrest & _).
  assert (Hsub1 : Subject_objects db1 = Subject_objects db) by (rewrite Hdb1; reflexivity).
  assert (Hpassed : forall s2, In s2 (resolved_subjects st db) ->
            passed db1 st s2
            = if Subject.id s2 =? Subject.id s
              then match v with Some x => 50 <=? x | None => false end
              else true).
  { intros s2 Hin. destruct (Subject.id s2 =? Subject.id s) eqn:Hid.
    - apply Z.eqb_eq in Hid. unfold passed. rewrite records_are_matches, Hid, Hone.
      simpl. destruct v; simpl; [apply andb_true_r | reflexivity].
    - apply Z.eqb_neq in Hid. rewrite <- (Hothers s2 Hin Hid).
      unfold passed. rewrite !records_are_matches.
      rewrite (Hrest (grade_entry.matches st (Subject.id s2))); [reflexivity |].
      intros r Hr. apply matches_key in Hr.
      destruct (grade_entry.matches st (Subject.id s2) r) eqn:Hr2; [| reflexivity].
      apply matches_key in Hr2. congruence. }
  destruct (auto_promote_flow st db1 Hg) as (db2 & Hs2 & Hflow). cbv zeta in Hflow.
  rewrite (resolved_subjects_same st db db1 Hsub1) in Hflow.
  assert (Hev : evaluable (resolved_subjects st db) = true).
  { destruct (resolved_subjects st db); [contradiction | reflexivity]. }
  rewrite Hev in Hflow. cbn [andb] in Hflow.
  assert (Hrec : forall db3, StudentScore_objects db3 = StudentScore_objects db1 ->
            records db3 st s = [StudentScore.mk (Student.id st) (Subject.id s) v]).
  { intros db3 H3. rewrite records_are_matches, H3. exact Hone. }
  assert (Hpost : forall r db3,
            views._auto_promote_student st db1 = Return (r, db3) ->
            grade_entry.post int st [sid] scores db
            = Return ((grade_entry.count_saved (Subject.id s) v flag grade_entry.start,
                       fst r, snd r), db3)).
  { intros r db3 Hp. unfold grade_entry.post. cbn [grade_entry.save_scores].
    rewrite Hsid, Hscore.
    match goal with
    | |- bind ?loop _ _ = _ =>
        assert (Hloop : loop db
                        = Return (grade_entry.count_saved (Subject.id s) v flag
                                    grade_entry.start, db1))
    end.
    { unfold bind at 1. unfold views.query at 1. cbv beta iota. rewrite Hfind.
      rewrite (bind_return _ _ _ _ _ Hrun1). reflexivity. }
    rewrite (bind_return _ _ _ _ _ Hloop), (bind_return _ _ _ _ _ Hp). reflexivity. }
  assert (Hone_saved : created (grade_entry.count_saved (Subject.id s) v flag grade_entry.start)
                       + updated (grade_entry.count_saved (Subject.id s) v flag
                                    grade_entry.start) = 1)
    by (destruct flag; reflexivity).
  assert (Hids1 : NoDup (map Subject.id (resolved_subjects st db))).
  { apply resolved_subjects_unique. exact Hids. }
  destruct (match v with Some x => 50 <=? x | None => false end) eqn:Hv.
  - assert (Hok : scores_ok db1 st (resolved_subjects st db) = true).
    { apply scores_ok_when_all_passed; [exact Hids1 |].
      intros s2 Hin. rewrite (Hpassed s2 Hin). now destruct (Subject.id s2 =? Subject.id s). }
    rewrite Hok in Hflow.
    destruct v as [x |]; [| discriminate]. rewrite Hv.
    destruct (current_ordinal st) as [n |]; [| contradiction].
    destruct (ceiling st <=? n).
    { eexists _, _, _, db2. split; [apply Hpost, Hflow |].
      split; [exact Hone_saved |]. split; [apply Hrec, Hs2 |]. simpl. discriminate. }
    destruct Hflow as (db3 & Hs3 & Hflow).
    destruct (upper (effective_level_code st)); destruct Hflow as [Hflow _];
      eexists _, _, _, db3; (split; [apply Hpost, Hflow |]);
      (split; [exact Hone_saved |]); (split; [apply Hrec, Hs3 |]); simpl; discriminate.
  - assert (Hok : scores_ok db1 st (resolved_subjects st db) = false).
    { apply (scores_not_ok_when_one_failed db1 st _ s Hu1 Hdue).
      rewrite (Hpassed s Hdue), Z.eqb_refl. reflexivity. }
    rewrite Hok in Hflow.
    eexists _, _, _, db2. split; [apply Hpost, Hflow |].
    split; [exact Hone_saved |]. split; [apply Hrec, Hs2 |].
    destruct v as [x |]; [rewrite Hv |]; split; reflexivity.
Qed.

Lemma entered_score_decides_promotion_witness :
  exists t msg st' db',
    grade_entry.post int_ascii (learner (Some aali) false [2] []) [codes "2"] [codes "50"]
      (sample_db 49)
    = Return ((t, msg, st'), db')
    /\ created t + updated t = 1
    /\ records db' (learner (Some aali) false [2] []) (Subject.mk 2 None (Some 2) None)
       = [StudentScore.mk 7 2 (Some 50)]
    /\ (if 50 <=? 50 then msg <> None
        else msg = None /\ st' = learner (Some aali) false [2] []).
Proof.
  apply (entered_score_decides_promotion int_ascii (learner (Some aali) false [2] [])
           (Subject.mk 2 None (Some 2) None) (codes "2") [codes "50"] (Some 50)
           (sample_db 49)).
  - unfold subject_ids_unique. simpl. distinct.
  - unfold scores_unique. simpl. distinct.
  - reflexivity.
  - vm_compute. auto.
  - reflexivity.
  - reflexivity.
  - intros s2 Hin Hne. vm_compute in Hin.
    destruct Hin as [<- | [<- | []]]; [reflexivity | now elim Hne].
Defined.

(** ** The checks of the forms *)

Lemma first_by_number_desc_some {A : Type} (number : A -> Z) (x : A) (qs : list A) :
  first_by_number_desc number (x :: qs) <> None.
Proof.
  simpl. destruct (first_by_number_desc number qs) as [y |]; [| discriminate].
  destruct (number x <? number y); discriminate.
Qed.

(** What [StudentForm.clean] does, in full. *)
Lemma student_form_clean_all (f : StudentForm.cleaned_data * form_errors) :
  (exists added, snd (StudentForm.clean f) = snd f ++ added)
  /\ (StudentForm.level (fst f) = None ->
      StudentForm.clean f
      = (fst f, snd f ++ [("level", "لطفاً سطح آموزشی را انتخاب کنید.")]%string))
  /\ (forall l, StudentForm.level (fst f) = Some l ->
        if String.eqb (StudyLevel.code l) "aali"
        then StudentForm.periods (fst (StudentForm.clean f)) = Some []
        else StudentForm.semesters (fst (StudentForm.clean f)) = Some [])
  /\ (snd (StudentForm.clean f) = [] ->
      exists l,
        StudentForm.level (fst (StudentForm.clean f)) = Some l
        /\ StudentForm.level (fst f) = Some l
        /\ (if String.eqb (StudyLevel.code l) "aali"
            then StudentForm.checked (StudentForm.is_grade12_graduate (fst f)) = true
                 /\ StudentForm.chosen (StudentForm.semesters (fst (StudentForm.clean f))) = true
            else StudentForm.checked (StudentForm.is_grade12_graduate (fst f)) = false
                 /\ StudentForm.chosen (StudentForm.periods (fst (StudentForm.clean f))) = true)
        /\ (forall c cl, StudentForm.school_class (fst f) = Some c ->
              SchoolClass.level c = Some cl -> StudyLevel.code cl = StudyLevel.code l)).
Proof.
  destruct f as [[level is_grad semesters periods school_class] errs].
  unfold StudentForm.clean. cbn [fst snd StudentForm.level StudentForm.is_grade12_graduate
    StudentForm.semesters StudentForm.periods StudentForm.school_class].
  destruct level as [l |].
  2:{ split; [eexists; reflexivity |]. split; [reflexivity |].
      split; [discriminate |]. simpl. intros H. now destruct errs. }
  assert (Hclass : forall g : StudentForm.cleaned_data * form_errors,
            let g' := match school_class with
                      | Some c =>
                          match SchoolClass.level c with
                          | Some class_level =>
                              if negb (StudyLevel.same class_level l)
                              then StudentForm.add_error "level"
                                     "سطح انتخاب‌شده با سطح صنف انتخاب‌شده مطابقت ندارد." g
                              else g
                          | None => g
                          end
                      | None => g
                      end in
            (exists added, snd g' = snd g ++ added)
            /\ StudentForm.periods (fst g') = StudentForm.periods (fst g)
            /\ StudentForm.semesters (fst g') = StudentForm.semesters (fst g)
            /\ (snd g' = [] ->
                snd g = [] /\ g' = g
                /\ forall c cl, school_class = Some c -> SchoolClass.level c = Some cl ->
                     StudyLevel.code cl = StudyLevel.code l)).
  { intros g. destruct school_class as [c |]; cbv zeta.
    2:{ split; [exists []; now rewrite app_nil_r |]. repeat split; auto; discriminate. }
    destruct (SchoolClass.level c) as [cl |] eqn:Hcl.
    2:{ split; [exists []; now rewrite app_nil_r |]. repeat split; auto.
        intros c0 cl0 Hc. injection Hc as <-. congruence. }
    destruct (StudyLevel.same cl l) eqn:Hsame; cbn [negb].
    - split; [exists []; now rewrite app_nil_r |]. repeat split; auto.
      intros c0 cl0 Hc Hlv. injection Hc as <-. rewrite Hcl in Hlv. injection Hlv as <-.
      now apply String.eqb_eq.
    - split; [eexists; reflexivity |]. split; [reflexivity |]. split; [reflexivity |].
      simpl. intros Hnil. destruct (snd g); discriminate. }
  destruct (String.eqb (StudyLevel.code l) "aali") eqn:Hcode.
  - match goal with
    | |- context [ match school_class with Some _ => _ | None => ?g end ] =>
        destruct (Hclass g) as ((added & Hadd) & Hper & Hsem & Hvalid); cbv zeta in *
    end.
    split.
    { rewrite Hadd. destruct (StudentForm.checked is_grad), (StudentForm.chosen semesters);
        simpl; rewrite <- ?app_assoc; eexists; reflexivity. }
    split; [discriminate |]. split.
    { intros l0 H. injection H as <-. rewrite Hcode, Hper.
      destruct (StudentForm.checked is_grad), (StudentForm.chosen semesters); reflexivity. }
    intros Hnone. destruct (Hvalid Hnone) as (Hnil & -> & Hcl).
    exists l. rewrite Hcode.
    destruct (StudentForm.checked is_grad), (StudentForm.chosen semesters) eqn:Hch;
      simpl in Hnil; try (destruct errs; discriminate).
    simpl. rewrite Hch. auto.
  - match goal with
    | |- context [ match school_class with Some _ => _ | None => ?g end ] =>
        destruct (Hclass g) as ((added & Hadd) & Hper & Hsem & Hvalid); cbv zeta in *
    end.
    split.
    { rewrite Hadd. destruct (StudentForm.checked is_grad), (StudentForm.chosen periods);
        simpl; rewrite <- ?app_assoc; eexists; reflexivity. }
    split; [discriminate |]. split.
    { intros l0 H. injection H as <-. rewrite Hcode, Hsem.
      destruct (StudentForm.checked is_grad), (StudentForm.chosen periods); reflexivity. }
    intros Hnone. destruct (Hvalid Hnone) as (Hnil & -> & Hcl).
    exists l. rewrite Hcode.
    destruct (StudentForm.checked is_grad), (StudentForm.chosen periods) eqn:Hch;
      simpl in Hnil; try (destruct errs; discriminate).
    simpl. rewrite Hch. auto.
Qed.

(** X21. [StudentForm.clean] only adds errors; with no level it reports that
    and nothing else; with a level it always empties the markers of the other
    kind (the periods for the upper level, the semesters otherwise), whatever
    was posted and whatever else was wrong. *)
Theorem student_form_clean_checks (f : StudentForm.cleaned_data * form_errors) :
  (exists added, snd (StudentForm.clean f) = snd f ++ added)
  /\ (StudentForm.level (fst f) = None ->
      StudentForm.clean f
      = (fst f, snd f ++ [("level", "لطفاً سطح آموزشی را انتخاب کنید.")]%string))
  /\ (forall l, StudentForm.level (fst f) = Some l ->
        if String.eqb (StudyLevel.code l) "aali"
        then StudentForm.periods (fst (StudentForm.clean f)) = Some []
        else StudentForm.semesters (fst (StudentForm.clean f)) = Some []).
Proof.
  destruct (student_form_clean_all f) as (H1 & H2 & H3 & _). auto.
Qed.

(** X22. A learner accepted by [StudentForm.clean] has a term for the
    promotion to work with: when the form ends without an error, a learner
    that carries its level and its markers has that level as its effective
    level, the grade-12 flag exactly at the upper level, a class group of the
    same level if of any, semester markers and no period marker at the upper
    level, period markers and no semester marker otherwise, and a current
    term at each of the three levels of the reference data. *)
Theorem accepted_learner_has_a_term (f : StudentForm.cleaned_data * form_errors) st :
  snd (StudentForm.clean f) = [] ->
  StudentForm.level (fst (StudentForm.clean f)) = Student.level st ->
  StudentForm.semesters (fst (StudentForm.clean f)) = Some (Student.semesters st) ->
  StudentForm.periods (fst (StudentForm.clean f)) = Some (Student.periods st) ->
  exists l,
    Student.level st = Some l
    /\ effective_level_code st = StudyLevel.code l
    /\ StudentForm.checked (StudentForm.is_grade12_graduate (fst f)) = upper (StudyLevel.code l)
    /\ (forall c cl, StudentForm.school_class (fst f) = Some c ->
          SchoolClass.level c = Some cl -> StudyLevel.code cl = StudyLevel.code l)
    /\ (if upper (StudyLevel.code l)
        then Student.periods st = [] /\ Student.semesters st <> []
             /\ current_ordinal st <> None
        else Student.semesters st = [] /\ Student.periods st <> []
             /\ (middle_or_lower (StudyLevel.code l) = true -> current_ordinal st <> None)).
Proof.
  intros Hvalid Hlevel Hsem Hper.
  destruct (student_form_clean_all f) as (_ & _ & Hother & Hall).
  destruct (Hall Hvalid) as (l & Hl' & Hl & Hkind & Hclass).
  specialize (Hother l Hl).
  exists l. rewrite Hl' in Hlevel.
  assert (Hcode : effective_level_code st = StudyLevel.code l).
  { unfold effective_level_code, own_or_class_level. now rewrite <- Hlevel. }
  split; [now symmetry |]. split; [exact Hcode |].
  unfold current_ordinal. rewrite Hcode. unfold upper in *.
  destruct (String.eqb (StudyLevel.code l) "aali").
  - destruct Hkind as [Hflag Hchosen]. split; [exact Hflag |]. split; [exact Hclass |].
    rewrite Hper in Hother. injection Hother as Hp. rewrite Hsem in Hchosen.
    split; [exact Hp |].
    destruct (Student.semesters st) as [| x qs] eqn:Hs; [discriminate |].
    split; [discriminate |]. unfold latest_semester. rewrite Hs.
    pose proof (first_by_number_desc_some Semester.number x qs) as Hsome.
    destruct (first_by_number_desc Semester.number (x :: qs)); [discriminate | now elim Hsome].
  - destruct Hkind as [Hflag Hchosen]. split; [exact Hflag |]. split; [exact Hclass |].
    rewrite Hsem in Hother. injection Hother as Hs. rewrite Hper in Hchosen.
    split; [exact Hs |].
    destruct (Student.periods st) as [| x qs] eqn:Hp; [discriminate |].
    split; [discriminate |]. intros ->. unfold latest_period. rewrite Hp.
    pose proof (first_by_number_desc_some CoursePeriod.number x qs) as Hsome.
    destruct (first_by_number_desc CoursePeriod.number (x :: qs));
      [discriminate | now elim Hsome].
Qed.

Lemma accepted_learner_has_a_term_witness :
  exists l,
    Student.level (learner (Some moteseta) false [] [3]) = Some l
    /\ effective_level_code (learner (Some moteseta) false [] [3]) = StudyLevel.code l
    /\ StudentForm.checked (Some false) = upper (StudyLevel.code l)
    /\ (forall c cl, @None SchoolClass.t = Some c ->
          SchoolClass.level c = Some cl -> StudyLevel.code cl = StudyLevel.code l)
    /\ (if upper (StudyLevel.code l)
        then Student.periods (learner (Some moteseta) false [] [3]) = []
             /\ Student.semesters (learner (Some moteseta) false [] [3]) <> []
             /\ current_ordinal (learner (Some moteseta) false [] [3]) <> None
        else Student.semesters (learner (Some moteseta) false [] [3]) = []
             /\ Student.periods (learner (Some moteseta) false [] [3]) <> []
             /\ (middle_or_lower (StudyLevel.code l) = true ->
                 current_ordinal (learner (Some moteseta) false [] [3]) <> None)).
Proof.
  apply (accepted_learner_has_a_term
           (StudentForm.mk_cleaned (Some moteseta) (Some false) (Some [Semester.mk 1])
              (Some [CoursePeriod.mk 3]) None, [])
           (learner (Some moteseta) false [] [3])); reflexivity.
Defined.

(** X23. [SubjectForm.clean] only adds errors; with no level it reports that
    and nothing else; with the upper level the subject never keeps a period,
    with another level it always has a semester, 1 when none was given; and
    when the form ends without an error the subject has its level and a
    semester, no period at the upper level and the period given otherwise. *)
Theorem subject_form_clean_checks (f : SubjectForm.cleaned_data * form_errors) :
  (exists added, snd (SubjectForm.clean f) = snd f ++ added)
  /\ (SubjectForm.level (fst f) = None ->
      SubjectForm.clean f
      = (fst f, snd f ++ [("level", "لطفاً سطح آموزشی را انتخاب کنید.")]%string))
  /\ (forall l, SubjectForm.level (fst f) = Some l ->
        if String.eqb (StudyLevel.code l) "aali"
        then SubjectForm.period (fst (SubjectForm.clean f)) = None
        else SubjectForm.given (SubjectForm.semester (fst (SubjectForm.clean f))) = true
             /\ (SubjectForm.given (SubjectForm.semester (fst f)) = false ->
                 SubjectForm.semester (fst (SubjectForm.clean f)) = Some 1))
  /\ (snd (SubjectForm.clean f) = [] ->
      exists l,
        SubjectForm.level (fst (SubjectForm.clean f)) = Some l
        /\ SubjectForm.given (SubjectForm.semester (fst (SubjectForm.clean f))) = true
        /\ (if String.eqb (StudyLevel.code l) "aali"
            then SubjectForm.semester (fst (SubjectForm.clean f)) = SubjectForm.semester (fst f)
            else SubjectForm.period (fst (SubjectForm.clean f)) = SubjectForm.period (fst f)
                 /\ SubjectForm.period (fst f) <> None)).
Proof.
  destruct f as [[level semester period] errs].
  unfold SubjectForm.clean.
  cbn [fst snd SubjectForm.level SubjectForm.semester SubjectForm.period].
  destruct level as [l |].
  2:{ split; [eexists; reflexivity |]. split; [reflexivity |].
      split; [discriminate |]. simpl. intros H. now destruct errs. }
  destruct (String.eqb (StudyLevel.code l) "aali") eqn:Hcode.
  - destruct (SubjectForm.given semester) eqn:Hsem; cbn [negb fst snd].
    + split; [exists []; now rewrite app_nil_r |]. split; [discriminate |].
      split; [intros l0 H; injection H as <-; now rewrite Hcode |].
      intros _. exists l. rewrite Hcode. auto.
    + split; [eexists; reflexivity |]. split; [discriminate |].
      split; [intros l0 H; injection H as <-; now rewrite Hcode |].
      simpl. intros H. now destruct errs.
  - destruct period as [p |]; destruct (SubjectForm.given semester) eqn:Hsem;
      cbn [negb fst snd].
    + split; [exists []; now rewrite app_nil_r |]. split; [discriminate |].
      split; [intros l0 H; injection H as <-; rewrite Hcode; split;
              [exact Hsem | discriminate] |].
      intros _. exists l. rewrite Hcode. repeat split; auto. discriminate.
    + split; [exists []; now rewrite app_nil_r |]. split; [discriminate |].
      split; [intros l0 H; injection H as <-; rewrite Hcode; split; reflexivity |].
      intros _. exists l. rewrite Hcode. repeat split; auto. discriminate.
    + split; [eexists; reflexivity |]. split; [discriminate |].
      split; [intros l0 H; injection H as <-; rewrite Hcode; split;
              [exact Hsem | discriminate] |].
      simpl. intros H. now destruct errs.
    + split; [eexists; reflexivity |]. split; [discriminate |].
      split; [intros l0 H; injection H as <-; rewrite Hcode; split; reflexivity |].
      simpl. intros H. now destruct errs.
Qed.
